(** * datINMET: ingestion and aggregation pipeline of [analyser.py]

    A shallow embedding of the processing functions of [analyser.py]
    ([read_metadata], [columns_renamer], [convert_dates], [convert_hours],
    [fix_data_hora], [read_data], [read_zipfile] and the monthly regional
    aggregation) together with the properties stated about them.

    Text is Latin-1: the files are opened with [encoding="latin-1"], so every
    character is one code point below 256 and is represented by an [ascii].
    Floating point values are represented by rationals, [None] standing for
    NaN.  Exceptions are explicit: fallible functions return a [result]. *)

From Stdlib Require Import List String Ascii Bool Arith NArith ZArith Lia.
From Stdlib Require Import QArith Qreduction Permutation DecimalString Sorted.
Import ListNotations.
Open Scope string_scope.
Open Scope nat_scope.

(** ** Exceptions *)

Inductive exn : Type :=
| StopIteration   (* next(reader) on an exhausted reader *)
| ValueError      (* unpacking, float(), strptime, to_datetime *)
| KeyError        (* a column that does not exist *)
| AttributeError  (* [.str] on a DataFrame (duplicated column label) *)
| ParserError.    (* pandas.read_csv on a body it cannot tokenize *)

Inductive result (A : Type) : Type :=
| Ok (a : A)
| Raise (e : exn).
Arguments Ok {A} a.
Arguments Raise {A} e.

Definition bind {A B} (r : result A) (k : A -> result B) : result B :=
  match r with
  | Ok a => k a
  | Raise e => Raise e
  end.

Notation "x <- r ;; k" := (bind r (fun x => k))
  (at level 61, r at next level, right associativity).
Notation "' p <- r ;; k" := (bind r (fun x => match x with p => k end))
  (at level 61, p pattern, r at next level, right associativity).

(** ** Strings *)

Module Str.

(** Latin-1 code points used by the patterns of [columns_renamer]. *)
Definition a_tilde : ascii := ascii_of_nat 227.  (* a with tilde *)
Definition a_acute : ascii := ascii_of_nat 225.  (* a with acute *)
Definition c_cedil : ascii := ascii_of_nat 231.  (* c with cedilla *)
Definition e_acute : ascii := ascii_of_nat 233.  (* e with acute *)
Definition i_acute : ascii := ascii_of_nat 237.  (* i with acute *)
Definition newline : ascii := ascii_of_nat 10.

(** [str.lower] on one Latin-1 character: A-Z and the accented capitals
    192..222 (the multiplication sign 215 apart) move up by 32. *)
Definition lower_char (c : ascii) : ascii :=
  let n := nat_of_ascii c in
  if ((65 <=? n) && (n <=? 90)) || ((192 <=? n) && (n <=? 222) && negb (n =? 215))
  then ascii_of_nat (n + 32)
  else c.

Fixpoint lower (s : string) : string :=
  match s with
  | EmptyString => EmptyString
  | String c s' => String (lower_char c) (lower s')
  end.

(** [s.replace(a, b)] for one-character [a] and [b]. *)
Fixpoint replace (a b : ascii) (s : string) : string :=
  match s with
  | EmptyString => EmptyString
  | String c s' => String (if Ascii.eqb c a then b else c) (replace a b s')
  end.

(** [s[:n]] and [s[n:]]. *)
Fixpoint take (n : nat) (s : string) : string :=
  match n, s with
  | S n', String c s' => String c (take n' s')
  | _, _ => EmptyString
  end.

Fixpoint drop (n : nat) (s : string) : string :=
  match n, s with
  | S n', String _ s' => drop n' s'
  | _, _ => s
  end.

Fixpoint startswith (p s : string) : bool :=
  match p, s with
  | EmptyString, _ => true
  | String a p', String b s' => Ascii.eqb a b && startswith p' s'
  | String _ _, EmptyString => false
  end.

Definition endswith (p s : string) : bool :=
  (String.length p <=? String.length s)
  && String.eqb (drop (String.length s - String.length p) s) p.

Definition is_digit (c : ascii) : bool :=
  let n := nat_of_ascii c in (48 <=? n) && (n <=? 57).

Definition digit_val (c : ascii) : nat := nat_of_ascii c - 48.

(** Value of a run of decimal digits, [None] when a character is not one. *)
Fixpoint nat_of_digits_acc (acc : nat) (s : string) : option nat :=
  match s with
  | EmptyString => Some acc
  | String c s' =>
      if is_digit c then nat_of_digits_acc (10 * acc + digit_val c) s' else None
  end.

Definition nat_of_digits (s : string) : option nat :=
  match s with
  | EmptyString => None
  | _ => nat_of_digits_acc 0 s
  end.

End Str.

(** ** Regular expressions

    Every pattern of the program is a sequence of single-character classes,
    possibly closed by [$].  [re.match] anchors at the start of the string. *)

Module Re.

Definition charclass := ascii -> bool.

Definition chr (c : ascii) : charclass := Ascii.eqb c.
Definition one_of (a b : ascii) : charclass :=
  fun c => Ascii.eqb c a || Ascii.eqb c b.
Definition cat (ps : list (list charclass)) : list charclass := List.concat ps.
Definition digit : charclass := Str.is_digit.

Fixpoint lit (s : string) : list charclass :=
  match s with
  | EmptyString => []
  | String c s' => chr c :: lit s'
  end.

(** Consumes the pattern at the start of [s]; the rest of [s] when it matches. *)
Fixpoint consume (p : list charclass) (s : string) : option string :=
  match p, s with
  | [], _ => Some s
  | k :: p', String c s' => if k c then consume p' s' else None
  | _ :: _, EmptyString => None
  end.

(** [$] matches at the end of the string and just before a final newline. *)
Definition at_end (s : string) : bool :=
  match s with
  | EmptyString => true
  | String c EmptyString => Ascii.eqb c Str.newline
  | _ => false
  end.

(** [re.match(p, s)] is not [None]. *)
Definition matches (p : list charclass) (s : string) : bool :=
  match consume p s with Some _ => true | None => false end.

(** [re.match(p + "$", s)] is not [None]. *)
Definition matches_to_end (p : list charclass) (s : string) : bool :=
  match consume p s with Some rest => at_end rest | None => false end.

End Re.

(** ** [columns_renamer] *)

Import Re.

(** The patterns of [columns_renamer], in the order of its [if] statements. *)
Definition renamer_rules : list (list charclass * string) :=
  let cedil := [one_of Str.c_cedil "c"] in
  let tilde := [one_of Str.a_tilde "a"] in
  let a_ac := [one_of Str.a_acute "a"] in
  let e_ac := [one_of Str.e_acute "e"] in
  let i_ac := [one_of Str.i_acute "i"] in
  [ (lit "data", "data");
    (lit "hora", "hora");
    (cat [lit "precipita"; cedil; tilde; lit "o"], "precipitacao");
    (cat [lit "press"; tilde; lit "o atmosf"; e_ac; lit "rica ao n"; i_ac; lit "vel"],
      "pressao_atmosferica");
    (cat [lit "press"; tilde; lit "o atmosf"; e_ac; lit "rica m"; a_ac; lit "x"],
      "pressao_atmosferica_maxima");
    (cat [lit "press"; tilde; lit "o atmosf"; e_ac; lit "rica m"; i_ac; lit "n"],
      "pressao_atmosferica_minima");
    (cat [lit "radia"; cedil; tilde; lit "o"], "radiacao");
    (lit "temperatura do ar", "temperatura_ar");
    (lit "temperatura do ponto de orvalho", "temperatura_orvalho");
    (cat [lit "temperatura m"; a_ac; lit "x"], "temperatura_maxima");
    (cat [lit "temperatura m"; i_ac; lit "n"], "temperatura_minima");
    (cat [lit "temperatura orvalho m"; a_ac; lit "x"], "temperatura_orvalho_maxima");
    (cat [lit "temperatura orvalho m"; i_ac; lit "n"], "temperatura_orvalho_minima");
    (cat [lit "umidade rel. m"; a_ac; lit "x"], "umidade_relativa_maxima");
    (cat [lit "umidade rel. m"; i_ac; lit "n"], "umidade_relativa_minima");
    (lit "umidade relativa do ar", "umidade_relativa");
    (cat [lit "vento, dire"; cedil; tilde; lit "o"], "vento_direcao");
    (lit "vento, rajada", "vento_rajada");
    (lit "vento, velocidade", "vento_velocidade") ].

(** First rule whose pattern matches, as the chain of [if ... return]. *)
Fixpoint first_match (rules : list (list charclass * string)) (name : string)
  : option string :=
  match rules with
  | [] => None
  | (p, canon) :: rules' =>
      if matches p name then Some canon else first_match rules' name
  end.

Definition columns_renamer (name : string) : string :=
  let name := Str.lower name in
  match first_match renamer_rules name with
  | Some canon => canon
  | None => name
  end.

(** [numeric_cols] of [read_data]. *)
Definition numeric_cols : list string :=
  [ "precipitacao"; "pressao_atmosferica"; "pressao_atmosferica_maxima";
    "pressao_atmosferica_minima"; "radiacao"; "temperatura_ar";
    "temperatura_orvalho"; "temperatura_maxima"; "temperatura_minima";
    "temperatura_orvalho_maxima"; "temperatura_orvalho_minima";
    "umidade_relativa_maxima"; "umidade_relativa_minima"; "umidade_relativa";
    "vento_direcao"; "vento_rajada"; "vento_velocidade" ].

Definition cols_to_keep : list string := (numeric_cols ++ ["data"; "hora"])%list.

(** ** [fix_hour_string], the function that [convert_hours] applies *)

Definition pat_hh_colon_mm : list charclass := [digit; digit; chr ":"; digit; digit].
Definition pat_hhmm : list charclass := [digit; digit; digit; digit].
Definition pat_hh_utc : list charclass := cat [[digit; digit]; lit " UTC"].
Definition pat_hh : list charclass := [digit; digit].

Definition fix_hour_string (hour : string) : string :=
  if matches_to_end pat_hh_colon_mm hour then hour
  else if matches_to_end pat_hhmm hour then Str.take 2 hour ++ ":" ++ Str.drop 2 hour
  else if matches_to_end pat_hh_utc hour then Str.take 2 hour ++ ":00"
  else
    match consume pat_hh hour with
    | Some _ => Str.take 2 hour ++ ":00"   (* match.group(0) is hour[:2] *)
    | None => "00:00"
    end.

(** ** Dates and times *)

Record datetime : Type := mk_datetime
  { year : nat; month : nat; day : nat; hour : nat; minute : nat }.

Definition is_leap (y : nat) : bool :=
  (y mod 4 =? 0) && (negb (y mod 100 =? 0) || (y mod 400 =? 0)).

Definition days_in_month (y m : nat) : nat :=
  match m with
  | 1 | 3 | 5 | 7 | 8 | 10 | 12 => 31
  | 4 | 6 | 9 | 11 => 30
  | 2 => if is_leap y then 29 else 28
  | _ => 0
  end.

(** The check of the [datetime] constructor (MINYEAR is 1). *)
Definition valid_date (y m d : nat) : bool :=
  (1 <=? y) && (1 <=? m) && (m <=? 12) && (1 <=? d) && (d <=? days_in_month y m).

(** The whole string is the pattern: [strptime] refuses unconverted data. *)
Definition matches_exactly (p : list charclass) (s : string) : bool :=
  match consume p s with
  | Some EmptyString => true
  | _ => false
  end.

Definition field (start len : nat) (s : string) : option nat :=
  Str.nat_of_digits (Str.take len (Str.drop start s)).

(** [dt.datetime.strptime(s, "%Y-%m-%d")], for [s] that starts with four
    digits, a dash, two digits, a dash and two digits. *)
Definition strptime_Ymd (s : string) : result datetime :=
  if matches_exactly [digit; digit; digit; digit; chr "-"; digit; digit; chr "-"; digit; digit] s
  then
    match field 0 4 s, field 5 2 s, field 8 2 s with
    | Some y, Some m, Some d =>
        if valid_date y m d then Ok (mk_datetime y m d 0 0) else Raise ValueError
    | _, _, _ => Raise ValueError
    end
  else Raise ValueError.

(** [dt.datetime.strptime(s, "%d/%m/%y")], for [s] that starts with two
    digits, a slash, two digits, a slash and two digits.  A two-digit year up
    to 68 is in the 2000s, from 69 on in the 1900s. *)
Definition strptime_dmy (s : string) : result datetime :=
  if matches_exactly [digit; digit; chr "/"; digit; digit; chr "/"; digit; digit] s
  then
    match field 0 2 s, field 3 2 s, field 6 2 s with
    | Some d, Some m, Some yy =>
        let y := if yy <=? 68 then 2000 + yy else 1900 + yy in
        if valid_date y m d then Ok (mk_datetime y m d 0 0) else Raise ValueError
    | _, _, _ => Raise ValueError
    end
  else Raise ValueError.

(** ** Library functions the program calls

    The parsers of Python and pandas whose input language is not fixed by the
    program are parameters of the development. *)

Class Runtime : Type :=
  { (** [float(s)]; [None] when it raises [ValueError]. *)
    py_float : string -> option Q;
    (** [pd.to_numeric(..., errors="coerce")] on one string; [None] is NaN. *)
    to_numeric : string -> option Q;
    (** [pd.to_datetime(..., format="%Y-%m-%d %H:%M")] on one string; [None]
        when it raises [ValueError]. *)
    to_datetime : string -> option datetime;
    (** The strings [pd.read_csv] reads as NaN by default. *)
    default_na : list string;
    (** [strftime("%B")] of a month number under the current locale. *)
    month_name : nat -> string }.

(** ** [read_metadata] *)

(** The value stored under ["data_fundacao"]: a [datetime] after [strptime],
    the string read from the file otherwise. *)
Inductive founding : Type :=
| FoundingDate (d : datetime)
| FoundingRaw (s : string).

Record metadata : Type := mk_metadata
  { regiao : string;
    uf : string;
    estacao : string;
    codigo_wmo : string;
    latitude : option Q;       (* None is np.nan *)
    longitude : option Q;
    altitude : option Q;
    data_fundacao : founding }.

(** What is written to the standard error stream. *)
Inductive log_msg : Type :=
| ErroMetadados (e : exn)                      (* "Erro ao ler metadados: {e}" *)
| ErroProcessar (filename : string) (e : exn). (* "Erro ao processar {filename}: {e}" *)

(** [_, v = next(reader)]: the next row of the [csv.reader], which must have
    exactly two fields. *)
Definition next_pair (reader : list (list string))
  : result (string * list (list string)) :=
  match reader with
  | [] => Raise StopIteration
  | [_; v] :: reader' => Ok (v, reader')
  | _ :: _ => Raise ValueError
  end.

Definition pat_iso_date : list charclass :=
  [digit; digit; digit; digit; chr "-"; digit; digit; chr "-"; digit; digit].
Definition pat_br_date : list charclass :=
  [digit; digit; chr "/"; digit; digit; chr "/"; digit; digit].

Section Pipeline.

Context {RT : Runtime}.

(** [try: x = float(x.replace(",", ".")) except: x = np.nan]. *)
Definition float_or_nan (s : string) : option Q :=
  py_float (Str.replace "," "." s).

Definition parse_founding (s : string) : result founding :=
  if matches pat_iso_date s then
    d <- strptime_Ymd s ;; Ok (FoundingDate d)
  else if matches pat_br_date s then
    d <- strptime_dmy s ;; Ok (FoundingDate d)
  else Ok (FoundingRaw s).

(** The body of the [try] block of [read_metadata]. *)
Definition read_metadata_try (reader : list (list string)) : result metadata :=
  '(regiao, reader) <- next_pair reader ;;
  '(uf, reader) <- next_pair reader ;;
  '(estacao, reader) <- next_pair reader ;;
  '(codigo_wmo, reader) <- next_pair reader ;;
  '(latitude, reader) <- next_pair reader ;;
  let latitude := float_or_nan latitude in
  '(longitude, reader) <- next_pair reader ;;
  let longitude := float_or_nan longitude in
  '(altitude, reader) <- next_pair reader ;;
  let altitude := float_or_nan altitude in
  '(data_fundacao, reader) <- next_pair reader ;;
  data_fundacao <- parse_founding data_fundacao ;;
  Ok (mk_metadata regiao uf estacao codigo_wmo latitude longitude altitude data_fundacao).

(** [read_metadata]: the descriptor, or [None] for the empty dictionary
    returned after an exception, with what was printed. *)
Definition read_metadata (reader : list (list string))
  : option metadata * list log_msg :=
  match read_metadata_try reader with
  | Ok meta => (Some meta, [])
  | Raise e => (None, [ErroMetadados e])
  end.

End Pipeline.

(** ** Data frames

    A frame is its list of column labels and its rows; a row pairs every
    label with the value of the row in that column, in the order of the
    labels.  A label can occur more than once. *)

Inductive value : Type :=
| NA                     (* NaN and NaT *)
| VStr (s : string)
| VNum (q : Q)
| VTime (t : datetime).

Definition isnull (v : value) : bool :=
  match v with NA => true | _ => false end.

Definition row : Type := list (string * value).

Record DataFrame : Type := mk_frame
  { columns : list string; rows : list row }.

(** [pd.DataFrame()] *)
Definition empty_frame : DataFrame := mk_frame [] [].

(** [d.empty]: an axis of length 0. *)
Definition df_empty (d : DataFrame) : bool :=
  match columns d, rows d with
  | [], _ => true
  | _, [] => true
  | _, _ => false
  end.

(** [c in l] *)
Definition mem (c : string) (l : list string) : bool := existsb (String.eqb c) l.

Fixpoint count (c : string) (l : list string) : nat :=
  match l with
  | [] => 0
  | x :: l' => (if String.eqb c x then 1 else 0) + count c l'
  end.

(** The value of a row in a column, NaN when the row has no such column. *)
Fixpoint get (c : string) (r : row) : value :=
  match r with
  | [] => NA
  | (k, v) :: r' => if String.eqb c k then v else get c r'
  end.

(** [d.rename(columns=f)] *)
Definition rename (f : string -> string) (d : DataFrame) : DataFrame :=
  mk_frame (map f (columns d))
           (map (map (fun kv : string * value => (f (fst kv), snd kv))) (rows d)).

(** [d[names]] for a list of labels that are all in [d.columns]: every column
    carrying the label, for each label in turn. *)
Definition select (names : list string) (d : DataFrame) : DataFrame :=
  mk_frame (flat_map (fun c => filter (String.eqb c) (columns d)) names)
           (map (fun r : row =>
                   flat_map (fun c => filter (fun kv => String.eqb c (fst kv)) r) names)
                (rows d)).

(** [d[col] = f(d[col])], element by element. *)
Definition map_column (col : string) (f : value -> value) (d : DataFrame) : DataFrame :=
  mk_frame (columns d)
           (map (map (fun kv : string * value =>
                        if String.eqb (fst kv) col then (fst kv, f (snd kv)) else kv))
                (rows d)).

(** One row of [d.assign(k=v)]: the column is overwritten when it exists and
    added last otherwise. *)
Definition set_cell (k : string) (v : value) (r : row) : row :=
  if mem k (map fst r)
  then map (fun kv : string * value => if String.eqb (fst kv) k then (fst kv, v) else kv) r
  else (r ++ [(k, v)])%list.

(** [d.assign(k=vs)] for a series [vs] with the index of [d]. *)
Definition assign (k : string) (vs : list value) (d : DataFrame) : DataFrame :=
  mk_frame (if mem k (columns d) then columns d else (columns d ++ [k])%list)
           (map (fun rv : row * value => set_cell k (snd rv) (fst rv))
                (combine (rows d) vs)).

(** [d.drop(columns=ks)] *)
Definition drop_columns (ks : list string) (d : DataFrame) : DataFrame :=
  mk_frame (filter (fun c => negb (mem c ks)) (columns d))
           (map (filter (fun kv : string * value => negb (mem (fst kv) ks))) (rows d)).

(** [d[c]] used as a Series: [KeyError] when no column has the label; with a
    repeated label [d[c]] is a DataFrame, which has no [.str] (the case of
    [convert_dates]; for the hour column the label is not repeated, see
    [csv_table] below). *)
Definition column (c : string) (d : DataFrame) : result (list value) :=
  match count c (columns d) with
  | 0 => Raise KeyError
  | 1 => Ok (map (get c) (rows d))
  | _ => Raise AttributeError
  end.

(** [pd.concat((data, d), ignore_index=True)]: the union of the columns, in
    order of first appearance, NaN where a frame lacks a column. *)
Definition reindex (cols : list string) (r : row) : row :=
  map (fun c => (c, get c r)) cols.

Definition concat (data d : DataFrame) : DataFrame :=
  let cols := (columns data ++ filter (fun c => negb (mem c (columns data))) (columns d))%list in
  mk_frame cols (map (reindex cols) (rows data ++ rows d)).

(** ** Input files *)

(** The table [pd.read_csv] tokenizes from line 9 on, before [usecols] and
    the NaN strings are applied: the labels of the header line (as pandas
    names them) and the fields of every data line.

    At most one of the first 19 labels is renamed to ["hora"]: what pandas
    makes of [DataFrame.apply(fix_hour_string)] on a repeated label is outside
    this development. *)
Record csv_table : Type := mk_csv
  { header : list string;
    records : list (list string);
    hora_once : (count "hora" (map columns_renamer (firstn 19 header)) <=? 1) = true }.

(** A station file, as its two readers see it: [csv.reader] in
    [read_metadata] and [pd.read_csv(skiprows=8)] in [read_data] ([Raise] when
    the pandas tokenizer fails, for instance on a file of fewer than 9 lines). *)
Record station_file : Type := mk_file
  { meta_lines : list (list string);
    table : result csv_table }.

(** An entry of [z.infolist()]. *)
Record zip_entry : Type := mk_entry
  { filename : string;
    is_dir : bool;
    content : station_file }.

Definition na_values : list string := ["-9999"; "-9999,0"].

Section Decoder.

Context {RT : Runtime}.

(** ** [pd.read_csv] *)

(** The strings read as NaN: those of [na_values], the float spelling that
    pandas adds for the one of them that is a number, and the defaults. *)
Definition na_strings : list string := (na_values ++ ["-9999.0"] ++ default_na)%list.

Definition read_cell (s : string) : value :=
  if mem s na_strings then NA else VStr s.

(** A data line under the labels; a short line is filled with NaN. *)
Fixpoint read_record (cols : list string) (fields : list string) : row :=
  match cols with
  | [] => []
  | c :: cols' =>
      match fields with
      | [] => (c, NA) :: read_record cols' []
      | s :: fields' => (c, read_cell s) :: read_record cols' fields'
      end
  end.

(** [usecols=range(19)]: indices out of bounds are refused with a plain
    [ValueError]. *)
Definition read_csv (t : csv_table) : result DataFrame :=
  if List.length (header t) <? 19 then Raise ValueError
  else
    let cols := firstn 19 (header t) in
    Ok (mk_frame cols (map (read_record cols) (records t))).

(** ** [read_data] *)

(** [pd.to_numeric(x.str.replace(',', '.'), errors='coerce')] on one element. *)
Definition numeric_cell (v : value) : value :=
  match v with
  | VStr s =>
      match to_numeric (Str.replace "," "." s) with
      | Some q => VNum q
      | None => NA
      end
  | _ => NA
  end.

(** The loop [for col in numeric_cols: if col in d.columns: d[col] = ...]. *)
Fixpoint coerce_numeric (cols : list string) (d : DataFrame) : result DataFrame :=
  match cols with
  | [] => Ok d
  | col :: cols' =>
      if mem col (columns d) then
        if 1 <? count col (columns d) then Raise AttributeError
        else coerce_numeric cols' (map_column col numeric_cell d)
      else coerce_numeric cols' d
  end.

(** [~d[empty_columns].isnull().all(axis=1)] on one row. *)
Definition not_all_null (empty_columns : list string) (r : row) : bool :=
  negb (forallb (fun c => isnull (get c r)) empty_columns).

(** [str(hour)] of an element of the hour column, which holds strings and
    NaN only. *)
Definition str_of (v : value) : string :=
  match v with
  | VStr s => s
  | _ => "nan"
  end.

(** [convert_dates]: [dates.str.replace("/", "-")]; NaN stays NaN. *)
Definition convert_dates (dates : list value) : list value :=
  map (fun v => match v with VStr s => VStr (Str.replace "/" "-" s) | _ => NA end) dates.

(** [convert_hours]: [hours.apply(fix_hour_string)]. *)
Definition convert_hours (hours : list value) : list value :=
  map (fun v => VStr (fix_hour_string (str_of v))) hours.

(** [+] on two elements of series of strings: NaN when one of them is NaN. *)
Definition str_add (a b : value) : value :=
  match a, b with
  | VStr x, VStr y => VStr (x ++ y)
  | _, _ => NA
  end.

(** [xs + ys] for two series with the same index. *)
Fixpoint series_add (xs ys : list value) : list value :=
  match xs, ys with
  | a :: xs', b :: ys' => str_add a b :: series_add xs' ys'
  | _, _ => []
  end.

(** [pd.to_datetime(series, format=...)]: NaN gives NaT, a string that does
    not parse raises for the whole series. *)
Fixpoint to_datetime_series (vs : list value) : result (list value) :=
  match vs with
  | [] => Ok []
  | VStr s :: vs' =>
      match to_datetime s with
      | Some t => ts <- to_datetime_series vs' ;; Ok (VTime t :: ts)
      | None => Raise ValueError
      end
  | _ :: vs' => ts <- to_datetime_series vs' ;; Ok (NA :: ts)
  end.

Definition fix_data_hora (d : DataFrame) : result DataFrame :=
  dates <- column "data" d ;;
  hours <- column "hora" d ;;
  data_hora <- to_datetime_series
                 (series_add (map (fun v => str_add v (VStr " ")) (convert_dates dates))
                             (convert_hours hours)) ;;
  Ok (drop_columns ["data"; "hora"] (assign "data_hora" data_hora d)).

(** [empty_columns] of [read_data]. *)
Definition present_numeric (d : DataFrame) : list string :=
  filter (fun col => mem col (columns d)) numeric_cols.

Definition read_data (f : station_file) : result DataFrame :=
  t <- table f ;;
  d <- read_csv t ;;
  let d := rename columns_renamer d in
  let d := select (filter (fun col => mem col (columns d)) cols_to_keep) d in
  d <- coerce_numeric numeric_cols d ;;
  let empty_columns := present_numeric d in
  let d :=
    if negb (df_empty d) && negb (match empty_columns with [] => true | _ => false end)
    then mk_frame (columns d) (filter (not_all_null empty_columns) (rows d))
    else d in
  if df_empty d then Ok empty_frame
  else fix_data_hora d.

(** ** [read_zipfile] *)

Definition eligible (zf : zip_entry) : bool :=
  negb (is_dir zf)
  && Str.endswith ".csv" (Str.lower (filename zf))
  && negb (Str.startswith "__MACOSX" (filename zf)).

Definition value_of_float (x : option Q) : value :=
  match x with Some q => VNum q | None => NA end.

Definition value_of_founding (x : founding) : value :=
  match x with FoundingDate d => VTime d | FoundingRaw s => VStr s end.

(** The items of the dictionary returned by [read_metadata]. *)
Definition meta_items (m : metadata) : list (string * value) :=
  [ ("regiao", VStr (regiao m)); ("uf", VStr (uf m)); ("estacao", VStr (estacao m));
    ("codigo_wmo", VStr (codigo_wmo m));
    ("latitude", value_of_float (latitude m));
    ("longitude", value_of_float (longitude m));
    ("altitude", value_of_float (altitude m));
    ("data_fundacao", value_of_founding (data_fundacao m)) ].

(** [d.assign] with the items of [meta]: every item as a constant column. *)
Definition assign_meta (m : metadata) (d : DataFrame) : DataFrame :=
  fold_left (fun d (kv : string * value) =>
               assign (fst kv) (repeat (snd kv) (List.length (rows d))) d)
            (meta_items m) d.

(** The state of the loop: [data] and the standard error stream. *)
Definition ingest_state : Type := (DataFrame * list log_msg)%type.

(** One iteration of [for zf in files], with its [try ... except Exception]. *)
Definition process_entry (st : ingest_state) (zf : zip_entry) : ingest_state :=
  let '(data, log) := st in
  let '(meta, printed) := read_metadata (meta_lines (content zf)) in
  let log := (log ++ printed)%list in
  match meta with
  | None => (data, log)                           (* continue *)
  | Some meta =>
      match read_data (content zf) with
      | Ok d =>
          if negb (df_empty d)
          then (concat data (assign_meta meta d), log)
          else (data, log)
      | Raise e => (data, (log ++ [ErroProcessar (filename zf) e])%list)
      end
  end.

Definition read_zipfile (z : list zip_entry) : ingest_state :=
  let files := filter eligible z in
  match files with
  | [] => (empty_frame, [])
  | _ => fold_left process_entry files (empty_frame, [])
  end.

End Decoder.

(** ** Monthly regional means *)

Record aggregate : Type := mk_aggregate
  { agg_regiao : string;
    agg_mes_num : nat;
    agg_mes_nome : string;
    temperatura_media : option Q;    (* None is NaN *)
    umidade_media : option Q }.

(** A value of the three grouping columns [regiao], [mes_num], [mes_nome]. *)
Definition group_key : Type := (string * nat * string)%type.

(** Order of the group keys: column by column. *)
Definition key_compare (a b : group_key) : comparison :=
  let '(r1, m1, n1) := a in
  let '(r2, m2, n2) := b in
  match String.compare r1 r2 with
  | Eq => match Nat.compare m1 m2 with
          | Eq => String.compare n1 n2
          | c => c
          end
  | c => c
  end.

(** Sorted list of the distinct keys. *)
Fixpoint insert_key (k : group_key) (l : list group_key) : list group_key :=
  match l with
  | [] => [k]
  | x :: l' =>
      match key_compare k x with
      | Lt => k :: l
      | Eq => l
      | Gt => x :: insert_key k l'
      end
  end.

Definition sort_keys (ks : list group_key) : list group_key :=
  fold_right insert_key [] ks.

Definition key_eqb (a b : group_key) : bool :=
  match key_compare a b with Eq => true | _ => false end.

(** The numbers of a column, NaN skipped. *)
Definition defined (vs : list value) : list Q :=
  flat_map (fun v => match v with VNum q => [q] | _ => [] end) vs.

Definition Qsum (xs : list Q) : Q := fold_right Qplus 0%Q xs.

(** ['mean'] of a group: NaN is skipped, a group without a number gives NaN.
    The quotient is kept in lowest terms. *)
Definition mean (vs : list value) : option Q :=
  match defined vs with
  | [] => None
  | xs => Some (Qred (Qsum xs / inject_Z (Z.of_nat (List.length xs))))
  end.

(** [sort_values(by=['regiao', 'mes_num'])]: stable. *)
Definition entry_le (a b : aggregate) : bool :=
  match String.compare (agg_regiao a) (agg_regiao b) with
  | Lt => true
  | Gt => false
  | Eq => agg_mes_num a <=? agg_mes_num b
  end.

Fixpoint insert_entry (e : aggregate) (l : list aggregate) : list aggregate :=
  match l with
  | [] => [e]
  | x :: l' => if entry_le e x then e :: l else x :: insert_entry e l'
  end.

Definition sort_values (l : list aggregate) : list aggregate :=
  fold_right insert_entry [] l.

Section Aggregator.

Context {RT : Runtime}.

(** The group key of a row: [mes_num] and [mes_nome] come from [data_hora];
    a row with NaN in a grouping column is in no group. *)
Definition key_of (r : row) : option group_key :=
  match get "regiao" r, get "data_hora" r with
  | VStr g, VTime t => Some (g, month t, month_name (month t))
  | _, _ => None
  end.

Definition in_group (k : group_key) (r : row) : bool :=
  match key_of r with
  | Some k' => key_eqb k k'
  | None => false
  end.

Definition group_keys (d : DataFrame) : list group_key :=
  sort_keys (flat_map (fun r => match key_of r with Some k => [k] | None => [] end)
                      (rows d)).

Definition aggregate_group (d : DataFrame) (k : group_key) : aggregate :=
  let g := filter (in_group k) (rows d) in
  mk_aggregate (fst (fst k)) (snd (fst k)) (snd k)
               (mean (map (get "temperatura_ar") g))
               (mean (map (get "umidade_relativa") g)).

(** [media_regional_mensal]: [KeyError] when a column it names is not in
    the frame. *)
Definition media_regional_mensal (df_ano : DataFrame) : result (list aggregate) :=
  if forallb (fun c => mem c (columns df_ano))
             ["data_hora"; "regiao"; "temperatura_ar"; "umidade_relativa"]
  then Ok (sort_values (map (aggregate_group df_ano) (group_keys df_ano)))
  else Raise KeyError.

End Aggregator.

(** ** The script: from the bundle to the report *)

(** How the run ends once the archive is on disk. *)
Inductive run : Type :=
| Exit (code : nat)                  (* [sys.exit(code)] after a message *)
| Report (lines : list aggregate)    (* the means that are printed *)
| Uncaught (e : exn).                (* an exception outside every [try] *)

Section Script.

Context {RT : Runtime}.

(** Lines 315 to 334.  [bundle] is [Raise] when [zipfile.ZipFile] cannot
    read the archive. *)
Definition analyse (bundle : result (list zip_entry)) : run :=
  match bundle with
  | Raise _ => Exit 1
  | Ok z =>
      let df_ano := fst (read_zipfile z) in
      if df_empty df_ano then Exit 1
      else
        match media_regional_mensal df_ano with
        | Ok lines => Report lines
        | Raise e => Uncaught e
        end
  end.

End Script.

(** ** [select_from_list]

    The keys come from [_getch], which reads the terminal: the list of what
    its successive calls return ([None] when a call raises) is an argument,
    and so is the line that [input] reads. *)

(** [str.isspace] on one Latin-1 character. *)
Definition is_space (c : ascii) : bool :=
  let n := nat_of_ascii c in
  ((9 <=? n) && (n <=? 13)) || ((28 <=? n) && (n <=? 32)) || (n =? 133) || (n =? 160).

Fixpoint lstrip (s : string) : string :=
  match s with
  | String c s' => if is_space c then lstrip s' else s
  | EmptyString => EmptyString
  end.

Fixpoint rstrip (s : string) : string :=
  match s with
  | EmptyString => EmptyString
  | String c s' =>
      match rstrip s' with
      | EmptyString => if is_space c then EmptyString else String c EmptyString
      | rest => String c rest
      end
  end.

(** [s.strip()] *)
Definition strip (s : string) : string := rstrip (lstrip s).

(** [choice = input(...).strip(); return choice if choice in options else None] *)
Definition manual_choice (options : list string) (typed : string) : option string :=
  let choice := strip typed in
  if mem choice options then Some choice else None.

Definition visible : Z := 10.

(** The bounds [start], [end] of the part of the list that is shown. *)
Definition window (n idx : Z) : Z * Z :=
  let start := Z.max 0 (idx - visible / 2) in
  let end_ := Z.min n (start + visible) in
  let start := Z.max 0 (end_ - visible) in
  (start, end_).

(** [range(a, b)] *)
Definition zrange (a b : Z) : list Z :=
  map (fun k => (a + Z.of_nat k)%Z) (seq 0 (Z.to_nat (b - a))).

(** [options[i]]: a negative index counts from the end, [None] is IndexError. *)
Definition index (options : list string) (i : Z) : option string :=
  let n := Z.of_nat (List.length options) in
  if (0 <=? i)%Z && (i <? n)%Z then nth_error options (Z.to_nat i)
  else if (- n <=? i)%Z && (i <? 0)%Z then nth_error options (Z.to_nat (n + i))
  else None.

(** The line printed for position [i]. *)
Definition menu_line (options : list string) (idx i : Z) : option string :=
  match index options i with
  | Some o => Some ((if (i =? idx)%Z then ">" else " ") ++ " " ++ o)
  | None => None
  end.

Fixpoint all_some {A : Type} (l : list (option A)) : option (list A) :=
  match l with
  | [] => Some []
  | Some a :: l' => match all_some l' with Some r => Some (a :: r) | None => None end
  | None :: _ => None
  end.

(** The option lines of one screen; [None] when printing them raises. *)
Definition screen (options : list string) (idx : Z) : option (list string) :=
  let '(start, end_) := window (Z.of_nat (List.length options)) idx in
  all_some (map (menu_line options idx) (zrange start end_)).

Definition esc : ascii := ascii_of_nat 27.
Definition nul : ascii := ascii_of_nat 0.
Definition xe0 : ascii := ascii_of_nat 224.
Definition cr : ascii := ascii_of_nat 13.

Definition keys_up : list string := [String esc "[A"; String nul "H"; String xe0 "H"].
Definition keys_down : list string := [String esc "[B"; String nul "P"; String xe0 "P"].

(** What [select_from_list] has done when the keys run out or it returns. *)
Inductive selection : Type :=
| Returned (choice : option string)
| Waiting (idx : Z).                 (* blocked in [_getch] *)

(** The [while True] loop, with the [except Exception] that falls back to
    manual entry. *)
Fixpoint select_loop (options : list string) (typed : string) (idx : Z)
         (keys : list (option string)) : selection :=
  let n := Z.of_nat (List.length options) in
  match screen options idx with
  | None => Returned (manual_choice options typed)
  | Some _ =>
      match keys with
      | [] => Waiting idx
      | None :: _ => Returned (manual_choice options typed)
      | Some ch :: keys' =>
          if mem ch keys_up then select_loop options typed ((idx - 1) mod n)%Z keys'
          else if mem ch keys_down then select_loop options typed ((idx + 1) mod n)%Z keys'
          else if mem ch ["k"; "K"] then select_loop options typed ((idx - 1) mod n)%Z keys'
          else if mem ch ["j"; "J"] then select_loop options typed ((idx + 1) mod n)%Z keys'
          else if mem ch [String cr ""; String Str.newline ""] then
            match index options idx with
            | Some o => Returned (Some o)
            | None => Returned (manual_choice options typed)
            end
          else if mem ch ["q"; "Q"] then Returned None
          else select_loop options typed idx keys'
      end
  end.

Definition select_from_list (options : list string) (isatty : bool) (typed : string)
           (keys : list (option string)) : selection :=
  match options with
  | [] => Returned None
  | _ =>
      if negb isatty then Returned (manual_choice options typed)
      else select_loop options typed 0%Z keys
  end.

(** [years = [str(y) for y in range(2000, 2026)]] *)
Definition years : list string :=
  map (fun y => NilZero.string_of_uint (Nat.to_uint y)) (seq 2000 26).

(** ** [download_zip_for_year]

    The local file [data/{year}.zip] is the state; what the network and the
    disk do during the call is an argument. *)

Inductive zip_file : Type :=
| Absent
| Previous     (* a file that was there before the call *)
| Partial      (* opened for writing, not written to the end *)
| Downloaded.

(** How the body of [with requests.get(...)] ends. *)
Inductive transfer : Type :=
| RequestFailed        (* RequestException from [get] or [raise_for_status] *)
| StreamFailed         (* RequestException from [iter_content], the file open *)
| OtherFailed          (* another exception before the file is opened *)
| WriteFailed          (* another exception once the file is opened *)
| Completed.

Inductive download_result : Type :=
| LocalPath                          (* [return local_name] *)
| RuntimeError                       (* [raise RuntimeError(...)] *)
| Propagated.                        (* an exception the function does not catch *)

(** [local_name.unlink()] inside [try ... except Exception: pass]. *)
Definition try_unlink (unlink_ok : bool) (f : zip_file) : zip_file :=
  match f with
  | Absent => Absent
  | _ => if unlink_ok then Absent else f
  end.

Definition download_zip_for_year (overwrite : bool) (net : transfer) (unlink_ok : bool)
           (local : zip_file) : download_result * zip_file :=
  let exists_ := match local with Absent => false | _ => true end in
  if exists_ && negb overwrite then (LocalPath, local)
  else
    match net with
    | RequestFailed => (RuntimeError, try_unlink unlink_ok local)
    | StreamFailed => (RuntimeError, try_unlink unlink_ok Partial)
    | OtherFailed => (Propagated, local)
    | WriteFailed => (Propagated, Partial)
    | Completed => (LocalPath, Downloaded)
    end.

(** The file that the script goes on with after the download step:
    [zip_path], or [None] for [sys.exit(1)]. *)
Definition choose_zip (net : transfer) (unlink_ok : bool) (local : zip_file)
  : option zip_file :=
  match download_zip_for_year false net unlink_ok local with
  | (LocalPath, f) => Some f
  | (_, f) => match f with Absent => None | _ => Some f end   (* fallback.exists() *)
  end.

(** ** A runtime for worked examples

    Plain decimal literals for both number parsers, zero-padded timestamps,
    the NaN strings of pandas and the month names of the pt_BR locale. *)

Module Reference.

Definition split_sign (s : string) : bool * string :=
  match s with
  | String "-" s' => (true, s')
  | String "+" s' => (false, s')
  | _ => (false, s)
  end.

(** Digits before and after the first dot. *)
Fixpoint split_dot (s : string) : string * option string :=
  match s with
  | EmptyString => (EmptyString, None)
  | String "." s' => (EmptyString, Some s')
  | String c s' => let '(a, b) := split_dot s' in (String c a, b)
  end.

Definition parse_decimal (s : string) : option Q :=
  let '(neg, body) := split_sign s in
  let '(int_part, frac) := split_dot body in
  let frac := match frac with Some f => f | None => EmptyString end in
  match Str.nat_of_digits (int_part ++ frac) with
  | Some n =>
      let q := Qred (Qmake (Z.of_nat n) (Pos.of_nat (10 ^ String.length frac))) in
      Some (if neg then Qopp q else q)
  | None => None
  end.

Definition parse_timestamp (s : string) : option datetime :=
  if matches_exactly
       [digit; digit; digit; digit; chr "-"; digit; digit; chr "-"; digit; digit;
        chr " "; digit; digit; chr ":"; digit; digit] s
  then
    match field 0 4 s, field 5 2 s, field 8 2 s, field 11 2 s, field 14 2 s with
    | Some y, Some m, Some d, Some hh, Some mm =>
        if valid_date y m d && (hh <? 24) && (mm <? 60)
        then Some (mk_datetime y m d hh mm)
        else None
    | _, _, _, _, _ => None
    end
  else None.

Definition pandas_na : list string :=
  [ ""; "#N/A"; "#N/A N/A"; "#NA"; "-1.#IND"; "-1.#QNAN"; "-NaN"; "-nan";
    "1.#IND"; "1.#QNAN"; "<NA>"; "N/A"; "NA"; "NULL"; "NaN"; "None"; "n/a";
    "nan"; "null" ].

Definition mes (m : nat) : string :=
  match m with
  | 1 => "janeiro" | 2 => "fevereiro"
  | 3 => "mar" ++ String Str.c_cedil "o"
  | 4 => "abril" | 5 => "maio" | 6 => "junho" | 7 => "julho" | 8 => "agosto"
  | 9 => "setembro" | 10 => "outubro" | 11 => "novembro" | 12 => "dezembro"
  | _ => ""
  end.

#[export] Instance runtime : Runtime :=
  {| py_float := parse_decimal;
     to_numeric := parse_decimal;
     to_datetime := parse_timestamp;
     default_na := pandas_na;
     month_name := mes |}.

End Reference.

(** * Specifications *)

(** ** The fallback chain of the time field, in the words of its description *)

Definition is_digit_char (c : ascii) : Prop :=
  (48 <= nat_of_ascii c <= 57)%nat.

(** Where [$] matches: the end of the string, or a last newline. *)
Definition ends_here (rest : string) : Prop :=
  rest = EmptyString \/ rest = String Str.newline EmptyString.

(** [HH:MM] *)
Definition shape_hh_colon_mm (h : string) : Prop :=
  exists a b c d rest,
    h = String a (String b (String ":" (String c (String d rest))))
    /\ is_digit_char a /\ is_digit_char b /\ is_digit_char c /\ is_digit_char d
    /\ ends_here rest.

(** [HHMM] *)
Definition shape_hhmm (h : string) : Prop :=
  exists a b c d rest,
    h = String a (String b (String c (String d rest)))
    /\ is_digit_char a /\ is_digit_char b /\ is_digit_char c /\ is_digit_char d
    /\ ends_here rest.

(** [HH UTC] *)
Definition shape_hh_utc (h : string) : Prop :=
  exists a b rest,
    h = String a (String b (" UTC" ++ rest))
    /\ is_digit_char a /\ is_digit_char b /\ ends_here rest.

(** A leading run of two digits. *)
Definition shape_hh_prefix (h : string) : Prop :=
  exists a b rest, h = String a (String b rest) /\ is_digit_char a /\ is_digit_char b.

(** The chain: each case applies only when the earlier ones do not. *)
Inductive hour_chain (h : string) : string -> Prop :=
| chain_hh_colon_mm :
    shape_hh_colon_mm h ->
    hour_chain h h
| chain_hhmm :
    ~ shape_hh_colon_mm h -> shape_hhmm h ->
    hour_chain h (Str.take 2 h ++ ":" ++ Str.drop 2 h)
| chain_hh_utc :
    ~ shape_hh_colon_mm h -> ~ shape_hhmm h -> shape_hh_utc h ->
    hour_chain h (Str.take 2 h ++ ":00")
| chain_hh_prefix :
    ~ shape_hh_colon_mm h -> ~ shape_hhmm h -> ~ shape_hh_utc h -> shape_hh_prefix h ->
    hour_chain h (Str.take 2 h ++ ":00")
| chain_default :
    ~ shape_hh_colon_mm h -> ~ shape_hhmm h -> ~ shape_hh_utc h -> ~ shape_hh_prefix h ->
    hour_chain h "00:00".

(** Hour and minute of the timestamp decoded from a time string, on a fixed
    day, with the reference timestamp parser. *)
Definition decoded_hour_minute (h : string) : option (nat * nat) :=
  match Reference.parse_timestamp ("2020-01-01 " ++ fix_hour_string h) with
  | Some t => Some (hour t, minute t)
  | None => None
  end.

(** ** Vocabulary of the properties *)

Section Vocabulary.

Context {RT : Runtime}.

(** Eight lines [label;value], followed by the rest of the file. *)
Definition header_lines (l1 l2 l3 l4 l5 l6 l7 l8 v1 v2 v3 v4 v5 v6 v7 v8 : string)
           (rest : list (list string)) : list (list string) :=
  [l1; v1] :: [l2; v2] :: [l3; v3] :: [l4; v4] :: [l5; v5] :: [l6; v6] :: [l7; v7]
    :: [l8; v8] :: rest.

(** An exception while one entry is processed, with the line it prints:
    in the header, or in the body after a header that was read. *)
Inductive entry_failure (zf : zip_entry) : log_msg -> Prop :=
| failure_in_header e :
    read_metadata_try (meta_lines (content zf)) = Raise e ->
    entry_failure zf (ErroMetadados e)
| failure_in_body m e :
    read_metadata_try (meta_lines (content zf)) = Ok m ->
    read_data (content zf) = Raise e ->
    entry_failure zf (ErroProcessar (filename zf) e).

(** The loop of [read_zipfile] over the eligible entries. *)
Definition ingest (files : list zip_entry) (st : ingest_state) : ingest_state :=
  fold_left process_entry files st.

(** Frames whose rows carry the labels of the frame. *)
Definition well_formed (d : DataFrame) : Prop :=
  Forall (fun r : row => map fst r = columns d) (rows d).

(** The frame of [read_data] after the loop over [numeric_cols], before
    the rows without a number are dropped. *)
Definition numeric_frame (f : station_file) : result DataFrame :=
  t <- table f ;;
  d <- read_csv t ;;
  let d := rename columns_renamer d in
  let d := select (filter (fun col => mem col (columns d)) cols_to_keep) d in
  coerce_numeric numeric_cols d.

(** The step [d.loc[~d[empty_columns].isnull().all(axis=1)]] with its guard. *)
Definition drop_empty_rows (d : DataFrame) : DataFrame :=
  if negb (df_empty d)
     && negb (match present_numeric d with [] => true | _ => false end)
  then mk_frame (columns d) (filter (not_all_null (present_numeric d)) (rows d))
  else d.

(** The string handed to [pd.to_datetime] for a row, NaN for a NaN date. *)
Definition timestamp_string (r : row) : value :=
  match get "data" r with
  | VStr date =>
      VStr ((Str.replace "/" "-" date ++ " ") ++ fix_hour_string (str_of (get "hora" r)))
  | _ => NA
  end.

(** A row of the output decoded from a row of the numeric frame: the same
    value in every column other than [data], [hora] and [data_hora], and
    under [data_hora] the timestamp parsed from date and hour (NaT for a
    NaN date). *)
Definition decoded (r r' : row) : Prop :=
  (forall c, mem c ["data"; "hora"; "data_hora"] = false -> get c r' = get c r)
  /\ match timestamp_string r with
     | VStr s => exists t, to_datetime s = Some t /\ get "data_hora" r' = VTime t
     | _ => get "data_hora" r' = NA
     end.

(** One output row: [assign] of the timestamp, then [drop] of date and hour. *)
Definition finish_row (r : row) (ts : value) : row :=
  filter (fun kv : string * value => negb (mem (fst kv) ["data"; "hora"]))
         (set_cell "data_hora" ts r).

(** The labels of the first 19 columns after [columns_renamer]. *)
Definition labels (t : csv_table) : list string :=
  map columns_renamer (firstn 19 (header t)).

(** The numeric fields that the file has a column for. *)
Definition present_columns (t : csv_table) : list string :=
  filter (fun c => mem c (labels t)) numeric_cols.

(** At least one of the given numeric columns holds a number in the row. *)
Definition some_defined (cols : list string) (r : row) : bool :=
  existsb (fun c => negb (isnull (get c r))) cols.

(** The rows that pass the filter of [read_data] when [cols] are the numeric
    columns of the file: all of them when the file has none. *)
Definition kept_rows (cols : list string) (l : list row) : list row :=
  match cols with
  | [] => l
  | _ => filter (some_defined cols) l
  end.

Definition key_lt (a b : group_key) : Prop := key_compare a b = Lt.

(** Increasing lists of keys. *)
Inductive increasing : list group_key -> Prop :=
| increasing_nil : increasing []
| increasing_cons k l :
    Forall (key_lt k) l -> increasing l -> increasing (k :: l).

(** The mean of a column, as a property of the result: NaN exactly when the
    column has no number, otherwise the number that multiplied by the count of
    the numbers gives their sum. *)
Definition is_mean_of (vs : list value) (m : option Q) : Prop :=
  match m with
  | None => defined vs = []
  | Some q =>
      defined vs <> []
      /\ (q * inject_Z (Z.of_nat (List.length (defined vs))) == Qsum (defined vs))%Q
  end.

(** The group key of a report line. *)
Definition key_of_entry (e : aggregate) : group_key :=
  (agg_regiao e, agg_mes_num e, agg_mes_nome e).

(** The rows of the frame that have a group key. *)
Definition keys_of_rows (l : list row) : list group_key :=
  flat_map (fun r => match key_of r with Some k => [k] | None => [] end) l.

End Vocabulary.

(** ** Worked inputs

    Station files in the layout of the INMET archives, with the labels
    written without accents (the patterns accept both spellings). *)

Module Examples.

(** The eight header lines of a station of the region NE. *)
Definition salvador_header (fundacao : string) : list (list string) :=
  [ ["REGIAO:"; "NE"]; ["UF:"; "BA"]; ["ESTACAO:"; "SALVADOR"];
    ["CODIGO (WMO):"; "A401"]; ["LATITUDE:"; "-13,005"]; ["LONGITUDE:"; "-38,505"];
    ["ALTITUDE:"; "47,56"]; ["DATA DE FUNDACAO:"; fundacao] ].

(** The nineteen labels of line 9. *)
Definition inmet_labels : list string :=
  [ "Data"; "Hora UTC"; "PRECIPITACAO TOTAL, HORARIO (mm)";
    "PRESSAO ATMOSFERICA AO NIVEL DA ESTACAO, HORARIA (mB)";
    "PRESSAO ATMOSFERICA MAX.NA HORA ANT. (AUT) (mB)";
    "PRESSAO ATMOSFERICA MIN. NA HORA ANT. (AUT) (mB)";
    "RADIACAO GLOBAL (Kj/m2)";
    "TEMPERATURA DO AR - BULBO SECO, HORARIA (C)";
    "TEMPERATURA DO PONTO DE ORVALHO (C)";
    "TEMPERATURA MAXIMA NA HORA ANT. (AUT) (C)";
    "TEMPERATURA MINIMA NA HORA ANT. (AUT) (C)";
    "TEMPERATURA ORVALHO MAX. NA HORA ANT. (AUT) (C)";
    "TEMPERATURA ORVALHO MIN. NA HORA ANT. (AUT) (C)";
    "UMIDADE REL. MAX. NA HORA ANT. (AUT) (%)";
    "UMIDADE REL. MIN. NA HORA ANT. (AUT) (%)";
    "UMIDADE RELATIVA DO AR, HORARIA (%)";
    "VENTO, DIRECAO HORARIA (gr)"; "VENTO, RAJADA MAXIMA (m/s)";
    "VENTO, VELOCIDADE HORARIA (m/s)" ].

(** A data line with the air temperature and the relative humidity given
    and the sentinel in every other numeric field. *)
Definition line (date hour temperatura umidade : string) : list string :=
  [ date; hour; "-9999"; "-9999"; "-9999"; "-9999"; "-9999"; temperatura;
    "-9999"; "-9999"; "-9999"; "-9999"; "-9999"; "-9999"; "-9999"; umidade;
    "-9999"; "-9999"; "-9999" ].

(** Three rows of January: temperatures 20.0, 22.0 and missing, humidities
    80.0, missing and 70.0. *)
Definition january_table : csv_table :=
  mk_csv inmet_labels
         [ line "2020/01/01" "0000 UTC" "20,0" "80,0";
           line "2020/01/01" "0100 UTC" "22,0" "";
           line "2020/01/02" "0000 UTC" "-9999" "70,0" ]
         eq_refl.

Definition salvador : station_file :=
  mk_file (salvador_header "13/05/00") (Ok january_table).

Definition salvador_entry : zip_entry :=
  mk_entry "2020/INMET_NE_BA_A401_SALVADOR_01-01-2020_A_31-12-2020.CSV" false salvador.

Definition ne_bundle : list zip_entry := [salvador_entry].

(** The data read from the bundle. *)
Definition ne_january : DataFrame := fst (@read_zipfile Reference.runtime ne_bundle).

(** A file cut after its third line. *)
Definition truncated : station_file :=
  mk_file [ ["REGIAO:"; "NE"]; ["UF:"; "BA"]; ["ESTACAO:"; "ILHEUS"] ] (Raise ParserError).

Definition truncated_entry : zip_entry :=
  mk_entry "2020/INMET_NE_BA_A410_ILHEUS_01-01-2020_A_31-12-2020.CSV" false truncated.

(** A file whose second row is dated 30 February. *)
Definition february_table : csv_table :=
  mk_csv inmet_labels
         [ line "2020/02/01" "0000 UTC" "25,0" "60,0";
           line "2020/02/30" "0000 UTC" "26,0" "61,0" ]
         eq_refl.

Definition february : station_file :=
  mk_file (salvador_header "13/05/00") (Ok february_table).

Definition february_entry : zip_entry :=
  mk_entry "2020/INMET_NE_BA_A401_SALVADOR_01-01-2020_A_31-12-2020.CSV" false february.

(** The same file without its second row. *)
Definition february_first_row : station_file :=
  mk_file (salvador_header "13/05/00")
          (Ok (mk_csv inmet_labels [line "2020/02/01" "0000 UTC" "25,0" "60,0"] eq_refl)).

(** A file in which no label is one of the numeric fields. *)
Definition unlabelled_table : csv_table :=
  mk_csv [ "Data"; "Hora UTC"; "C3"; "C4"; "C5"; "C6"; "C7"; "C8"; "C9"; "C10"; "C11";
           "C12"; "C13"; "C14"; "C15"; "C16"; "C17"; "C18"; "C19" ]
         [ line "2020/01/01" "0000 UTC" "20,0" "80,0" ]
         eq_refl.

Definition unlabelled : station_file :=
  mk_file (salvador_header "13/05/00") (Ok unlabelled_table).

(** A file with the rain column as its only numeric column. *)
Definition rain_table : csv_table :=
  mk_csv [ "Data"; "Hora UTC"; "PRECIPITACAO TOTAL, HORARIO (mm)"; "C4"; "C5"; "C6"; "C7";
           "C8"; "C9"; "C10"; "C11"; "C12"; "C13"; "C14"; "C15"; "C16"; "C17"; "C18";
           "C19" ]
         [ [ "2020/01/01"; "0000 UTC"; "1,2"; "-9999"; "-9999"; "-9999"; "-9999"; "-9999";
             "-9999"; "-9999"; "-9999"; "-9999"; "-9999"; "-9999"; "-9999"; "-9999";
             "-9999"; "-9999"; "-9999" ] ]
         eq_refl.

Definition rain_only : station_file :=
  mk_file (salvador_header "13/05/00") (Ok rain_table).

Definition rain_bundle : list zip_entry :=
  [ mk_entry "2020/INMET_NE_BA_A401_SALVADOR_01-01-2020_A_31-12-2020.CSV" false rain_only ].

End Examples.

(** ** Vocabulary of the further properties *)

(** Every Latin-1 character. *)
Definition all_chars : list ascii := map ascii_of_nat (seq 0 256).

(** Two patterns can match the same string only if, position by position,
    some character is in both classes. *)
Fixpoint overlap (p q : list charclass) : bool :=
  match p, q with
  | k1 :: p', k2 :: q' => existsb (fun c => k1 c && k2 c) all_chars && overlap p' q'
  | _, _ => true
  end.

(** Rules whose patterns overlap give the same name. *)
Definition rules_agree (rules : list (list charclass * string)) : bool :=
  forallb (fun r1 =>
             forallb (fun r2 => negb (overlap (fst r1) (fst r2))
                                || String.eqb (snd r1) (snd r2))
                     rules)
          rules.

(** A line of the header with exactly two fields. *)
Definition is_pair (line : list string) : bool :=
  match line with
  | [_; _] => true
  | _ => false
  end.

(** The string has no slash. *)
Fixpoint no_slash (s : string) : bool :=
  match s with
  | EmptyString => true
  | String c s' => negb (Ascii.eqb c "/") && no_slash s'
  end.

(** A date written day first: two digits, a slash, and the rest. *)
Definition day_first (s : string) : Prop :=
  exists a b rest, s = String a (String b (String "/" rest)).

Section Vocabulary2.

Context {RT : Runtime}.

(** The number of rows that an entry adds to the data. *)
Definition entry_rows (zf : zip_entry) : nat :=
  match read_metadata_try (meta_lines (content zf)), read_data (content zf) with
  | Ok _, Ok d => if df_empty d then 0 else List.length (rows d)
  | _, _ => 0
  end.

(** The number of lines that an entry prints on the standard error stream. *)
Definition entry_errors (zf : zip_entry) : nat :=
  match read_metadata_try (meta_lines (content zf)), read_data (content zf) with
  | Ok _, Ok _ => 0
  | _, _ => 1
  end.

End Vocabulary2.

(** The lines of the report are in order of region, then of month. *)
Definition entry_lt (a b : aggregate) : Prop :=
  String.compare (agg_regiao a) (agg_regiao b) = Lt
  \/ (agg_regiao a = agg_regiao b /\ agg_mes_num a < agg_mes_num b).

(** The row of [d.assign] with the items of [meta]. *)
Definition with_meta (m : metadata) (r : row) : row :=
  fold_left (fun r (kv : string * value) => set_cell (fst kv) (snd kv) r) (meta_items m) r.

(** The row [r] of the data is the row [r0] of the file [d] with the header
    [m]: the values of the file in the columns of the file, the items of the
    header under their names, NaN in every other column. *)
Definition row_of_file (m : metadata) (d : DataFrame) (r0 r : row) : Prop :=
  In r0 (rows d)
  /\ (forall c, In c (columns d) -> get c r = get c r0)
  /\ (forall k v, In (k, v) (meta_items m) -> get k r = v)
  /\ (forall c, ~ In c (columns d) -> ~ In c (map fst (meta_items m)) -> get c r = NA).

(** The position-wise effect of [str.replace("/", "-")] on one character. *)
Definition dash (c : ascii) : ascii := if Ascii.eqb c "/" then "-"%char else c.

Section Vocabulary3.

Context {RT : Runtime}.

(** The row comes from an eligible entry of the bundle, whose header and body
    were read, and carries the region of that header. *)
Definition row_of_entry (z : list zip_entry) (r : row) : Prop :=
  exists zf m d r0,
    In zf z /\ eligible zf = true
    /\ read_metadata_try (meta_lines (content zf)) = Ok m
    /\ read_data (content zf) = Ok d
    /\ row_of_file m d r0 r
    /\ get "regiao" r = VStr (regiao m).

(** How [pd.concat] leaves the row of an entry in a frame with the columns
    [cols]. *)
Definition built_from (z : list zip_entry) (cols : list string) (r : row) : Prop :=
  exists zf m d r0,
    In zf z /\ eligible zf = true
    /\ read_metadata_try (meta_lines (content zf)) = Ok m
    /\ read_data (content zf) = Ok d
    /\ In r0 (rows d)
    /\ map fst r0 = columns d
    /\ incl (columns d ++ map fst (meta_items m))%list cols
    /\ r = reindex cols (r0 ++ meta_items m)%list.

(** What holds of the data of [read_zipfile] after every entry. *)
Definition data_invariant (z : list zip_entry) (df : DataFrame) : Prop :=
  (rows df <> [] -> In "regiao" (columns df) /\ In "data_hora" (columns df))
  /\ Forall (built_from z (columns df)) (rows df)
  /\ well_formed df.

End Vocabulary3.

(** ** More worked inputs *)

Module MoreExamples.

Import Examples.

(** A file with its dates written day first. *)
Definition day_first_file : station_file :=
  mk_file (salvador_header "13/05/00")
          (Ok (mk_csv inmet_labels [line "01/02/2020" "0000 UTC" "20,0" "80,0"] eq_refl)).

(** A file with two columns for the air temperature. *)
Definition repeated_table : csv_table :=
  mk_csv [ "Data"; "Hora UTC"; "PRECIPITACAO TOTAL, HORARIO (mm)";
           "TEMPERATURA DO AR - BULBO SECO, HORARIA (C)"; "TEMPERATURA DO AR (C)";
           "C6"; "C7"; "C8"; "C9"; "C10"; "C11"; "C12"; "C13"; "C14"; "C15"; "C16";
           "C17"; "C18"; "C19" ]
         []
         eq_refl.

Definition repeated_file : station_file :=
  mk_file (salvador_header "13/05/00") (Ok repeated_table).

(** A file without a date column, all of whose numeric fields are the
    sentinel. *)
Definition undated_table : csv_table :=
  mk_csv ("Dia" :: tl inmet_labels)
         [ line "2020/01/01" "0000 UTC" "-9999" "-9999,0" ]
         eq_refl.

Definition undated_file : station_file :=
  mk_file (salvador_header "13/05/00") (Ok undated_table).

(** A row of the data without a timestamp. *)
Definition undated_row : row :=
  [ ("temperatura_ar", VNum 35); ("umidade_relativa", VNum 10); ("data_hora", NA);
    ("regiao", VStr "NE") ].

End MoreExamples.

(** ** Proof steps *)

Ltac split_ifs :=
  repeat match goal with
         | |- context [if ?x then _ else _] => destruct x eqn:?
         end.

Ltac eqb_subst :=
  repeat match goal with
         | H : Ascii.eqb _ _ = true |- _ => apply Ascii.eqb_eq in H; subst
         end.
(** * Properties *)

(** ** Strings and patterns *)

Lemma is_digit_iff (c : ascii) : Str.is_digit c = true <-> is_digit_char c.
Proof.
  unfold Str.is_digit, is_digit_char.
  rewrite andb_true_iff, !Nat.leb_le. tauto.
Qed.

Lemma at_end_iff (s : string) : at_end s = true <-> ends_here s.
Proof.
  unfold at_end, ends_here. destruct s as [|c [|c' s]].
  - intuition.
  - rewrite Ascii.eqb_eq. split.
    + intros ->. now right.
    + intros [H|H]; [discriminate | now inversion H].
  - split; [discriminate | intros [H|H]; discriminate].
Qed.

Lemma hh_colon_mm_iff (h : string) :
  matches_to_end pat_hh_colon_mm h = true <-> shape_hh_colon_mm h.
Proof.
  unfold matches_to_end, pat_hh_colon_mm, shape_hh_colon_mm, digit, chr. split.
  - destruct h as [|a [|b [|k [|c [|d rest]]]]]; cbn [consume];
      repeat match goal with |- context [if ?x then _ else _] => destruct x eqn:? end;
      try discriminate.
    intros He. exists a, b, c, d, rest.
    match goal with H : Ascii.eqb _ _ = true |- _ => apply Ascii.eqb_eq in H; subst k end.
    rewrite <- !is_digit_iff, <- at_end_iff. auto 10.
  - intros (a & b & c & d & rest & -> & Ha & Hb & Hc & Hd & He).
    apply is_digit_iff in Ha, Hb, Hc, Hd. apply at_end_iff in He.
    cbn [consume]. rewrite Ha, Hb, Hc, Hd, Ascii.eqb_refl. exact He.
Qed.

Lemma hhmm_iff (h : string) :
  matches_to_end pat_hhmm h = true <-> shape_hhmm h.
Proof.
  unfold matches_to_end, pat_hhmm, shape_hhmm, digit. split.
  - destruct h as [|a [|b [|c [|d rest]]]]; cbn [consume]; split_ifs; try discriminate.
    intros He. exists a, b, c, d, rest.
    rewrite <- !is_digit_iff, <- at_end_iff. auto 10.
  - intros (a & b & c & d & rest & -> & Ha & Hb & Hc & Hd & He).
    apply is_digit_iff in Ha, Hb, Hc, Hd. apply at_end_iff in He.
    cbn [consume]. now rewrite Ha, Hb, Hc, Hd.
Qed.

Lemma hh_utc_iff (h : string) :
  matches_to_end pat_hh_utc h = true <-> shape_hh_utc h.
Proof.
  unfold matches_to_end, pat_hh_utc, shape_hh_utc, digit, chr, cat.
  cbn [lit List.concat app]. split.
  - destruct h as [|a [|b [|k1 [|k2 [|k3 [|k4 rest]]]]]]; cbn [consume];
      split_ifs; try discriminate.
    intros He. unfold chr in *. eqb_subst. exists a, b, rest.
    rewrite <- !is_digit_iff, <- at_end_iff. repeat split; assumption.
  - intros (a & b & rest & -> & Ha & Hb & He).
    apply is_digit_iff in Ha, Hb. apply at_end_iff in He.
    cbn [consume append]. unfold chr. now rewrite Ha, Hb, !Ascii.eqb_refl.
Qed.

Lemma hh_prefix_iff (h : string) :
  (exists rest, consume pat_hh h = Some rest) <-> shape_hh_prefix h.
Proof.
  unfold pat_hh, shape_hh_prefix, digit. split.
  - intros [rest0 H]. destruct h as [|a [|b rest]]; cbn [consume] in H;
      try discriminate; destruct (Str.is_digit a) eqn:Ha; try discriminate.
    destruct (Str.is_digit b) eqn:Hb; [|discriminate].
    exists a, b, rest. rewrite <- !is_digit_iff. auto.
  - intros (a & b & rest & -> & Ha & Hb).
    apply is_digit_iff in Ha, Hb. exists rest.
    cbn [consume]. now rewrite Ha, Hb.
Qed.

Lemma not_true_of_false (b : bool) (P : Prop) : (b = true <-> P) -> b = false -> ~ P.
Proof. intros H Hb HP. apply H in HP. congruence. Qed.

(** ** The time field *)

(** C1: the time string goes through the chain HH:MM, HHMM, HH UTC, leading
    two digits, default, each case tried only when the earlier ones fail, and
    the five sample strings decode to the hours 23, 23, 23, 23, 0 and the
    minutes 59, 59, 0, 0, 0. *)
Theorem fix_hour_string_chain :
  (forall h : string, hour_chain h (fix_hour_string h))
  /\ convert_hours [VStr "23:59"; VStr "2359"; VStr "23 UTC"; VStr "23X"; VStr "garbage"]
     = [VStr "23:59"; VStr "23:59"; VStr "23:00"; VStr "23:00"; VStr "00:00"]
  /\ map decoded_hour_minute ["23:59"; "2359"; "23 UTC"; "23X"; "garbage"]
     = [Some (23, 59); Some (23, 59); Some (23, 0); Some (23, 0); Some (0, 0)].
Proof.
  split; [|split; reflexivity].
  intros h. unfold fix_hour_string.
  destruct (matches_to_end pat_hh_colon_mm h) eqn:H1.
  { apply chain_hh_colon_mm. now apply hh_colon_mm_iff. }
  apply (not_true_of_false _ _ (hh_colon_mm_iff h)) in H1.
  destruct (matches_to_end pat_hhmm h) eqn:H2.
  { apply chain_hhmm; [assumption | now apply hhmm_iff]. }
  apply (not_true_of_false _ _ (hhmm_iff h)) in H2.
  destruct (matches_to_end pat_hh_utc h) eqn:H3.
  { apply chain_hh_utc; [assumption .. | now apply hh_utc_iff]. }
  apply (not_true_of_false _ _ (hh_utc_iff h)) in H3.
  destruct (consume pat_hh h) as [rest|] eqn:H4.
  - apply chain_hh_prefix; try assumption. apply hh_prefix_iff. now exists rest.
  - apply chain_default; try assumption.
    intros H. apply hh_prefix_iff in H. destruct H as [rest H]. congruence.
Qed.

(** ** The column labels *)

Lemma lower_char_idem (c : ascii) : Str.lower_char (Str.lower_char c) = Str.lower_char c.
Proof. destruct c as [[] [] [] [] [] [] [] []]; reflexivity. Qed.

Lemma lower_idem (s : string) : Str.lower (Str.lower s) = Str.lower s.
Proof.
  induction s as [|c s IH]; simpl; [reflexivity|].
  now rewrite lower_char_idem, IH.
Qed.

Lemma first_match_In rules name canon :
  first_match rules name = Some canon -> In canon (map snd rules).
Proof.
  induction rules as [|[p c] rules IH]; simpl; [discriminate|].
  destruct (matches p name).
  - intros [= ->]. now left.
  - intros H. right. now apply IH.
Qed.

Lemma canonical_fixed (c : string) :
  In c (map snd renamer_rules) -> columns_renamer c = c.
Proof.
  assert (H : forallb (fun c => String.eqb (columns_renamer c) c) (map snd renamer_rules)
              = true) by (vm_compute; reflexivity).
  rewrite forallb_forall in H. intros Hc. now apply String.eqb_eq, H.
Qed.

Lemma columns_renamer_unmatched (name : string) :
  first_match renamer_rules (Str.lower name) = None ->
  columns_renamer name = Str.lower name.
Proof. unfold columns_renamer. now intros ->. Qed.

(** C9: [columns_renamer] is idempotent; the nineteen names it produces (the
    seventeen numeric fields, [data] and [hora]) are left unchanged; a label
    that no pattern matches is returned in lower case. *)
Theorem columns_renamer_idempotent :
  (forall name : string, columns_renamer (columns_renamer name) = columns_renamer name)
  /\ (forall c : string, In c cols_to_keep -> columns_renamer c = c)
  /\ (forall name : string,
         first_match renamer_rules (Str.lower name) = None ->
         columns_renamer name = Str.lower name).
Proof.
  split; [|split].
  - intros name. unfold columns_renamer at 2 3.
    destruct (first_match renamer_rules (Str.lower name)) as [canon|] eqn:Hm.
    + apply canonical_fixed. eapply first_match_In; eassumption.
    + unfold columns_renamer. now rewrite lower_idem, Hm.
  - intros c Hc. apply canonical_fixed.
    assert (H : forallb (fun c => mem c (map snd renamer_rules)) cols_to_keep = true)
      by (vm_compute; reflexivity).
    rewrite forallb_forall in H. specialize (H c Hc).
    unfold mem in H. apply existsb_exists in H. destruct H as (x & Hx & Heq).
    apply String.eqb_eq in Heq. now subst.
  - exact columns_renamer_unmatched.
Qed.

Lemma columns_renamer_idempotent_witness :
  columns_renamer "temperatura_ar" = "temperatura_ar"
  /\ columns_renamer "Unnamed: 19" = "unnamed: 19".
Proof.
  destruct columns_renamer_idempotent as (_ & Hfix & Hpass). split.
  - apply Hfix. vm_compute. tauto.
  - apply (Hpass "Unnamed: 19"). vm_compute. reflexivity.
Defined.

(** ** The metadata header *)

Section MetadataProperties.

Context {RT : Runtime}.

Lemma read_metadata_try_header l1 l2 l3 l4 l5 l6 l7 l8 v1 v2 v3 v4 v5 v6 v7 v8 rest :
  read_metadata_try (header_lines l1 l2 l3 l4 l5 l6 l7 l8 v1 v2 v3 v4 v5 v6 v7 v8 rest)
  = (d <- parse_founding v8 ;;
     Ok (mk_metadata v1 v2 v3 v4 (float_or_nan v5) (float_or_nan v6) (float_or_nan v7) d)).
Proof. reflexivity. Qed.

Lemma parse_founding_raw (s : string) :
  matches pat_iso_date s = false -> matches pat_br_date s = false ->
  parse_founding s = Ok (FoundingRaw s).
Proof. unfold parse_founding. now intros -> ->. Qed.

Lemma parse_founding_cases (s : string) :
  (exists d, parse_founding s = Ok (FoundingDate d))
  \/ parse_founding s = Ok (FoundingRaw s)
  \/ parse_founding s = Raise ValueError.
Proof.
  unfold parse_founding.
  destruct (matches pat_iso_date s).
  - unfold strptime_Ymd. destruct (matches_exactly _ s); [|now right; right].
    destruct (field 0 4 s), (field 5 2 s), (field 8 2 s);
      try (now right; right).
    destruct (valid_date n n0 n1); [left; eexists; reflexivity | now right; right].
  - destruct (matches pat_br_date s); [|now right; left].
    unfold strptime_dmy. destruct (matches_exactly _ s); [|now right; right].
    destruct (field 0 2 s), (field 3 2 s), (field 6 2 s);
      try (now right; right).
    match goal with |- context [valid_date ?y ?m ?d] => destruct (valid_date y m d) end;
      [left; eexists; reflexivity | now right; right].
Qed.

(** C2, as amended: on eight lines [label;value] [read_metadata] never
    raises.  It returns the descriptor with the four strings verbatim and
    with latitude, longitude and altitude NaN wherever [float] fails; a
    founding date that matches neither pattern stays the string that was
    read.  When the founding date matches a pattern and [strptime] refuses
    it, the error is printed and the empty dictionary is returned. *)
Theorem read_metadata_header
        l1 l2 l3 l4 l5 l6 l7 l8 v1 v2 v3 v4 v5 v6 v7 v8 rest :
  let reader := header_lines l1 l2 l3 l4 l5 l6 l7 l8 v1 v2 v3 v4 v5 v6 v7 v8 rest in
  let nan_if_unparsed (v : string) (x : option Q) :=
    py_float (Str.replace "," "." v) = None -> x = None in
  (forall d, parse_founding v8 = Ok d ->
     exists m,
       read_metadata reader = (Some m, [])
       /\ regiao m = v1 /\ uf m = v2 /\ estacao m = v3 /\ codigo_wmo m = v4
       /\ nan_if_unparsed v5 (latitude m)
       /\ nan_if_unparsed v6 (longitude m)
       /\ nan_if_unparsed v7 (altitude m)
       /\ data_fundacao m = d)
  /\ (matches pat_iso_date v8 = false -> matches pat_br_date v8 = false ->
      parse_founding v8 = Ok (FoundingRaw v8))
  /\ (forall e, parse_founding v8 = Raise e ->
      (matches pat_iso_date v8 = true \/ matches pat_br_date v8 = true)
      /\ read_metadata reader = (None, [ErroMetadados e])).
Proof.
  intros reader nan_if_unparsed. subst reader nan_if_unparsed.
  unfold read_metadata. rewrite read_metadata_try_header.
  split; [|split].
  - intros d ->. cbn [bind]. eexists. split; [reflexivity|].
    cbn. unfold float_or_nan. repeat split; auto.
  - apply parse_founding_raw.
  - intros e He. rewrite He. cbn [bind]. split; [|reflexivity].
    destruct (matches pat_iso_date v8) eqn:H1; [now left|].
    destruct (matches pat_br_date v8) eqn:H2; [now right|].
    rewrite parse_founding_raw in He by assumption. discriminate.
Qed.

End MetadataProperties.

(** ** Ingestion of a bundle *)

Section IngestProperties.

Context {RT : Runtime}.

Lemma read_zipfile_ingest (z : list zip_entry) :
  read_zipfile z = ingest (filter eligible z) (empty_frame, []).
Proof. unfold read_zipfile, ingest. now destruct (filter eligible z). Qed.

Lemma process_entry_failure zf msg data log :
  entry_failure zf msg -> process_entry (data, log) zf = (data, (log ++ [msg])%list).
Proof.
  intros [e He | m e Hm He]; unfold process_entry, read_metadata.
  - now rewrite He.
  - rewrite Hm, He. now rewrite app_nil_r.
Qed.

(** What an entry prints does not depend on what was printed before, and
    the frame it leaves does not depend on the stream at all. *)
Lemma process_entry_log zf data log :
  process_entry (data, log) zf
  = (fst (process_entry (data, []) zf),
     (log ++ snd (process_entry (data, []) zf))%list).
Proof.
  unfold process_entry.
  destruct (read_metadata (meta_lines (content zf))) as [[m|] printed];
    cbn [app fst snd]; [|reflexivity].
  destruct (read_data (content zf)) as [d|e]; cbn [fst snd].
  - now destruct (negb (df_empty d)).
  - now rewrite app_assoc.
Qed.

Lemma ingest_log files : forall data log,
  ingest files (data, log)
  = (fst (ingest files (data, [])), (log ++ snd (ingest files (data, [])))%list).
Proof.
  unfold ingest. induction files as [|zf files IH]; intros data log; cbn [fold_left].
  - cbn. now rewrite app_nil_r.
  - rewrite process_entry_log.
    destruct (process_entry (data, []) zf) as [data' log'] eqn:Hp. cbn [fst snd].
    rewrite (IH data' (log ++ log')%list), (IH data' log').
    cbn [fst snd]. now rewrite app_assoc.
Qed.

Lemma ingest_app files1 files2 st :
  ingest (files1 ++ files2) st = ingest files2 (ingest files1 st).
Proof. apply fold_left_app. Qed.

Lemma short_header_raises (lines : list (list string)) :
  List.length lines < 8 -> exists e, read_metadata_try lines = Raise e.
Proof.
  intros Hlen. unfold read_metadata_try.
  do 8 (destruct lines as [|[|? [|? [|? ?]]] lines];
        try (eexists; reflexivity); cbn [next_pair bind]).
  simpl in Hlen. lia.
Qed.

End IngestProperties.

(** ** Frames *)

Lemma mem_In (c : string) (l : list string) : mem c l = true <-> In c l.
Proof.
  unfold mem. rewrite existsb_exists. split.
  - intros (x & Hx & Heq). apply String.eqb_eq in Heq. now subst.
  - intros H. exists c. split; [assumption | apply String.eqb_refl].
Qed.

Lemma mem_false_neq (c k : string) (ks : list string) :
  mem c ks = false -> mem k ks = true -> String.eqb c k = false.
Proof.
  intros Hc Hk. apply String.eqb_neq. intros ->. congruence.
Qed.

Lemma get_absent (c : string) (r : row) : mem c (map fst r) = false -> get c r = NA.
Proof.
  induction r as [|[k v] r IH]; cbn; [reflexivity|].
  destruct (String.eqb c k); [discriminate | exact IH].
Qed.

Lemma get_drop (ks : list string) (c : string) (r : row) :
  mem c ks = false ->
  get c (filter (fun kv : string * value => negb (mem (fst kv) ks)) r) = get c r.
Proof.
  intros Hc. induction r as [|[k v] r IH]; cbn; [reflexivity|].
  destruct (mem k ks) eqn:Hk; cbn.
  - now rewrite (mem_false_neq _ _ _ Hc Hk).
  - now rewrite IH.
Qed.

Lemma get_app_other (c k : string) (v : value) (r : row) :
  String.eqb c k = false -> get c (r ++ [(k, v)])%list = get c r.
Proof.
  intros Hck. induction r as [|[k' v'] r IH]; cbn.
  - now rewrite Hck.
  - now rewrite IH.
Qed.

Lemma get_set_cell (k c : string) (v : value) (r : row) :
  String.eqb c k = false -> get c (set_cell k v r) = get c r.
Proof.
  intros Hck. unfold set_cell. destruct (mem k (map fst r)).
  - induction r as [|[k' v'] r IH]; cbn; [reflexivity|].
    destruct (String.eqb k' k) eqn:Hk'; cbn; rewrite IH; [|reflexivity].
    apply String.eqb_eq in Hk'. subst k'. now rewrite Hck.
  - now apply get_app_other.
Qed.

Lemma read_record_keys `{Runtime} (cols fields : list string) :
  map fst (read_record cols fields) = cols.
Proof.
  revert fields. induction cols as [|c cols IH]; intros fields; cbn; [reflexivity|].
  destruct fields; cbn; now rewrite IH.
Qed.

Lemma read_csv_well_formed `{Runtime} (t : csv_table) (d : DataFrame) :
  read_csv t = Ok d -> well_formed d.
Proof.
  unfold read_csv. destruct (List.length (header t) <? 19); [discriminate|].
  intros [= <-]. unfold well_formed. cbn. apply Forall_forall.
  intros r Hr. apply in_map_iff in Hr. destruct Hr as (fields & <- & _).
  apply read_record_keys.
Qed.

Lemma rename_well_formed (f : string -> string) (d : DataFrame) :
  well_formed d -> well_formed (rename f d).
Proof.
  unfold well_formed, rename. cbn. rewrite !Forall_forall.
  intros Hd r Hr. apply in_map_iff in Hr. destruct Hr as (r0 & <- & Hr0).
  rewrite <- (Hd r0 Hr0), !map_map. reflexivity.
Qed.

Lemma keys_filter (c : string) (r : row) :
  map fst (filter (fun kv : string * value => String.eqb c (fst kv)) r)
  = filter (String.eqb c) (map fst r).
Proof.
  induction r as [|[k v] r IH]; cbn; [reflexivity|].
  destruct (String.eqb c k); cbn; now rewrite IH.
Qed.

Lemma select_well_formed (names : list string) (d : DataFrame) :
  well_formed d -> well_formed (select names d).
Proof.
  unfold well_formed, select. cbn. rewrite !Forall_forall.
  intros Hd r Hr. apply in_map_iff in Hr. destruct Hr as (r0 & <- & Hr0).
  rewrite <- (Hd r0 Hr0). clear.
  induction names as [|c names IH]; cbn; [reflexivity|].
  now rewrite map_app, keys_filter, IH.
Qed.

Lemma map_column_well_formed col f (d : DataFrame) :
  well_formed d -> well_formed (map_column col f d).
Proof.
  unfold well_formed, map_column. cbn. rewrite !Forall_forall.
  intros Hd r Hr. apply in_map_iff in Hr. destruct Hr as (r0 & <- & Hr0).
  rewrite <- (Hd r0 Hr0), map_map. apply map_ext.
  intros [k v]. cbn. now destruct (String.eqb k col).
Qed.

Section DecoderProperties.

Context {RT : Runtime}.

Lemma coerce_numeric_inv (cols : list string) : forall d d',
  coerce_numeric cols d = Ok d' ->
  columns d' = columns d /\ (well_formed d -> well_formed d').
Proof.
  induction cols as [|col cols IH]; intros d d'; cbn [coerce_numeric].
  - intros [= <-]. auto.
  - destruct (mem col (columns d)); [|apply IH].
    destruct (1 <? count col (columns d)); [discriminate|].
    intros Hd'. apply IH in Hd'. destruct Hd' as [Hc Hw]. split.
    + exact Hc.
    + intros Hwf. apply Hw. now apply map_column_well_formed.
Qed.

Lemma read_data_stages (f : station_file) :
  read_data f
  = (d <- numeric_frame f ;;
     if df_empty (drop_empty_rows d) then Ok empty_frame
     else fix_data_hora (drop_empty_rows d)).
Proof.
  unfold read_data, numeric_frame, drop_empty_rows.
  destruct (table f) as [t|e]; [|reflexivity]. cbn [bind].
  destruct (read_csv t) as [d|e]; [|reflexivity]. cbn [bind].
  now destruct (coerce_numeric numeric_cols _).
Qed.

Lemma numeric_frame_well_formed (f : station_file) (d : DataFrame) :
  numeric_frame f = Ok d -> well_formed d.
Proof.
  unfold numeric_frame.
  destruct (table f) as [t|e]; [|discriminate]. cbn [bind].
  destruct (read_csv t) as [d0|e] eqn:Hcsv; [|discriminate]. cbn [bind].
  intros Hd. apply coerce_numeric_inv in Hd. destruct Hd as [_ Hw].
  apply Hw, select_well_formed, rename_well_formed.
  eapply read_csv_well_formed; eassumption.
Qed.

End DecoderProperties.

Section TimestampProperties.

Context {RT : Runtime}.

Lemma date_hour_series_rows (l : list row) :
  series_add (map (fun v => str_add v (VStr " ")) (convert_dates (map (get "data") l)))
             (convert_hours (map (get "hora") l))
  = map timestamp_string l.
Proof.
  unfold convert_dates, convert_hours.
  induction l as [|r l IH]; cbn [map series_add]; [reflexivity|].
  rewrite IH. f_equal. unfold timestamp_string. now destruct (get "data" r).
Qed.

Lemma timestamp_string_cases (r : row) :
  timestamp_string r = NA \/ exists s, timestamp_string r = VStr s.
Proof.
  unfold timestamp_string.
  destruct (get "data" r); eauto.
Qed.

Lemma get_set_cell_same (k : string) (v : value) (r : row) :
  get k (set_cell k v r) = v.
Proof.
  unfold set_cell. destruct (mem k (map fst r)) eqn:Hk.
  - induction r as [|[k' v'] r IH]; cbn in *; [discriminate|].
    rewrite (String.eqb_sym k' k).
    destruct (String.eqb k k') eqn:Hkk; cbn; rewrite Hkk; [reflexivity|].
    apply IH. exact Hk.
  - induction r as [|[k' v'] r IH]; cbn in *.
    + now rewrite String.eqb_refl.
    + destruct (String.eqb k k'); [discriminate | now apply IH].
Qed.

Lemma finish_row_fields (r : row) (ts : value) (c : string) :
  mem c ["data"; "hora"; "data_hora"] = false ->
  get c (finish_row r ts) = get c r.
Proof.
  intros Hc. unfold finish_row.
  assert (H1 : mem c ["data"; "hora"] = false /\ String.eqb c "data_hora" = false).
  { unfold mem in *. cbn in *.
    destruct (String.eqb c "data"), (String.eqb c "hora"), (String.eqb c "data_hora");
      auto; discriminate. }
  destruct H1 as [H1 H2]. rewrite get_drop by exact H1. now apply get_set_cell.
Qed.

Lemma finish_row_data_hora (r : row) (ts : value) :
  get "data_hora" (finish_row r ts) = ts.
Proof.
  unfold finish_row. rewrite get_drop by reflexivity. apply get_set_cell_same.
Qed.

(** [to_datetime_series] on the strings of a list of rows. *)
Lemma to_datetime_series_inv (l : list row) : forall ts,
  to_datetime_series (map timestamp_string l) = Ok ts ->
  Forall2 decoded l (map (fun rv : row * value => finish_row (fst rv) (snd rv))
                         (combine l ts)).
Proof.
  induction l as [|r l IH]; intros ts; cbn [map to_datetime_series].
  - intros _. constructor.
  - assert (Hstep : forall v ts',
               to_datetime_series (map timestamp_string l) = Ok ts' ->
               match timestamp_string r with
               | VStr s => exists t, to_datetime s = Some t /\ v = VTime t
               | _ => v = NA
               end ->
               Forall2 decoded (r :: l)
                       (map (fun rv : row * value => finish_row (fst rv) (snd rv))
                            (combine (r :: l) (v :: ts')))).
    { intros v ts' Hts' Hv. cbn [combine map fst snd]. constructor; [|now apply IH].
      split; [intros c Hc; now apply finish_row_fields|].
      rewrite finish_row_data_hora. exact Hv. }
    destruct (timestamp_string r) as [|s|q|t] eqn:Hr.
    + destruct (to_datetime_series (map timestamp_string l)) as [ts'|e]; [|discriminate].
      intros [= <-]. apply Hstep; reflexivity.
    + destruct (to_datetime s) as [t|] eqn:Hs; [|discriminate].
      destruct (to_datetime_series (map timestamp_string l)) as [ts'|e]; [|discriminate].
      intros [= <-]. apply Hstep; [reflexivity|]. now exists t.
    + destruct (timestamp_string_cases r) as [H|[s H]]; congruence.
    + destruct (timestamp_string_cases r) as [H|[s H]]; congruence.
Qed.

Lemma to_datetime_series_ok (vs : list value) :
  (forall s, In (VStr s) vs -> to_datetime s <> None) ->
  exists ts, to_datetime_series vs = Ok ts.
Proof.
  induction vs as [|v vs IH]; intros Hvs; cbn [to_datetime_series].
  - now eexists.
  - destruct IH as [ts Hts]; [intros s Hs; apply Hvs; now right|].
    rewrite Hts. destruct v as [|s|q|t]; cbn [bind]; try (now eexists).
    destruct (to_datetime s) eqn:Hs; [now eexists|].
    exfalso. apply (Hvs s); [now left | assumption].
Qed.

Lemma to_datetime_series_fail (vs : list value) (s : string) :
  In (VStr s) vs -> to_datetime s = None ->
  to_datetime_series vs = Raise ValueError.
Proof.
  intros Hin Hs. induction vs as [|v vs IH]; [contradiction|].
  cbn [to_datetime_series]. destruct Hin as [-> | Hin].
  - now rewrite Hs.
  - rewrite (IH Hin). destruct v as [|s'|q|t]; try reflexivity.
    now destruct (to_datetime s').
Qed.

Lemma column_once (c : string) (d : DataFrame) :
  count c (columns d) = 1 -> column c d = Ok (map (get c) (rows d)).
Proof. unfold column. now intros ->. Qed.

Lemma fix_data_hora_inv (d out : DataFrame) :
  fix_data_hora d = Ok out -> Forall2 decoded (rows d) (rows out).
Proof.
  unfold fix_data_hora, column.
  destruct (count "data" (columns d)) as [|[|n]]; try discriminate.
  destruct (count "hora" (columns d)) as [|[|m]]; try discriminate.
  cbn [bind]. rewrite date_hour_series_rows.
  destruct (to_datetime_series (map timestamp_string (rows d))) as [ts|e] eqn:Hts;
    [|discriminate].
  cbn [bind]. intros [= <-]. unfold drop_columns, assign. cbn [rows].
  rewrite map_map. now apply to_datetime_series_inv.
Qed.

Lemma fix_data_hora_ok (d : DataFrame) :
  count "data" (columns d) = 1 -> count "hora" (columns d) = 1 ->
  (forall r s, In r (rows d) -> timestamp_string r = VStr s -> to_datetime s <> None) ->
  exists out, fix_data_hora d = Ok out.
Proof.
  intros Hd Hh Hrows. unfold fix_data_hora.
  rewrite (column_once _ _ Hd), (column_once _ _ Hh). cbn [bind].
  rewrite date_hour_series_rows.
  destruct (to_datetime_series_ok (map timestamp_string (rows d))) as [ts Hts].
  - intros s Hs. apply in_map_iff in Hs. destruct Hs as (r & Hr & Hin). eauto.
  - rewrite Hts. cbn [bind]. now eexists.
Qed.

Lemma fix_data_hora_fail (d : DataFrame) (r : row) (s : string) :
  count "data" (columns d) = 1 -> count "hora" (columns d) = 1 ->
  In r (rows d) -> timestamp_string r = VStr s -> to_datetime s = None ->
  fix_data_hora d = Raise ValueError.
Proof.
  intros Hd Hh Hin Hr Hs. unfold fix_data_hora.
  rewrite (column_once _ _ Hd), (column_once _ _ Hh). cbn [bind].
  rewrite date_hour_series_rows.
  rewrite (to_datetime_series_fail (map timestamp_string (rows d)) s); [reflexivity| |exact Hs].
  rewrite <- Hr. now apply in_map.
Qed.

End TimestampProperties.

(** ** Columns kept by [read_data] *)

Lemma count_app (c : string) (l1 l2 : list string) :
  count c (l1 ++ l2) = count c l1 + count c l2.
Proof. induction l1 as [|x l1 IH]; cbn; [reflexivity | rewrite IH; lia]. Qed.

Lemma count_filter_eqb (n c : string) (l : list string) :
  count c (filter (String.eqb n) l) = if String.eqb n c then count c l else 0.
Proof.
  induction l as [|x l IH]; cbn.
  - now destruct (String.eqb n c).
  - destruct (String.eqb n x) eqn:Hnx; cbn; rewrite IH.
    + apply String.eqb_eq in Hnx. subst x.
      rewrite (String.eqb_sym c n). now destruct (String.eqb n c).
    + destruct (String.eqb n c) eqn:Hnc; [|reflexivity].
      apply String.eqb_eq in Hnc. subst c. now rewrite Hnx.
Qed.

Lemma count_select (c : string) (l names : list string) :
  count c (flat_map (fun n => filter (String.eqb n) l) names) = count c names * count c l.
Proof.
  induction names as [|n names IH]; cbn; [reflexivity|].
  rewrite count_app, count_filter_eqb, IH, (String.eqb_sym c n).
  destruct (String.eqb n c); lia.
Qed.

Lemma count_filter_mem (c : string) (l names : list string) :
  count c (filter (fun n => mem n l) names) = if mem c l then count c names else 0.
Proof.
  induction names as [|n names IH]; cbn.
  - now destruct (mem c l).
  - destruct (mem n l) eqn:Hn; cbn; rewrite IH.
    + destruct (String.eqb c n) eqn:Hcn; [|reflexivity].
      apply String.eqb_eq in Hcn. subst n. now rewrite Hn.
    + destruct (String.eqb c n) eqn:Hcn; [|now destruct (mem c l)].
      apply String.eqb_eq in Hcn. subst n. now rewrite Hn.
Qed.

Lemma mem_count (c : string) (l : list string) : mem c l = negb (count c l =? 0).
Proof.
  unfold mem. induction l as [|x l IH]; cbn; [reflexivity|].
  destruct (String.eqb c x); cbn; [reflexivity | exact IH].
Qed.

Lemma cols_to_keep_once (c : string) : In c cols_to_keep -> count c cols_to_keep = 1.
Proof.
  intros H. cbv [cols_to_keep numeric_cols app] in H.
  repeat (destruct H as [<- | H]; [reflexivity|]). contradiction.
Qed.

Lemma numeric_cols_kept (c : string) : In c numeric_cols -> In c cols_to_keep.
Proof. intros H. unfold cols_to_keep. apply in_or_app. now left. Qed.

Lemma numeric_cols_not_time (c : string) :
  In c numeric_cols -> mem c ["data"; "hora"; "data_hora"] = false.
Proof.
  intros H. cbv [numeric_cols] in H.
  repeat (destruct H as [<- | H]; [reflexivity|]). contradiction.
Qed.

Section ColumnProperties.

Context {RT : Runtime}.

Lemma numeric_frame_columns (f : station_file) (t : csv_table) (d : DataFrame) :
  table f = Ok t -> numeric_frame f = Ok d ->
  columns d = flat_map (fun c => filter (String.eqb c) (labels t))
                       (filter (fun col => mem col (labels t)) cols_to_keep).
Proof.
  unfold numeric_frame. intros -> Hd. unfold bind in Hd.
  destruct (read_csv t) as [d0|e] eqn:Hcsv; [|discriminate].
  apply coerce_numeric_inv in Hd. destruct Hd as [-> _].
  unfold read_csv in Hcsv. destruct (List.length (header t) <? 19); [discriminate|].
  injection Hcsv as <-. reflexivity.
Qed.

Lemma numeric_frame_count (f : station_file) (t : csv_table) (d : DataFrame) (c : string) :
  table f = Ok t -> numeric_frame f = Ok d -> In c cols_to_keep ->
  count c (columns d) = count c (labels t).
Proof.
  intros Ht Hd Hc. rewrite (numeric_frame_columns f t d Ht Hd).
  rewrite count_select, count_filter_mem, (cols_to_keep_once _ Hc), mem_count.
  destruct (count c (labels t)); cbn [negb Nat.eqb]; lia.
Qed.

Lemma numeric_frame_present (f : station_file) (t : csv_table) (d : DataFrame) :
  table f = Ok t -> numeric_frame f = Ok d -> present_numeric d = present_columns t.
Proof.
  intros Ht Hd. unfold present_numeric, present_columns. apply filter_ext_in.
  intros c Hc. rewrite !mem_count.
  now rewrite (numeric_frame_count _ _ _ c Ht Hd (numeric_cols_kept _ Hc)).
Qed.

End ColumnProperties.

(** ** The body of a station file *)

Section BodyProperties.

Context {RT : Runtime}.

Lemma not_all_null_some_defined (cols : list string) (r : row) :
  not_all_null cols r = some_defined cols r.
Proof.
  unfold not_all_null, some_defined.
  induction cols as [|c cols IH]; cbn; [reflexivity|].
  destruct (isnull (get c r)); cbn; [exact IH | reflexivity].
Qed.

Lemma df_empty_false (d : DataFrame) :
  df_empty d = false <-> columns d <> [] /\ rows d <> [].
Proof.
  unfold df_empty. destruct (columns d), (rows d); split; try discriminate;
    try (intros [H1 H2]; congruence); intros _; split; discriminate.
Qed.

(** The rows that reach [fix_data_hora]. *)
Lemma drop_empty_rows_rows (d : DataFrame) :
  df_empty d = false ->
  rows (drop_empty_rows d)
  = match present_numeric d with
    | [] => rows d
    | cols => filter (some_defined cols) (rows d)
    end.
Proof.
  intros He. unfold drop_empty_rows. rewrite He. cbn [negb andb].
  destruct (present_numeric d) as [|c cols]; cbn [negb rows]; [reflexivity|].
  apply filter_ext. intros r. apply not_all_null_some_defined.
Qed.

Lemma drop_empty_rows_columns (d : DataFrame) :
  columns (drop_empty_rows d) = columns d.
Proof.
  unfold drop_empty_rows.
  now destruct (negb (df_empty d) && negb match present_numeric d with [] => true | _ => false end).
Qed.

Lemma drop_empty_rows_of_empty (d : DataFrame) :
  df_empty d = true -> drop_empty_rows d = d.
Proof. intros He. unfold drop_empty_rows. now rewrite He. Qed.

(** What [read_data] returns, from the numeric frame. *)
Lemma read_data_inv (f : station_file) (d out : DataFrame) :
  numeric_frame f = Ok d -> read_data f = Ok out ->
  (df_empty (drop_empty_rows d) = true /\ out = empty_frame)
  \/ (df_empty d = false /\ df_empty (drop_empty_rows d) = false
      /\ Forall2 decoded (rows (drop_empty_rows d)) (rows out)).
Proof.
  intros Hd. rewrite read_data_stages, Hd. cbn [bind].
  destruct (df_empty (drop_empty_rows d)) eqn:He.
  - intros [= <-]. now left.
  - intros Hout. right. split; [|split; [reflexivity|]].
    + destruct (df_empty d) eqn:He'; [|reflexivity].
      rewrite drop_empty_rows_of_empty in He by assumption. congruence.
    + now apply fix_data_hora_inv.
Qed.

Lemma read_data_numeric_frame (f : station_file) (out : DataFrame) :
  read_data f = Ok out -> exists d, numeric_frame f = Ok d.
Proof.
  rewrite read_data_stages. destruct (numeric_frame f) as [d|e]; [|discriminate].
  intros _. now exists d.
Qed.

Lemma present_none (d : DataFrame) (c : string) :
  present_numeric d = [] -> In c numeric_cols -> mem c (columns d) = false.
Proof.
  unfold present_numeric. intros Hp Hc.
  destruct (mem c (columns d)) eqn:Hm; [|reflexivity].
  assert (Hin : In c (filter (fun col => mem col (columns d)) numeric_cols))
    by (apply filter_In; auto).
  rewrite Hp in Hin. contradiction.
Qed.

End BodyProperties.

Section BodyTheorems.

Context {RT : Runtime}.

(** C5, as amended: when the file has a column for at least one of the
    seventeen numeric fields, every row that [read_data] returns holds a
    number in at least one of the numeric columns of the file. *)
Theorem read_data_rows_not_all_null (f : station_file) (t : csv_table) (out : DataFrame) :
  table f = Ok t ->
  present_columns t <> [] ->
  read_data f = Ok out ->
  Forall (fun r' : row =>
            exists c, In c (present_columns t) /\ In c numeric_cols
                      /\ isnull (get c r') = false)
         (rows out).
Proof.
  intros Ht Hp Hout.
  destruct (read_data_numeric_frame f out Hout) as [d Hd].
  pose proof (numeric_frame_present f t d Ht Hd) as Hpres.
  destruct (read_data_inv f d out Hd Hout) as [[_ ->] | (He & _ & Hrows)].
  { constructor. }
  rewrite drop_empty_rows_rows in Hrows by exact He. rewrite Hpres in Hrows.
  destruct (present_columns t) as [|c0 cols] eqn:Hcols; [congruence|].
  clear Hp. remember (filter (some_defined (c0 :: cols)) (rows d)) as kept eqn:Hk.
  assert (Hall : Forall (fun r => some_defined (c0 :: cols) r = true) kept).
  { subst kept. apply Forall_forall. intros r Hr. now apply filter_In in Hr. }
  clear Hk. induction Hrows as [|r r' kept outs Hdec _ IH]; constructor.
  - inversion Hall as [|? ? Hr _]; subst.
    unfold some_defined in Hr. apply existsb_exists in Hr.
    destruct Hr as (c & Hc & Hdef). exists c.
    assert (Hnum : In c numeric_cols).
    { rewrite <- Hcols in Hc. unfold present_columns in Hc.
      now apply filter_In in Hc. }
    repeat split; try assumption.
    destruct Hdec as [Hsame _].
    rewrite (Hsame c (numeric_cols_not_time c Hnum)).
    now apply negb_true_iff.
  - apply IH. now inversion Hall.
Qed.

Lemma kept_rows_drop_empty_rows (d : DataFrame) :
  df_empty d = false -> rows (drop_empty_rows d) = kept_rows (present_numeric d) (rows d).
Proof.
  intros He. rewrite drop_empty_rows_rows by exact He. unfold kept_rows.
  now destruct (present_numeric d).
Qed.

Lemma kept_rows_of_empty (d : DataFrame) :
  columns d <> [] -> df_empty (drop_empty_rows d) = true ->
  kept_rows (present_numeric d) (rows d) = [].
Proof.
  intros Hc He. destruct (df_empty d) eqn:He'.
  - unfold df_empty in He'. destruct (columns d); [congruence|].
    destruct (rows d); [|discriminate]. unfold kept_rows.
    now destruct (present_numeric _).
  - rewrite <- kept_rows_drop_empty_rows by exact He'.
    unfold df_empty in He. rewrite drop_empty_rows_columns in He.
    destruct (columns d); [congruence|].
    now destruct (rows (drop_empty_rows d)).
Qed.

(** C10: the filter of [read_data] looks at the numeric columns that the
    file has after its labels are renamed.  With at least one such column,
    the rows returned are, in order, the rows with a number in one of them.
    With none, no row is dropped: the rows returned are all the rows, with
    NaN for each of the seventeen numeric fields.  In both cases [read_data]
    does return them as soon as the file has its date and hour columns and
    the timestamp of every row that is kept parses. *)
Theorem read_data_filter_present_columns (f : station_file) (t : csv_table) (d : DataFrame) :
  table f = Ok t ->
  numeric_frame f = Ok d ->
  let kept := kept_rows (present_columns t) (rows d) in
  present_numeric d = present_columns t
  /\ (forall out,
         read_data f = Ok out -> columns d <> [] -> Forall2 decoded kept (rows out))
  /\ (forall out,
         read_data f = Ok out -> present_columns t = [] ->
         Forall (fun r' : row => forall c, In c numeric_cols -> get c r' = NA) (rows out))
  /\ (count "data" (labels t) = 1 -> count "hora" (labels t) = 1 ->
      (forall r s, In r kept -> timestamp_string r = VStr s -> to_datetime s <> None) ->
      exists out, read_data f = Ok out /\ Forall2 decoded kept (rows out)).
Proof.
  intros Ht Hd kept. subst kept.
  pose proof (numeric_frame_present f t d Ht Hd) as Hpres. rewrite <- Hpres.
  split; [reflexivity|]. split; [|split].
  - intros out Hout Hc.
    destruct (read_data_inv f d out Hd Hout) as [[He ->] | (He & _ & Hrows)].
    + rewrite kept_rows_of_empty by assumption. constructor.
    + now rewrite <- kept_rows_drop_empty_rows.
  - intros out Hout Hp.
    destruct (read_data_inv f d out Hd Hout) as [[_ ->] | (He & _ & Hrows)].
    { constructor. }
    rewrite kept_rows_drop_empty_rows in Hrows by exact He.
    rewrite Hp in Hrows. cbn [kept_rows] in Hrows.
    pose proof (numeric_frame_well_formed f d Hd) as Hwf.
    unfold well_formed in Hwf.
    induction Hrows as [|r r' l l' Hdec _ IH]; constructor.
    + intros c Hc. destruct Hdec as [Hsame _].
      rewrite (Hsame c (numeric_cols_not_time c Hc)).
      apply get_absent. inversion Hwf as [|? ? Hkeys _]; subst.
      rewrite Hkeys. now apply present_none.
    + apply IH. now inversion Hwf.
  - intros Hdata Hhora Hparse.
    assert (Hcount : forall c, In c cols_to_keep ->
                               count c (columns (drop_empty_rows d)) = count c (labels t)).
    { intros c Hc. rewrite drop_empty_rows_columns.
      now apply (numeric_frame_count f t d c). }
    assert (Hcols : columns d <> []).
    { intros Hnil. specialize (Hcount "data"). rewrite drop_empty_rows_columns in Hcount.
      rewrite Hnil, Hdata in Hcount. cbn [count] in Hcount.
      discriminate Hcount. vm_compute. tauto. }
    rewrite read_data_stages, Hd. cbn [bind].
    destruct (df_empty (drop_empty_rows d)) eqn:He.
    + exists empty_frame. split; [reflexivity|].
      rewrite kept_rows_of_empty by assumption. constructor.
    + assert (He' : df_empty d = false).
      { destruct (df_empty d) eqn:E; [|reflexivity].
        rewrite drop_empty_rows_of_empty in He by assumption. congruence. }
      rewrite <- kept_rows_drop_empty_rows in * by exact He'.
      destruct (fix_data_hora_ok (drop_empty_rows d)) as [out Hout].
      * rewrite Hcount; [assumption | vm_compute; tauto].
      * rewrite Hcount; [assumption | vm_compute; tauto].
      * exact Hparse.
      * exists out. split; [exact Hout|]. now apply fix_data_hora_inv.
Qed.

(** C4, as amended: the timestamps of a file are parsed together.  When the
    file has its date and hour columns and one row that passed the filter
    has a date and time that do not parse, [read_data] raises for the whole
    file: none of its rows is returned, and [read_zipfile] prints the error
    for the entry and leaves the data as it was. *)
Theorem read_data_bad_timestamp_raises
        (f : station_file) (t : csv_table) (d : DataFrame) (r : row) (s : string) :
  table f = Ok t ->
  numeric_frame f = Ok d ->
  count "data" (labels t) = 1 ->
  count "hora" (labels t) = 1 ->
  In r (kept_rows (present_columns t) (rows d)) ->
  timestamp_string r = VStr s ->
  to_datetime s = None ->
  read_data f = Raise ValueError
  /\ (forall zf m data log,
         content zf = f ->
         read_metadata_try (meta_lines f) = Ok m ->
         process_entry (data, log) zf
         = (data, (log ++ [ErroProcessar (filename zf) ValueError])%list)).
Proof.
  intros Ht Hd Hdata Hhora Hin Hr Hs.
  assert (Hraise : read_data f = Raise ValueError).
  { rewrite read_data_stages, Hd. cbn [bind].
    assert (Hcols : forall c, In c cols_to_keep ->
                              count c (columns (drop_empty_rows d)) = count c (labels t)).
    { intros c Hc. rewrite drop_empty_rows_columns.
      now apply (numeric_frame_count f t d c). }
    assert (He' : df_empty d = false).
    { apply df_empty_false. split.
      - intros Hnil. specialize (Hcols "data"). rewrite drop_empty_rows_columns in Hcols.
        rewrite Hnil, Hdata in Hcols. cbn [count] in Hcols.
        discriminate Hcols. vm_compute. tauto.
      - intros Hnil. rewrite Hnil in Hin. unfold kept_rows in Hin.
        destruct (present_columns t); exact Hin. }
    rewrite <- (numeric_frame_present f t d Ht Hd) in Hin.
    rewrite <- kept_rows_drop_empty_rows in Hin by exact He'.
    assert (He : df_empty (drop_empty_rows d) = false).
    { apply df_empty_false. split.
      - rewrite drop_empty_rows_columns. now apply df_empty_false in He'.
      - intros Hnil. rewrite Hnil in Hin. contradiction. }
    rewrite He. apply (fix_data_hora_fail _ r s); try assumption.
    - rewrite Hcols; [assumption | vm_compute; tauto].
    - rewrite Hcols; [assumption | vm_compute; tauto]. }
  split; [exact Hraise|].
  intros zf m data log Hzf Hm. apply process_entry_failure.
  subst f. now apply (failure_in_body zf m).
Qed.

End BodyTheorems.

(** ** Order of the group keys *)

Lemma string_compare_refl (s : string) : String.compare s s = Eq.
Proof.
  induction s as [|a s IH]; cbn; [reflexivity|].
  unfold Ascii.compare. now rewrite N.compare_refl.
Qed.

Lemma string_compare_lt_trans (s1 : string) : forall s2 s3,
  String.compare s1 s2 = Lt -> String.compare s2 s3 = Lt -> String.compare s1 s3 = Lt.
Proof.
  induction s1 as [|a s1 IH]; intros [|b s2] [|c s3]; cbn; try discriminate; auto.
  unfold Ascii.compare.
  destruct (N.compare_spec (N_of_ascii a) (N_of_ascii b)) as [Hab|Hab|Hab];
    destruct (N.compare_spec (N_of_ascii b) (N_of_ascii c)) as [Hbc|Hbc|Hbc];
    try discriminate; intros H1 H2.
  - rewrite Hab, Hbc, N.compare_refl. eauto.
  - rewrite Hab. now apply N.compare_lt_iff in Hbc as ->.
  - rewrite <- Hbc. now apply N.compare_lt_iff in Hab as ->.
  - assert (H : (N_of_ascii a < N_of_ascii c)%N) by lia.
    now apply N.compare_lt_iff in H as ->.
Qed.

Lemma key_compare_eq (a b : group_key) : key_compare a b = Eq <-> a = b.
Proof.
  destruct a as [[r1 m1] n1], b as [[r2 m2] n2]. unfold key_compare. split.
  - destruct (String.compare r1 r2) eqn:Hr; try discriminate.
    destruct (Nat.compare m1 m2) eqn:Hm; try discriminate.
    intros Hn. apply String.compare_eq_iff in Hr, Hn. apply Nat.compare_eq in Hm.
    congruence.
  - intros [= -> -> ->]. now rewrite !string_compare_refl, Nat.compare_refl.
Qed.

Lemma key_compare_antisym (a b : group_key) :
  key_compare a b = CompOpp (key_compare b a).
Proof.
  destruct a as [[r1 m1] n1], b as [[r2 m2] n2]. unfold key_compare.
  rewrite (String.compare_antisym r2 r1), (Nat.compare_antisym m1 m2),
    (String.compare_antisym n2 n1).
  destruct (String.compare r1 r2); cbn; try reflexivity.
  destruct (Nat.compare m1 m2); cbn; try reflexivity.
  now destruct (String.compare n1 n2).
Qed.

Lemma key_compare_lt_trans (a b c : group_key) :
  key_compare a b = Lt -> key_compare b c = Lt -> key_compare a c = Lt.
Proof.
  destruct a as [[r1 m1] n1], b as [[r2 m2] n2], c as [[r3 m3] n3]. unfold key_compare.
  destruct (String.compare r1 r2) eqn:H12; try discriminate;
    destruct (String.compare r2 r3) eqn:H23; try discriminate.
  - apply String.compare_eq_iff in H12, H23. subst r2 r3.
    rewrite string_compare_refl.
    destruct (Nat.compare m1 m2) eqn:M12; try discriminate;
      destruct (Nat.compare m2 m3) eqn:M23; try discriminate.
    + apply Nat.compare_eq in M12, M23. subst m2 m3. rewrite Nat.compare_refl.
      apply string_compare_lt_trans.
    + apply Nat.compare_eq in M12. subst m2. now rewrite M23.
    + apply Nat.compare_eq in M23. subst m3. now rewrite M12.
    + apply Nat.compare_lt_iff in M12, M23.
      assert (H : m1 < m3) by lia. now apply Nat.compare_lt_iff in H as ->.
  - apply String.compare_eq_iff in H12. subst r2. now rewrite H23.
  - apply String.compare_eq_iff in H23. subst r3. now rewrite H12.
  - now rewrite (string_compare_lt_trans r1 r2 r3 H12 H23).
Qed.

Lemma key_lt_irrefl (a : group_key) : ~ key_lt a a.
Proof.
  unfold key_lt. intros H.
  assert (He : key_compare a a = Eq) by now apply key_compare_eq. congruence.
Qed.

Lemma key_compare_gt (a b : group_key) : key_compare a b = Gt -> key_lt b a.
Proof.
  unfold key_lt. intros H. rewrite key_compare_antisym, H. reflexivity.
Qed.

Lemma insert_key_In (k x : group_key) (l : list group_key) :
  In x (insert_key k l) <-> x = k \/ In x l.
Proof.
  induction l as [|y l IH]; cbn; [intuition|].
  destruct (key_compare k y) eqn:Hc; cbn.
  - apply key_compare_eq in Hc. subst y. intuition.
  - intuition.
  - rewrite IH. intuition.
Qed.

Lemma insert_key_increasing (k : group_key) (l : list group_key) :
  increasing l -> increasing (insert_key k l).
Proof.
  induction 1 as [|y l Hy Hl IH]; cbn.
  - repeat constructor.
  - destruct (key_compare k y) eqn:Hc.
    + now constructor.
    + constructor; [|now constructor].
      constructor; [exact Hc|].
      eapply Forall_impl; [|exact Hy]. intros z Hz.
      now apply (key_compare_lt_trans k y z).
    + constructor; [|exact IH].
      apply Forall_forall. intros z Hz. apply insert_key_In in Hz.
      destruct Hz as [-> | Hz]; [now apply key_compare_gt|].
      rewrite Forall_forall in Hy. now apply Hy.
Qed.

Lemma sort_keys_increasing (ks : list group_key) : increasing (sort_keys ks).
Proof.
  induction ks as [|k ks IH]; cbn; [constructor | now apply insert_key_increasing].
Qed.

Lemma sort_keys_In (x : group_key) (ks : list group_key) :
  In x (sort_keys ks) <-> In x ks.
Proof.
  induction ks as [|k ks IH]; cbn; [reflexivity|].
  rewrite insert_key_In, IH. intuition.
Qed.

Lemma increasing_NoDup (l : list group_key) : increasing l -> NoDup l.
Proof.
  induction 1 as [|k l Hk Hl IH]; constructor; [|exact IH].
  intros Hin. rewrite Forall_forall in Hk. exact (key_lt_irrefl k (Hk k Hin)).
Qed.

(** An increasing list is determined by its elements. *)
Lemma increasing_unique (l1 : list group_key) : forall l2,
  increasing l1 -> increasing l2 -> (forall x, In x l1 <-> In x l2) -> l1 = l2.
Proof.
  induction l1 as [|a l1 IH]; intros l2 H1 H2 Hin.
  - destruct l2 as [|b l2]; [reflexivity|].
    exfalso. apply (Hin b). now left.
  - destruct l2 as [|b l2]; [exfalso; apply (Hin a); now left|].
    inversion H1 as [|? ? Ha H1']; subst. inversion H2 as [|? ? Hb H2']; subst.
    rewrite Forall_forall in Ha, Hb.
    assert (Hab : a = b).
    { destruct (proj1 (Hin a) (or_introl eq_refl)) as [Hba | Hal2]; [now symmetry|].
      destruct (proj2 (Hin b) (or_introl eq_refl)) as [Hab | Hbl1]; [assumption|].
      exfalso. apply (key_lt_irrefl a).
      apply (key_compare_lt_trans a b a); [now apply Ha | now apply Hb]. }
    subst b. f_equal. apply IH; try assumption.
    intros x. split; intros Hx.
    + destruct (proj1 (Hin x) (or_intror Hx)) as [Hax | Hx2]; [|exact Hx2].
      subst x. exfalso. exact (key_lt_irrefl a (Ha a Hx)).
    + destruct (proj2 (Hin x) (or_intror Hx)) as [Hax | Hx1]; [|exact Hx1].
      subst x. exfalso. exact (key_lt_irrefl a (Hb a Hx)).
Qed.

Lemma sort_keys_permutation (ks ks' : list group_key) :
  Permutation ks ks' -> sort_keys ks = sort_keys ks'.
Proof.
  intros Hp. apply increasing_unique; try apply sort_keys_increasing.
  intros x. rewrite !sort_keys_In. split; apply Permutation_in; [|symmetry]; exact Hp.
Qed.

(** ** Means *)

Lemma Qsum_permutation (l l' : list Q) : Permutation l l' -> (Qsum l == Qsum l')%Q.
Proof.
  induction 1 as [|x l l' _ IH|x y l|l l' l'' _ IH1 _ IH2]; cbn.
  - reflexivity.
  - now rewrite IH.
  - rewrite !Qplus_assoc, (Qplus_comm y x). reflexivity.
  - now rewrite IH1.
Qed.

Lemma filter_permutation {A : Type} (p : A -> bool) (l l' : list A) :
  Permutation l l' -> Permutation (filter p l) (filter p l').
Proof.
  induction 1 as [|x l l' _ IH|x y l|l l' l'' _ IH1 _ IH2]; cbn.
  - constructor.
  - destruct (p x); [now constructor | exact IH].
  - destruct (p x), (p y); try reflexivity. apply perm_swap.
  - now transitivity (filter p l').
Qed.

Lemma flat_map_permutation {A B : Type} (g : A -> list B) (l l' : list A) :
  Permutation l l' -> Permutation (flat_map g l) (flat_map g l').
Proof.
  induction 1 as [|x l l' _ IH|x y l|l l' l'' _ IH1 _ IH2]; cbn.
  - constructor.
  - now apply Permutation_app_head.
  - rewrite !app_assoc. apply Permutation_app_tail, Permutation_app_comm.
  - now transitivity (flat_map g l').
Qed.

Lemma mean_permutation (vs vs' : list value) : Permutation vs vs' -> mean vs = mean vs'.
Proof.
  intros Hp. unfold mean.
  assert (Hd : Permutation (defined vs) (defined vs'))
    by now apply flat_map_permutation.
  destruct (defined vs) as [|x xs] eqn:H1, (defined vs') as [|y ys] eqn:H2.
  - reflexivity.
  - apply Permutation_nil in Hd. discriminate.
  - symmetry in Hd. apply Permutation_nil in Hd. discriminate.
  - f_equal. apply Qred_complete.
    rewrite (Qsum_permutation _ _ Hd), (Permutation_length Hd). reflexivity.
Qed.

Lemma mean_is_mean (vs : list value) : is_mean_of vs (mean vs).
Proof.
  unfold is_mean_of, mean. destruct (defined vs) as [|x xs] eqn:Hd; [reflexivity|].
  split; [discriminate|]. rewrite Qred_correct. field.
  cbn [List.length]. intros H.
  unfold Qeq, inject_Z in H. cbn [Qnum Qden] in H. lia.
Qed.

(** ** Sorting the report *)

Lemma insert_entry_permutation (e : aggregate) (l : list aggregate) :
  Permutation (insert_entry e l) (e :: l).
Proof.
  induction l as [|x l IH]; cbn; [reflexivity|].
  destruct (entry_le e x); [reflexivity|].
  rewrite IH. apply perm_swap.
Qed.

Lemma sort_values_permutation (l : list aggregate) : Permutation (sort_values l) l.
Proof.
  induction l as [|e l IH]; cbn; [constructor|].
  rewrite insert_entry_permutation. now constructor.
Qed.

(** ** The monthly regional means *)

Lemma NoDup_map_on {A B : Type} (g : A -> B) (l : list A) :
  (forall x y, In x l -> In y l -> g x = g y -> x = y) ->
  NoDup l -> NoDup (map g l).
Proof.
  intros Hinj Hl. induction Hl as [|x l Hx Hl IH]; cbn; constructor.
  - intros Hin. apply in_map_iff in Hin. destruct Hin as (y & Hy & Hyl).
    apply Hx. rewrite (Hinj x y); auto using in_eq, in_cons.
  - apply IH. intros a b Ha Hb. apply Hinj; now right.
Qed.

Section AggregatorProperties.

Context {RT : Runtime}.

Lemma in_group_iff (k : group_key) (r : row) :
  in_group k r = true <-> key_of r = Some k.
Proof.
  unfold in_group, key_eqb. destruct (key_of r) as [k'|]; [|split; discriminate].
  destruct (key_compare k k') eqn:Hc.
  - apply key_compare_eq in Hc. subst. tauto.
  - split; [discriminate|]. intros [= ->].
    assert (He : key_compare k k = Eq) by now apply key_compare_eq. congruence.
  - split; [discriminate|]. intros [= ->].
    assert (He : key_compare k k = Eq) by now apply key_compare_eq. congruence.
Qed.

Lemma keys_of_rows_In (k : group_key) (l : list row) :
  In k (keys_of_rows l) <-> exists r, In r l /\ key_of r = Some k.
Proof.
  unfold keys_of_rows. rewrite in_flat_map. split.
  - intros (r & Hr & Hk). exists r. split; [exact Hr|].
    destruct (key_of r) as [k'|]; [|contradiction].
    destruct Hk as [-> | []]. reflexivity.
  - intros (r & Hr & Hk). exists r. split; [exact Hr|]. rewrite Hk. now left.
Qed.

Lemma key_of_inv (r : row) (g : string) (m : nat) (n : string) :
  key_of r = Some (g, m, n) <->
  exists t, get "regiao" r = VStr g /\ get "data_hora" r = VTime t
            /\ month t = m /\ month_name (month t) = n.
Proof.
  unfold key_of. split.
  - destruct (get "regiao" r) as [|g'|?|?]; try discriminate.
    destruct (get "data_hora" r) as [|?|?|t]; try discriminate.
    intros [= -> <- <-]. now exists t.
  - intros (t & -> & -> & <- & <-). reflexivity.
Qed.

Lemma group_keys_In (k : group_key) (d : DataFrame) :
  In k (group_keys d) <-> exists r, In r (rows d) /\ key_of r = Some k.
Proof. unfold group_keys. rewrite sort_keys_In. apply keys_of_rows_In. Qed.

Lemma media_regional_mensal_ok (d : DataFrame) (entries : list aggregate) :
  media_regional_mensal d = Ok entries ->
  Permutation entries (map (aggregate_group d) (group_keys d)).
Proof.
  unfold media_regional_mensal. destruct (forallb _ _); [|discriminate].
  intros [= <-]. apply sort_values_permutation.
Qed.

(** C8: the report does not depend on the order of the rows: a frame with
    the same columns and a permutation of the rows gives the same lines,
    with the same means, in the same order. *)
Theorem media_regional_mensal_permutation (df : DataFrame) (rows' : list row) :
  Permutation (rows df) rows' ->
  media_regional_mensal (mk_frame (columns df) rows') = media_regional_mensal df.
Proof.
  intros Hp. unfold media_regional_mensal. cbn [columns].
  destruct (forallb _ _); [|reflexivity]. do 2 f_equal.
  assert (Hk : group_keys (mk_frame (columns df) rows') = group_keys df).
  { unfold group_keys. cbn [rows]. apply sort_keys_permutation.
    apply flat_map_permutation. now symmetry. }
  rewrite Hk. apply map_ext. intros k. unfold aggregate_group. cbn [rows].
  assert (Hg : Permutation (filter (in_group k) rows') (filter (in_group k) (rows df)))
    by (apply filter_permutation; now symmetry).
  f_equal; apply mean_permutation; now apply Permutation_map.
Qed.

Lemma filter_map_fst (g : string) (l : list aggregate) :
  map snd (filter (fun p : string * nat => String.eqb (fst p) g)
                  (map (fun e => (agg_regiao e, agg_mes_num e)) l))
  = map agg_mes_num (filter (fun e => String.eqb (agg_regiao e) g) l).
Proof.
  induction l as [|e l IH]; cbn; [reflexivity|].
  destruct (String.eqb (agg_regiao e) g); cbn; now rewrite IH.
Qed.

(** C7, as amended: a region and a month have a line in the report exactly
    when a row of that region has a timestamp in that month, and then they
    have one line; a month without rows has none.  A region therefore has
    as many lines as it has months with rows: at most twelve. *)
Theorem media_regional_mensal_groups (df : DataFrame) (entries : list aggregate) :
  media_regional_mensal df = Ok entries ->
  (forall g m,
      (exists e, In e entries /\ agg_regiao e = g /\ agg_mes_num e = m)
      <-> (exists r t, In r (rows df) /\ get "regiao" r = VStr g
                       /\ get "data_hora" r = VTime t /\ month t = m))
  /\ NoDup (map (fun e => (agg_regiao e, agg_mes_num e)) entries)
  /\ ((forall r t, In r (rows df) -> get "data_hora" r = VTime t -> 1 <= month t <= 12) ->
      forall g,
        List.length (filter (fun e => String.eqb (agg_regiao e) g) entries) <= 12).
Proof.
  intros Hm. pose proof (media_regional_mensal_ok df entries Hm) as Hp.
  assert (Hin : forall e, In e entries <->
                          exists k, In k (group_keys df) /\ e = aggregate_group df k).
  { intros e. split.
    - intros He. apply (Permutation_in _ Hp) in He. apply in_map_iff in He.
      destruct He as (k & <- & Hk). now exists k.
    - intros (k & Hk & ->). apply (Permutation_in _ (Permutation_sym Hp)).
      now apply in_map. }
  assert (Hmem : forall g m,
             (exists e, In e entries /\ agg_regiao e = g /\ agg_mes_num e = m)
             <-> (exists r t, In r (rows df) /\ get "regiao" r = VStr g
                              /\ get "data_hora" r = VTime t /\ month t = m)).
  { intros g m. split.
    - intros (e & He & Hg & Hmo). apply Hin in He. destruct He as (k & Hk & ->).
      apply group_keys_In in Hk. destruct Hk as (r & Hr & Hkey).
      destruct k as [[g' m'] n']. cbn in Hg, Hmo. subst g' m'.
      apply key_of_inv in Hkey. destruct Hkey as (t & H1 & H2 & H3 & _).
      now exists r, t.
    - intros (r & t & Hr & H1 & H2 & H3).
      exists (aggregate_group df (g, m, month_name (month t))).
      split; [|split; reflexivity].
      apply Hin. eexists. split; [|reflexivity].
      apply group_keys_In. exists r. split; [exact Hr|].
      apply key_of_inv. now exists t. }
  assert (Hnd : NoDup (map (fun e => (agg_regiao e, agg_mes_num e)) entries)).
  { apply (Permutation_NoDup
             (Permutation_sym (Permutation_map (fun e => (agg_regiao e, agg_mes_num e)) Hp))).
    rewrite map_map. cbn [aggregate_group agg_regiao agg_mes_num].
    apply (NoDup_map_on (fun k : group_key => (fst (fst k), snd (fst k)))).
    - intros [[g1 m1] n1] [[g2 m2] n2] H1 H2. cbn. intros [= <- <-].
      apply group_keys_In in H1, H2.
      destruct H1 as (r1 & _ & K1). destruct H2 as (r2 & _ & K2).
      apply key_of_inv in K1, K2.
      destruct K1 as (t1 & _ & _ & <- & <-). destruct K2 as (t2 & _ & _ & E & <-).
      now rewrite E.
    - apply increasing_NoDup, sort_keys_increasing. }
  split; [exact Hmem|]. split; [exact Hnd|].
  intros Hmonths g.
  rewrite <- (length_map agg_mes_num), <- filter_map_fst.
  apply (NoDup_incl_length (l' := seq 1 12)).
  - apply NoDup_map_on.
    + intros [g1 m1] [g2 m2] H1 H2. cbn. intros <-.
      apply filter_In in H1, H2. cbn in H1, H2.
      destruct H1 as [_ H1]. destruct H2 as [_ H2].
      apply String.eqb_eq in H1, H2. now subst.
    + now apply NoDup_filter.
  - intros m Hmin. apply in_map_iff in Hmin. destruct Hmin as ([g' m'] & <- & Hf).
    apply filter_In in Hf. destruct Hf as [Hf _].
    apply in_map_iff in Hf. destruct Hf as (e & [= <- <-] & He).
    destruct (proj1 (Hmem (agg_regiao e) (agg_mes_num e))) as (r & t & Hr & _ & Ht & Hmo).
    { now exists e. }
    cbn [snd]. rewrite <- Hmo. apply in_seq. specialize (Hmonths r t Hr Ht). lia.
Qed.

End AggregatorProperties.

(** ** Means of the groups *)

Lemma forallb_mem_In (names cols : list string) :
  (forall c, In c names -> In c cols) -> forallb (fun c => mem c cols) names = true.
Proof.
  intros H. apply forallb_forall. intros c Hc. apply mem_In. now apply H.
Qed.

(** C6, as amended: on a frame that has the columns [temperatura_ar] and
    [umidade_relativa] (next to [regiao] and [data_hora]), every line of the
    report carries, for its group of rows, the arithmetic mean of the numbers
    of each of the two columns, NaN being skipped, and NaN when the group has
    no number in the column.  The bundle with one station of the region NE
    and three rows of January, temperatures 20.0, 22.0, missing and
    humidities 80.0, missing, 70.0, gives the single line (NE, 1) with the
    means 21 and 75. *)
Theorem media_regional_mensal_means :
  (forall (RT : Runtime) (df : DataFrame),
      In "data_hora" (columns df) -> In "regiao" (columns df) ->
      In "temperatura_ar" (columns df) -> In "umidade_relativa" (columns df) ->
      exists entries,
        media_regional_mensal df = Ok entries
        /\ forall e, In e entries ->
             let g := filter (in_group (key_of_entry e)) (rows df) in
             g <> []
             /\ (forall r, In r g <-> In r (rows df) /\ key_of r = Some (key_of_entry e))
             /\ is_mean_of (map (get "temperatura_ar") g) (temperatura_media e)
             /\ is_mean_of (map (get "umidade_relativa") g) (umidade_media e))
  /\ @media_regional_mensal Reference.runtime Examples.ne_january
     = Ok [mk_aggregate "NE" 1 "janeiro" (Some 21%Q) (Some 75%Q)].
Proof.
  split; [|vm_compute; reflexivity].
  intros RT df H1 H2 H3 H4.
  assert (Hcols : forallb (fun c => mem c (columns df))
                          ["data_hora"; "regiao"; "temperatura_ar"; "umidade_relativa"]
                  = true).
  { apply forallb_mem_In. intros c [<-|[<-|[<-|[<-|[]]]]]; assumption. }
  eexists. split.
  { unfold media_regional_mensal. rewrite Hcols. reflexivity. }
  intros e He.
  apply (Permutation_in _ (sort_values_permutation _)) in He.
  apply in_map_iff in He. destruct He as (k & <- & Hk).
  assert (Hkey : key_of_entry (aggregate_group df k) = k) by now destruct k as [[? ?] ?].
  rewrite Hkey. cbn zeta.
  assert (Hg : forall r, In r (filter (in_group k) (rows df))
                         <-> In r (rows df) /\ key_of r = Some k).
  { intros r. rewrite filter_In, in_group_iff. reflexivity. }
  split; [|split; [exact Hg|]].
  - apply group_keys_In in Hk. destruct Hk as (r & Hr & Hkr).
    intros Hnil. assert (Hin : In r (filter (in_group k) (rows df))) by now apply Hg.
    rewrite Hnil in Hin. contradiction.
  - split; apply mean_is_mean.
Qed.

(** ** Worked examples *)

Section WorkedExamples.

Import Examples.
#[local] Existing Instance Reference.runtime.

(** C2 on a header: the founding date 13/05/00 is parsed and the
    descriptor is returned. *)
Lemma read_metadata_header_witness :
  exists m,
    read_metadata (salvador_header "13/05/00") = (Some m, [])
    /\ regiao m = "NE"
    /\ data_fundacao m = FoundingDate (mk_datetime 2000 5 13 0 0).
Proof.
  destruct (read_metadata_header
              "REGIAO:" "UF:" "ESTACAO:" "CODIGO (WMO):" "LATITUDE:" "LONGITUDE:"
              "ALTITUDE:" "DATA DE FUNDACAO:"
              "NE" "BA" "SALVADOR" "A401" "-13,005" "-38,505" "47,56" "13/05/00" [])
    as (Hok & _ & _).
  destruct (Hok (FoundingDate (mk_datetime 2000 5 13 0 0)) eq_refl)
    as (m & Hm & Hreg & _ & _ & _ & _ & _ & _ & Hdate).
  exists m. repeat split; assumption.
Defined.

(** C2 fails as stated: a founding date that matches neither pattern comes
    back as the string that was read, and one that matches a pattern without
    being a date makes [read_metadata] return the empty dictionary. *)
Lemma read_metadata_founding_counterexample :
  matches pat_iso_date "sem data" = false
  /\ matches pat_br_date "sem data" = false
  /\ (exists m,
         read_metadata (salvador_header "sem data") = (Some m, [])
         /\ data_fundacao m = FoundingRaw "sem data")
  /\ matches pat_iso_date "2000-02-30" = true
  /\ read_metadata (salvador_header "2000-02-30") = (None, [ErroMetadados ValueError]).
Proof.
  split; [reflexivity|]. split; [reflexivity|]. split.
  - eexists. split; [vm_compute; reflexivity | reflexivity].
  - split; vm_compute; reflexivity.
Qed.

(** C4 on the file with a row dated 30 February. *)
Lemma read_data_bad_timestamp_witness :
  count "data" (labels february_table) = 1
  /\ count "hora" (labels february_table) = 1
  /\ to_datetime "2020-02-30 00:00" = None
  /\ read_data february = Raise ValueError.
Proof.
  split; [reflexivity|]. split; [reflexivity|]. split; [reflexivity|].
  eapply (fun d r Hd Hr Ht Hs =>
            proj1 (read_data_bad_timestamp_raises
                     february february_table d r "2020-02-30 00:00"
                     eq_refl Hd eq_refl eq_refl Hr Ht Hs)).
  - vm_compute. reflexivity.
  - vm_compute. right. left. reflexivity.
  - vm_compute. reflexivity.
  - vm_compute. reflexivity.
Defined.

(** C4 fails as stated: the row dated 30 February is fatal to its file.
    The first row, which is returned when it is alone in the file, is not
    returned, and the bundle is left without data. *)
Lemma read_data_bad_timestamp_counterexample :
  read_data february = Raise ValueError
  /\ read_zipfile [february_entry]
     = (empty_frame, [ErroProcessar (filename february_entry) ValueError])
  /\ exists out, read_data february_first_row = Ok out /\ List.length (rows out) = 1.
Proof.
  split; [vm_compute; reflexivity|]. split; [vm_compute; reflexivity|].
  eexists. split; [vm_compute; reflexivity | reflexivity].
Qed.

(** C5 on the January file. *)
Lemma read_data_rows_not_all_null_witness :
  present_columns january_table <> []
  /\ exists out,
       read_data salvador = Ok out
       /\ Forall (fun r' : row =>
                    exists c, In c (present_columns january_table) /\ In c numeric_cols
                              /\ isnull (get c r') = false)
                 (rows out).
Proof.
  assert (Hp : present_columns january_table <> []) by (vm_compute; discriminate).
  split; [exact Hp|].
  eexists. split; [vm_compute; reflexivity|].
  eapply (read_data_rows_not_all_null salvador january_table _ eq_refl Hp).
  vm_compute. reflexivity.
Defined.

(** C5 fails as stated: a file without any of the numeric columns has its
    row returned, with NaN in all seventeen fields. *)
Lemma read_data_all_null_counterexample :
  present_columns unlabelled_table = []
  /\ exists r,
       read_data unlabelled = Ok (mk_frame ["data_hora"] [r])
       /\ forallb (fun c => isnull (get c r)) numeric_cols = true.
Proof.
  split; [reflexivity|].
  eexists. split; vm_compute; reflexivity.
Qed.

(** C6 on the January bundle. *)
Lemma media_regional_mensal_means_witness :
  exists entries,
    media_regional_mensal ne_january = Ok entries
    /\ forall e, In e entries ->
         let g := filter (in_group (key_of_entry e)) (rows ne_january) in
         g <> []
         /\ (forall r, In r g <-> In r (rows ne_january) /\ key_of r = Some (key_of_entry e))
         /\ is_mean_of (map (get "temperatura_ar") g) (temperatura_media e)
         /\ is_mean_of (map (get "umidade_relativa") g) (umidade_media e).
Proof.
  apply (proj1 media_regional_mensal_means Reference.runtime ne_january);
    vm_compute; tauto.
Defined.

(** C6 fails as stated: when no file of the bundle has a column for the air
    temperature, the rows have no temperature and the aggregation raises
    instead of giving NaN. *)
Lemma media_regional_mensal_missing_column_counterexample :
  let df := fst (read_zipfile rain_bundle) in
  List.length (rows df) = 1
  /\ Forall (fun r => get "temperatura_ar" r = NA /\ key_of r = Some ("NE", 1, "janeiro"))
            (rows df)
  /\ media_regional_mensal df = Raise KeyError.
Proof.
  split; [vm_compute; reflexivity|]. split; [|vm_compute; reflexivity].
  vm_compute. repeat constructor.
Qed.

(** C7 on the January bundle. *)
Lemma media_regional_mensal_groups_witness :
  exists entries,
    media_regional_mensal ne_january = Ok entries
    /\ NoDup (map (fun e => (agg_regiao e, agg_mes_num e)) entries)
    /\ List.length (filter (fun e => String.eqb (agg_regiao e) "NE") entries) <= 12.
Proof.
  eexists. split; [vm_compute; reflexivity|].
  destruct (media_regional_mensal_groups
              ne_january [mk_aggregate "NE" 1 "janeiro" (Some 21%Q) (Some 75%Q)])
    as (_ & Hnd & Hlen).
  - vm_compute. reflexivity.
  - split; [exact Hnd|]. apply Hlen. intros r t Hr Ht.
    vm_compute in Hr.
    repeat (destruct Hr as [<- | Hr]; [vm_compute in Ht; injection Ht as <-; cbn; lia|]).
    contradiction.
Defined.

(** C7 fails as stated: the region NE is in the data with rows of January
    only, and has one line in the report, not twelve. *)
Lemma media_regional_mensal_one_month_counterexample :
  Forall (fun r => get "regiao" r = VStr "NE") (rows ne_january)
  /\ rows ne_january <> []
  /\ exists entries,
       media_regional_mensal ne_january = Ok entries
       /\ List.length (filter (fun e => String.eqb (agg_regiao e) "NE") entries) = 1.
Proof.
  split; [vm_compute; repeat constructor|]. split; [vm_compute; discriminate|].
  eexists. split; vm_compute; reflexivity.
Qed.

(** C8 on the January rows in reverse order. *)
Lemma media_regional_mensal_permutation_witness :
  media_regional_mensal (mk_frame (columns ne_january) (rev (rows ne_january)))
  = media_regional_mensal ne_january.
Proof.
  apply media_regional_mensal_permutation. apply Permutation_rev.
Defined.

(** C10 on the file without numeric columns. *)
Lemma read_data_filter_present_columns_witness :
  present_columns unlabelled_table = []
  /\ exists out,
       read_data unlabelled = Ok out
       /\ List.length (rows out) = 1
       /\ Forall (fun r' : row => forall c, In c numeric_cols -> get c r' = NA) (rows out).
Proof.
  split; [reflexivity|].
  eexists. split; [vm_compute; reflexivity|]. split; [reflexivity|].
  eapply (fun d Hd Hout =>
            proj1 (proj2 (proj2 (read_data_filter_present_columns
                                   unlabelled unlabelled_table d eq_refl Hd)))
                  _ Hout eq_refl).
  - vm_compute. reflexivity.
  - vm_compute. reflexivity.
Defined.

End WorkedExamples.


(** * Further properties *)

(** ** The patterns of [columns_renamer] *)

Lemma In_all_chars (c : ascii) : In c all_chars.
Proof.
  unfold all_chars. rewrite <- (ascii_nat_embedding c). apply in_map, in_seq.
  pose proof (nat_ascii_bounded c). lia.
Qed.

Lemma consume_overlap (p : list charclass) : forall q s r1 r2,
  consume p s = Some r1 -> consume q s = Some r2 -> overlap p q = true.
Proof.
  induction p as [|k1 p IH]; intros [|k2 q] s r1 r2; cbn [overlap]; try reflexivity.
  destruct s as [|c s]; cbn [consume]; [discriminate|].
  destruct (k1 c) eqn:H1; [|discriminate]. destruct (k2 c) eqn:H2; [|discriminate].
  intros Hp Hq. apply andb_true_iff. split; [|eapply IH; eassumption].
  apply existsb_exists. exists c. split; [apply In_all_chars | now rewrite H1, H2].
Qed.

Lemma matches_overlap (p q : list charclass) (s : string) :
  matches p s = true -> matches q s = true -> overlap p q = true.
Proof.
  unfold matches. destruct (consume p s) eqn:Hp; [|discriminate].
  destruct (consume q s) eqn:Hq; [|discriminate]. intros _ _.
  eapply consume_overlap; eassumption.
Qed.

Lemma renamer_rules_agree : rules_agree renamer_rules = true.
Proof. vm_compute. reflexivity. Qed.

(** Two rules that match the same string give the same name. *)
Lemma matching_rules_agree (r1 r2 : list charclass * string) (s : string) :
  In r1 renamer_rules -> In r2 renamer_rules ->
  matches (fst r1) s = true -> matches (fst r2) s = true -> snd r1 = snd r2.
Proof.
  intros H1 H2 M1 M2. pose proof renamer_rules_agree as Ha.
  unfold rules_agree in Ha. rewrite forallb_forall in Ha.
  specialize (Ha r1 H1). rewrite forallb_forall in Ha. specialize (Ha r2 H2).
  rewrite (matches_overlap _ _ _ M1 M2) in Ha. cbn in Ha. now apply String.eqb_eq.
Qed.

Lemma first_match_Some rules s canon :
  first_match rules s = Some canon ->
  exists r, In r rules /\ matches (fst r) s = true /\ snd r = canon.
Proof.
  induction rules as [|[p c] rules IH]; cbn [first_match]; [discriminate|].
  destruct (matches p s) eqn:Hm.
  - intros [= <-]. exists (p, c). cbn. auto.
  - intros H. destruct (IH H) as (r & Hr & Hrm & Hrc). exists r. cbn. auto.
Qed.

Lemma first_match_None rules s :
  first_match rules s = None <-> forall r, In r rules -> matches (fst r) s = false.
Proof.
  induction rules as [|[p c] rules IH]; cbn [first_match].
  - split; [intros _ r [] | reflexivity].
  - destruct (matches p s) eqn:Hm.
    + split; [discriminate|]. intros H. specialize (H (p, c) (or_introl eq_refl)).
      cbn in H. congruence.
    + rewrite IH. split.
      * intros H r [<- | Hr]; [exact Hm | now apply H].
      * intros H r Hr. apply H. now right.
Qed.

Lemma consume_append (p : list charclass) : forall s t r,
  consume p s = Some r -> consume p (s ++ t) = Some (r ++ t).
Proof.
  induction p as [|k p IH]; intros s t r; cbn [consume].
  - now intros [= ->].
  - destruct s as [|c s]; [discriminate|]. cbn [append consume].
    destruct (k c); [apply IH | discriminate].
Qed.

Lemma matches_append (p : list charclass) (s t : string) :
  matches p s = true -> matches p (s ++ t) = true.
Proof.
  unfold matches. destruct (consume p s) as [r|] eqn:Hp; [|discriminate].
  intros _. now rewrite (consume_append p s t r Hp).
Qed.

Lemma lower_append (s t : string) : Str.lower (s ++ t) = Str.lower s ++ Str.lower t.
Proof. induction s as [|c s IH]; cbn; [reflexivity | now rewrite IH]. Qed.

(** The renaming looks at the lower-cased start of the label only: upper and
    lower case are the same to it, and once a pattern matches nothing that
    follows in the label changes the name. *)
Theorem columns_renamer_prefix :
  (forall name, columns_renamer (Str.lower name) = columns_renamer name)
  /\ (forall name suffix canon,
         first_match renamer_rules (Str.lower name) = Some canon ->
         columns_renamer name = canon /\ columns_renamer (name ++ suffix) = canon).
Proof.
  split.
  - intros name. unfold columns_renamer. now rewrite lower_idem.
  - intros name suffix canon Hm. unfold columns_renamer. rewrite Hm. split; [reflexivity|].
    rewrite lower_append.
    destruct (first_match_Some _ _ _ Hm) as (r & Hr & Hrm & <-).
    pose proof (matches_append _ _ (Str.lower suffix) Hrm) as Hrm'.
    destruct (first_match renamer_rules (Str.lower name ++ Str.lower suffix))
      as [canon'|] eqn:Hm'.
    + destruct (first_match_Some _ _ _ Hm') as (r' & Hr' & Hrm2 & <-).
      now apply (matching_rules_agree r' r (Str.lower name ++ Str.lower suffix)).
    + rewrite first_match_None in Hm'. rewrite (Hm' r Hr) in Hrm'. discriminate.
Qed.

Lemma columns_renamer_prefix_witness :
  columns_renamer ("Hora UTC" ++ " (local)") = "hora".
Proof.
  apply (proj2 columns_renamer_prefix "Hora UTC" " (local)" "hora").
  vm_compute. reflexivity.
Defined.

(** No label is matched by two patterns with different names, so the order
    of the tests in [columns_renamer] does not matter: the rules taken in any
    other order rename every label in the same way. *)
Theorem columns_renamer_order_free (rules' : list (list charclass * string)) (name : string) :
  Permutation renamer_rules rules' ->
  first_match rules' name = first_match renamer_rules name.
Proof.
  intros Hp.
  destruct (first_match renamer_rules name) as [canon|] eqn:Hm.
  - destruct (first_match_Some _ _ _ Hm) as (r & Hr & Hrm & <-).
    destruct (first_match rules' name) as [canon'|] eqn:Hm'.
    + destruct (first_match_Some _ _ _ Hm') as (r' & Hr' & Hrm' & <-).
      f_equal. apply (matching_rules_agree r' r name); try assumption.
      now apply (Permutation_in _ (Permutation_sym Hp)).
    + rewrite first_match_None in Hm'.
      rewrite (Hm' r (Permutation_in _ Hp Hr)) in Hrm. discriminate.
  - rewrite first_match_None in *. intros r Hr. apply Hm.
    now apply (Permutation_in _ (Permutation_sym Hp)).
Qed.

Lemma columns_renamer_order_free_witness :
  first_match (rev renamer_rules) "temperatura orvalho max. na hora ant. (aut)"
  = Some "temperatura_orvalho_maxima".
Proof.
  rewrite (columns_renamer_order_free (rev renamer_rules)).
  - vm_compute. reflexivity.
  - apply Permutation_rev.
Defined.

(** ** [convert_hours] and [convert_dates] *)

(** [convert_hours] keeps its promise: whatever the element, the string it
    gives has the form of the pattern [^\d{2}:\d{2}$], and applying
    [fix_hour_string] to it again changes nothing. *)
Theorem fix_hour_string_format (h : string) :
  matches_to_end pat_hh_colon_mm (fix_hour_string h) = true
  /\ fix_hour_string (fix_hour_string h) = fix_hour_string h.
Proof.
  assert (Hfmt : matches_to_end pat_hh_colon_mm (fix_hour_string h) = true).
  { unfold fix_hour_string.
    destruct (matches_to_end pat_hh_colon_mm h) eqn:H1; [exact H1|].
    destruct (matches_to_end pat_hhmm h) eqn:H2.
    { apply hhmm_iff in H2. destruct H2 as (a & b & c & d & rest & -> & Ha & Hb & Hc & Hd & He).
      apply hh_colon_mm_iff. exists a, b, c, d, rest. cbn. auto 10. }
    assert (Hpre : forall a b rest, is_digit_char a -> is_digit_char b ->
                     matches_to_end pat_hh_colon_mm
                       (Str.take 2 (String a (String b rest)) ++ ":00") = true).
    { intros a b rest Ha Hb. apply hh_colon_mm_iff.
      assert (H0 : is_digit_char "0") by (unfold is_digit_char; cbn; lia).
      exists a, b, "0"%char, "0"%char, EmptyString.
      split; [reflexivity|]. repeat (split; [assumption|]). now left. }
    destruct (matches_to_end pat_hh_utc h) eqn:H3.
    { apply hh_utc_iff in H3. destruct H3 as (a & b & rest & -> & Ha & Hb & _).
      now apply Hpre. }
    destruct (consume pat_hh h) as [rest|] eqn:H4; [|reflexivity].
    assert (Hs : shape_hh_prefix h) by (apply hh_prefix_iff; now exists rest).
    destruct Hs as (a & b & rest' & -> & Ha & Hb). now apply Hpre. }
  split; [exact Hfmt|].
  unfold fix_hour_string at 1. now rewrite Hfmt.
Qed.

Lemma replace_no_slash (s : string) : no_slash (Str.replace "/" "-" s) = true.
Proof.
  induction s as [|c s IH]; cbn; [reflexivity|].
  destruct (Ascii.eqb c "/") eqn:Hc; cbn; [exact IH|]. now rewrite Hc, IH.
Qed.

Lemma replace_length (a b : ascii) (s : string) :
  String.length (Str.replace a b s) = String.length s.
Proof. induction s as [|c s IH]; cbn; [reflexivity | now rewrite IH]. Qed.

Lemma replace_unchanged (s : string) : no_slash s = true -> Str.replace "/" "-" s = s.
Proof.
  induction s as [|c s IH]; cbn; [reflexivity|].
  destruct (Ascii.eqb c "/"); cbn; [discriminate|]. intros H. now rewrite IH.
Qed.

Lemma replace_get (s : string) : forall i,
  String.get i (Str.replace "/" "-" s) = option_map dash (String.get i s).
Proof.
  induction s as [|c s IH]; intros i; cbn [Str.replace String.get]; [reflexivity|].
  destruct i as [|i]; [reflexivity | apply IH].
Qed.

Lemma replace_append (a b : ascii) (s t : string) :
  Str.replace a b (s ++ t) = Str.replace a b s ++ Str.replace a b t.
Proof. induction s as [|c s IH]; cbn; [reflexivity | now rewrite IH]. Qed.

(** [convert_dates] changes the separators and nothing else: the series keeps
    its length and NaN stays NaN; in a date every slash becomes a dash and
    every other character stays where it is, so that the day, the month and
    the year of a date [d/m/y] come out in the same order, [d-m-y], and not
    as [y-m-d]; a date without slashes (the ISO dates of the older files) is
    returned as it is. *)
Theorem convert_dates_separators (dates : list value) :
  List.length (convert_dates dates) = List.length dates
  /\ convert_dates (convert_dates dates) = convert_dates dates
  /\ Forall2 (fun v v' =>
                match v with
                | VStr s =>
                    exists s', v' = VStr s' /\ String.length s' = String.length s
                               /\ (forall i, String.get i s' = option_map dash (String.get i s))
                               /\ (forall d m y,
                                      no_slash d = true -> no_slash m = true ->
                                      no_slash y = true ->
                                      s = d ++ "/" ++ m ++ "/" ++ y ->
                                      s' = d ++ "-" ++ m ++ "-" ++ y)
                               /\ no_slash s' = true
                               /\ (no_slash s = true -> s' = s)
                | _ => v' = NA
                end)
             dates (convert_dates dates).
Proof.
  unfold convert_dates. split; [apply length_map|]. split.
  - rewrite map_map. apply map_ext. intros [|s|q|t]; try reflexivity.
    now rewrite (replace_unchanged _ (replace_no_slash s)).
  - induction dates as [|v dates IH]; cbn [map]; constructor; [|exact IH].
    destruct v as [|s|q|t]; try reflexivity.
    eexists. split; [reflexivity|].
    split; [apply replace_length|]. split; [apply replace_get|].
    split; [|split; [apply replace_no_slash | apply replace_unchanged]].
    intros d m y Hd Hm Hy ->.
    rewrite !replace_append, (replace_unchanged d Hd), (replace_unchanged m Hm),
      (replace_unchanged y Hy).
    reflexivity.
Qed.

(** ** Dates written day first *)

Section DayFirst.

Context {RT : Runtime}.

(** A row that passed the filter and whose timestamp does not parse. *)
Lemma read_data_timestamp_failure
      (f : station_file) (t : csv_table) (d : DataFrame) (r : row) (s : string) :
  table f = Ok t -> numeric_frame f = Ok d ->
  count "data" (labels t) = 1 -> count "hora" (labels t) = 1 ->
  In r (kept_rows (present_columns t) (rows d)) ->
  timestamp_string r = VStr s -> to_datetime s = None ->
  read_data f = Raise ValueError.
Proof.
  intros Ht Hd Hdata Hhora Hin Hr Hs.
  rewrite read_data_stages, Hd. cbn [bind].
  assert (Hcols : forall c, In c cols_to_keep ->
                            count c (columns (drop_empty_rows d)) = count c (labels t)).
  { intros c Hc. rewrite drop_empty_rows_columns.
    now apply (numeric_frame_count f t d c). }
  assert (He' : df_empty d = false).
  { apply df_empty_false. split.
    - intros Hnil. specialize (Hcols "data"). rewrite drop_empty_rows_columns in Hcols.
      rewrite Hnil, Hdata in Hcols. cbn [count] in Hcols.
      discriminate Hcols. vm_compute. tauto.
    - intros Hnil. rewrite Hnil in Hin. unfold kept_rows in Hin.
      destruct (present_columns t); exact Hin. }
  rewrite <- (numeric_frame_present f t d Ht Hd) in Hin.
  rewrite <- kept_rows_drop_empty_rows in Hin by exact He'.
  assert (He : df_empty (drop_empty_rows d) = false).
  { apply df_empty_false. split.
    - rewrite drop_empty_rows_columns. now apply df_empty_false in He'.
    - intros Hnil. rewrite Hnil in Hin. contradiction. }
  rewrite He. apply (fix_data_hora_fail _ r s); try assumption.
  - rewrite Hcols; [assumption | vm_compute; tauto].
  - rewrite Hcols; [assumption | vm_compute; tauto].
Qed.

Lemma day_first_not_year (date hour_ : string) :
  day_first date ->
  matches [digit; digit; digit; digit] ((Str.replace "/" "-" date ++ " ") ++ hour_) = false.
Proof.
  intros (a & b & rest & ->). unfold matches. cbn [Str.replace append consume].
  rewrite Ascii.eqb_refl.
  destruct (digit _); [|reflexivity]. destruct (digit _); reflexivity.
Qed.

(** The docstring of [convert_dates] speaks of dates DD/MM/YYYY, but the
    function leaves the day first.  With a timestamp parser that wants the
    four digits of the year first, as the format [%Y-%m-%d %H:%M] does, one
    such date in a row that passed the filter makes [read_data] raise: the
    file gives no rows. *)
Theorem read_data_day_first_date
        (f : station_file) (t : csv_table) (d : DataFrame) (r : row) (date : string) :
  (forall s ts, to_datetime s = Some ts -> matches [digit; digit; digit; digit] s = true) ->
  table f = Ok t -> numeric_frame f = Ok d ->
  count "data" (labels t) = 1 -> count "hora" (labels t) = 1 ->
  In r (kept_rows (present_columns t) (rows d)) ->
  get "data" r = VStr date -> day_first date ->
  read_data f = Raise ValueError.
Proof.
  intros Hyear Ht Hd Hdata Hhora Hin Hdate Hday.
  apply (read_data_timestamp_failure f t d r
           ((Str.replace "/" "-" date ++ " ") ++ fix_hour_string (str_of (get "hora" r))));
    try assumption.
  - unfold timestamp_string. now rewrite Hdate.
  - destruct (to_datetime _) as [ts|] eqn:Hts; [|reflexivity].
    apply Hyear in Hts. rewrite day_first_not_year in Hts by assumption. discriminate.
Qed.

End DayFirst.

(** ** More on the metadata header *)

Section MetadataEdges.

Context {RT : Runtime}.

Ltac next_line reader :=
  destruct reader as [|[|? [|? [|? ?]]] reader];
  cbn [next_pair bind read_metadata_try forallb is_pair andb firstn existsb negb orb
       List.length] in *;
  try discriminate; try reflexivity; try lia.

(** A header that stops before its eighth line, or one of whose first eight
    lines does not have exactly two fields, gives the empty dictionary: the
    first with [StopIteration], the second with the [ValueError] of the
    unpacking.  One line is printed. *)
Theorem read_metadata_bad_header (reader : list (list string)) :
  (List.length reader < 8 -> forallb is_pair reader = true ->
   read_metadata reader = (None, [ErroMetadados StopIteration]))
  /\ (existsb (fun line => negb (is_pair line)) (firstn 8 reader) = true ->
      read_metadata reader = (None, [ErroMetadados ValueError])).
Proof.
  unfold read_metadata, read_metadata_try. split.
  - intros Hlen Hpairs. do 8 (next_line reader).
  - intros Hbad. do 8 (next_line reader).
Qed.

(** The labels of the header lines are not looked at, nor is anything after
    the eighth line: the descriptor comes from the second field of each of the
    first eight lines, by position. *)
Theorem read_metadata_by_position
        l1 l2 l3 l4 l5 l6 l7 l8 k1 k2 k3 k4 k5 k6 k7 k8 v1 v2 v3 v4 v5 v6 v7 v8 rest rest' :
  read_metadata (header_lines l1 l2 l3 l4 l5 l6 l7 l8 v1 v2 v3 v4 v5 v6 v7 v8 rest)
  = read_metadata (header_lines k1 k2 k3 k4 k5 k6 k7 k8 v1 v2 v3 v4 v5 v6 v7 v8 rest').
Proof. unfold read_metadata. now rewrite !read_metadata_try_header. Qed.

End MetadataEdges.

Lemma consume_length (p : list charclass) : forall s,
  consume p s = Some EmptyString -> String.length s = List.length p.
Proof.
  induction p as [|k p IH]; intros s; cbn [consume].
  - now intros [= ->].
  - destruct s as [|c s]; [discriminate|]. destruct (k c); [|discriminate].
    intros H. cbn. now rewrite (IH s H).
Qed.

Lemma matches_exactly_length (p : list charclass) (s : string) :
  matches_exactly p s = true -> String.length s = List.length p.
Proof.
  unfold matches_exactly. destruct (consume p s) as [[|? ?]|] eqn:Hc; try discriminate.
  intros _. now apply consume_length.
Qed.

Lemma digit_val_le (c : ascii) : Str.is_digit c = true -> Str.digit_val c <= 9.
Proof.
  unfold Str.is_digit, Str.digit_val. rewrite andb_true_iff, !Nat.leb_le. lia.
Qed.

Lemma two_digits_le (s : string) (start n : nat) : field start 2 s = Some n -> n <= 99.
Proof.
  unfold field, Str.nat_of_digits.
  destruct (Str.take 2 (Str.drop start s)) as [|a [|b [|c u]]] eqn:Ht; cbn;
    try discriminate.
  - destruct (Str.is_digit a) eqn:Ha; [|discriminate]. intros [= <-].
    apply digit_val_le in Ha. lia.
  - destruct (Str.is_digit a) eqn:Ha; [|discriminate].
    destruct (Str.is_digit b) eqn:Hb; [|discriminate]. intros [= <-].
    apply digit_val_le in Ha, Hb. lia.
  - exfalso. assert (Hl : String.length (Str.take 2 (Str.drop start s)) <= 2).
    { clear. generalize (Str.drop start s). intros u.
      destruct u as [|x [|y u]]; cbn; lia. }
    rewrite Ht in Hl. cbn in Hl. lia.
Qed.

(** A founding date that [read_metadata] parses is a date of the calendar, at
    midnight, and the string is the date and nothing more: ten characters in
    the first format, eight in the second, where the two digits of the year
    give a year from 1969 to 2068. *)
Theorem parse_founding_date `{Runtime} (s : string) (d : datetime) :
  parse_founding s = Ok (FoundingDate d) ->
  valid_date (year d) (month d) (day d) = true
  /\ hour d = 0 /\ minute d = 0
  /\ String.length s = (if matches pat_iso_date s then 10 else 8)
  /\ (matches pat_iso_date s = false -> 1969 <= year d <= 2068).
Proof.
  unfold parse_founding. destruct (matches pat_iso_date s) eqn:Hiso.
  - unfold strptime_Ymd.
    destruct (matches_exactly _ s) eqn:Hex; [|discriminate].
    apply matches_exactly_length in Hex.
    destruct (field 0 4 s) as [y|], (field 5 2 s) as [m|], (field 8 2 s) as [dd|];
      try discriminate.
    destruct (valid_date y m dd) eqn:Hv; [|discriminate].
    cbn [bind]. intros [= <-]. cbn [year month day hour minute].
    split; [exact Hv|]. split; [reflexivity|]. split; [reflexivity|].
    split; [exact Hex | discriminate].
  - destruct (matches pat_br_date s) eqn:Hbr; [|discriminate].
    unfold strptime_dmy.
    destruct (matches_exactly _ s) eqn:Hex; [|discriminate].
    apply matches_exactly_length in Hex.
    destruct (field 0 2 s) as [dd|], (field 3 2 s) as [m|], (field 6 2 s) as [yy|] eqn:Hyy;
      try discriminate.
    apply two_digits_le in Hyy.
    match goal with |- context [valid_date ?y m dd] => destruct (valid_date y m dd) eqn:Hv end;
      [|discriminate].
    cbn [bind]. intros [= <-]. cbn [year month day hour minute].
    split; [exact Hv|]. split; [reflexivity|]. split; [reflexivity|].
    split; [exact Hex|]. intros _.
    destruct (yy <=? 68) eqn:Hle; [apply Nat.leb_le in Hle | apply Nat.leb_gt in Hle]; lia.
Qed.

(** ** The frame returned by [read_data] *)

Lemma filter_eqb_once (c : string) (l : list string) :
  count c l = 1 -> filter (String.eqb c) l = [c].
Proof.
  induction l as [|x l IH]; cbn; [discriminate|].
  destruct (String.eqb c x) eqn:Hcx.
  - apply String.eqb_eq in Hcx. subst x. intros H. f_equal.
    assert (H0 : count c l = 0) by lia. clear -H0.
    induction l as [|y l IH]; cbn in *; [reflexivity|].
    destruct (String.eqb c y); [discriminate | now apply IH].
  - exact IH.
Qed.

Lemma flat_map_single (g : string -> list string) (l : list string) :
  (forall c, In c l -> g c = [c]) -> flat_map g l = l.
Proof.
  induction l as [|x l IH]; cbn; [reflexivity|]. intros H.
  rewrite (H x (or_introl eq_refl)), IH; [reflexivity|].
  intros c Hc. apply H. now right.
Qed.

Lemma kept_columns_count (l : list string) (c : string) :
  In c cols_to_keep ->
  count c (flat_map (fun n => filter (String.eqb n) l)
                    (filter (fun col => mem col l) cols_to_keep))
  = count c l.
Proof.
  intros Hc. rewrite count_select, count_filter_mem, (cols_to_keep_once _ Hc), mem_count.
  clear Hc. destruct (count c l); cbn [negb Nat.eqb]; lia.
Qed.

Lemma time_columns_kept : In "data" cols_to_keep /\ In "hora" cols_to_keep.
Proof. split; vm_compute; tauto. Qed.

Lemma numeric_cols_not_date (c : string) :
  In c numeric_cols -> mem c ["data"; "hora"] = false.
Proof.
  intros H. cbv [numeric_cols] in H.
  repeat (destruct H as [<- | H]; [reflexivity|]). contradiction.
Qed.

Lemma numeric_cols_NoDup : NoDup numeric_cols.
Proof.
  unfold numeric_cols.
  repeat (constructor; [cbn; intros H; repeat (destruct H as [H|H]; [discriminate H|]);
                        exact H|]).
  constructor.
Qed.

Lemma keys_drop (ks : list string) (r : row) :
  map fst (filter (fun kv : string * value => negb (mem (fst kv) ks)) r)
  = filter (fun c => negb (mem c ks)) (map fst r).
Proof.
  induction r as [|[k v] r IH]; cbn; [reflexivity|].
  destruct (mem k ks); cbn; now rewrite IH.
Qed.

Lemma keys_set_cell (k : string) (v : value) (r : row) :
  map fst (set_cell k v r)
  = if mem k (map fst r) then map fst r else (map fst r ++ [k])%list.
Proof.
  unfold set_cell. destruct (mem k (map fst r)).
  - rewrite map_map. apply map_ext. intros [k' v']. cbn. now destruct (String.eqb k' k).
  - now rewrite map_app.
Qed.

Section FrameReturned.

Context {RT : Runtime}.

Lemma coerce_numeric_counts (cols : list string) : forall d d',
  coerce_numeric cols d = Ok d' ->
  forall c, In c cols -> count c (columns d) <= 1.
Proof.
  induction cols as [|col cols IH]; intros d d' Hd c Hc; [contradiction|].
  cbn [coerce_numeric] in Hd.
  destruct (mem col (columns d)) eqn:Hm.
  - destruct (1 <? count col (columns d)) eqn:Hdup; [discriminate|].
    apply Nat.ltb_ge in Hdup. destruct Hc as [<- | Hc]; [exact Hdup|].
    apply (IH _ _ Hd c Hc).
  - destruct Hc as [<- | Hc]; [|apply (IH _ _ Hd c Hc)].
    rewrite mem_count in Hm. destruct (count col (columns d)); [lia | discriminate].
Qed.

Lemma coerce_numeric_repeated (cols : list string) : forall d c,
  In c cols -> 1 < count c (columns d) -> coerce_numeric cols d = Raise AttributeError.
Proof.
  induction cols as [|col cols IH]; intros d c Hc Hdup; [contradiction|].
  cbn [coerce_numeric].
  destruct (1 <? count col (columns d)) eqn:Hcol.
  - assert (Hm : mem col (columns d) = true).
    { rewrite mem_count. apply Nat.ltb_lt in Hcol.
      destruct (count col (columns d)); [lia | reflexivity]. }
    now rewrite Hm.
  - assert (Hc' : In c cols).
    { destruct Hc as [<- | Hc]; [|exact Hc]. apply Nat.ltb_ge in Hcol. lia. }
    destruct (mem col (columns d)); [|now apply (IH d c)].
    now apply (IH (map_column col numeric_cell d) c).
Qed.

Lemma numeric_frame_counts (f : station_file) (d : DataFrame) (c : string) :
  numeric_frame f = Ok d -> In c numeric_cols -> count c (columns d) <= 1.
Proof.
  unfold numeric_frame. destruct (table f) as [t|e]; [|discriminate]. unfold bind.
  destruct (read_csv t) as [d0|e]; [|discriminate].
  intros Hd Hc. pose proof (coerce_numeric_inv _ _ _ Hd) as [Hcols _].
  rewrite Hcols. eapply coerce_numeric_counts; eassumption.
Qed.

Lemma drop_empty_rows_well_formed (d : DataFrame) :
  well_formed d -> well_formed (drop_empty_rows d).
Proof.
  intros H. unfold drop_empty_rows.
  destruct (negb (df_empty d) && _); [|exact H].
  unfold well_formed in *. cbn [rows columns].
  generalize (not_all_null (present_numeric d)). intros p.
  rewrite Forall_forall in *. intros r Hr. apply filter_In in Hr. now apply H.
Qed.

Lemma fix_data_hora_columns (d out : DataFrame) :
  fix_data_hora d = Ok out ->
  count "data" (columns d) = 1 /\ count "hora" (columns d) = 1
  /\ columns out
     = filter (fun c => negb (mem c ["data"; "hora"]))
              (if mem "data_hora" (columns d) then columns d
               else (columns d ++ ["data_hora"])%list)
  /\ (well_formed d -> well_formed out).
Proof.
  unfold fix_data_hora, column.
  destruct (count "data" (columns d)) as [|[|n]]; try discriminate.
  destruct (count "hora" (columns d)) as [|[|m]]; try discriminate.
  cbn [bind].
  destruct (to_datetime_series _) as [ts|e]; [|discriminate].
  cbn [bind]. intros [= <-]. split; [reflexivity|]. split; [reflexivity|].
  split; [reflexivity|].
  unfold well_formed, drop_columns, assign. cbn [rows columns]. intros Hwf.
  apply Forall_forall. intros r Hr.
  apply in_map_iff in Hr. destruct Hr as (r1 & <- & Hr1).
  apply in_map_iff in Hr1. destruct Hr1 as ([r0 v] & <- & Hr0).
  apply in_combine_l in Hr0. rewrite Forall_forall in Hwf.
  cbn [fst snd]. now rewrite keys_drop, keys_set_cell, (Hwf r0 Hr0).
Qed.

Lemma read_data_frame (f : station_file) (t : csv_table) (out : DataFrame) :
  table f = Ok t ->
  read_data f = Ok out ->
  rows out <> [] ->
  columns out = (present_columns t ++ ["data_hora"])%list
  /\ NoDup (columns out)
  /\ well_formed out.
Proof.
  intros Ht Hout Hrows.
  destruct (read_data_numeric_frame f out Hout) as [d Hd].
  rewrite read_data_stages, Hd in Hout. cbn [bind] in Hout.
  destruct (df_empty (drop_empty_rows d)); [injection Hout as <-; now contradiction Hrows|].
  apply fix_data_hora_columns in Hout.
  rewrite drop_empty_rows_columns in Hout.
  destruct Hout as (Hdata & Hhora & Hcols & Hwf).
  pose proof (numeric_frame_columns f t d Ht Hd) as Hd_cols.
  assert (Hcount : forall c, In c cols_to_keep -> count c (labels t) <= 1).
  { intros c Hc. rewrite <- (numeric_frame_count f t d c Ht Hd Hc).
    unfold cols_to_keep in Hc. apply in_app_or in Hc.
    destruct Hc as [Hc | [<- | [<- | []]]]; [|lia | lia].
    now apply (numeric_frame_counts f d c). }
  assert (Hkept : columns d = (present_columns t ++ ["data"; "hora"])%list).
  { rewrite Hd_cols, flat_map_single.
    - unfold cols_to_keep, present_columns. rewrite filter_app. f_equal.
      cbn [filter]. rewrite !mem_count.
      rewrite <- (numeric_frame_count f t d "data" Ht Hd (proj1 time_columns_kept)), Hdata.
      rewrite <- (numeric_frame_count f t d "hora" Ht Hd (proj2 time_columns_kept)), Hhora.
      reflexivity.
    - intros c Hc. apply filter_In in Hc. destruct Hc as [Hc Hm].
      apply filter_eqb_once. specialize (Hcount c Hc). rewrite mem_count in Hm.
      destruct (count c (labels t)) as [|[|n]]; [discriminate | reflexivity | lia]. }
  assert (Hpres : forall c, In c (present_columns t) -> In c numeric_cols).
  { intros c Hc. unfold present_columns in Hc. apply filter_In in Hc. exact (proj1 Hc). }
  assert (Hnew : mem "data_hora" (columns d) = false).
  { destruct (mem "data_hora" (columns d)) eqn:Hm; [|reflexivity].
    apply mem_In in Hm. rewrite Hkept in Hm. apply in_app_or in Hm.
    destruct Hm as [Hm | [Hm | [Hm | []]]]; try discriminate.
    apply Hpres, numeric_cols_not_time in Hm. discriminate. }
  rewrite Hnew, Hkept in Hcols.
  assert (Hfinal : columns out = (present_columns t ++ ["data_hora"])%list).
  { rewrite Hcols, <- app_assoc, filter_app. f_equal.
    apply forallb_filter_id. apply forallb_forall. intros c Hc.
    rewrite (numeric_cols_not_date c (Hpres c Hc)). reflexivity. }
  split; [exact Hfinal|]. split.
  - rewrite Hfinal. apply NoDup_app.
    + apply NoDup_filter, numeric_cols_NoDup.
    + repeat constructor. intros [].
    + intros c Hc [<- | []]. apply Hpres, numeric_cols_not_time in Hc. discriminate.
  - apply Hwf, drop_empty_rows_well_formed. now apply (numeric_frame_well_formed f).
Qed.

(** What a file gives when it gives rows: a frame whose columns are the
    numeric fields that the file has, in the order of [numeric_cols] whatever
    their order in the file, followed by [data_hora]; no label twice, no date
    or hour column, and every row with exactly these labels. *)
Theorem read_data_schema (f : station_file) (t : csv_table) (out : DataFrame) :
  table f = Ok t ->
  read_data f = Ok out ->
  rows out <> [] ->
  columns out = (present_columns t ++ ["data_hora"])%list
  /\ NoDup (columns out)
  /\ well_formed out.
Proof. exact (read_data_frame f t out). Qed.

(** Two of the first nineteen labels renamed to the same numeric field make
    [read_data] raise [AttributeError], with or without data lines. *)
Theorem read_data_repeated_label (f : station_file) (t : csv_table) (c : string) :
  table f = Ok t ->
  19 <= List.length (header t) ->
  In c numeric_cols ->
  1 < count c (labels t) ->
  read_data f = Raise AttributeError.
Proof.
  intros Ht Hlen Hc Hdup.
  assert (Hnum : numeric_frame f = Raise AttributeError).
  { unfold numeric_frame. rewrite Ht. unfold bind, read_csv.
    destruct (List.length (header t) <? 19) eqn:Hl; [apply Nat.ltb_lt in Hl; lia|].
    apply (coerce_numeric_repeated _ _ c Hc).
    cbn [select rename columns]. fold (labels t).
    now rewrite (kept_columns_count _ c (numeric_cols_kept c Hc)). }
  rewrite read_data_stages, Hnum. reflexivity.
Qed.

(** A file none of whose rows passes the filter gives the empty frame, not an
    error, whatever its date and hour columns.  With a row that passes, a
    file without a date column, or without an hour column, makes [read_data]
    raise [KeyError]. *)
Theorem read_data_date_columns (f : station_file) (t : csv_table) (d : DataFrame) :
  table f = Ok t ->
  numeric_frame f = Ok d ->
  let kept := kept_rows (present_columns t) (rows d) in
  (kept = [] -> read_data f = Ok empty_frame)
  /\ (kept <> [] -> columns d <> [] ->
      count "data" (labels t) = 0 \/ (count "data" (labels t) = 1 /\ count "hora" (labels t) = 0) ->
      read_data f = Raise KeyError).
Proof.
  intros Ht Hd kept. subst kept.
  rewrite <- (numeric_frame_present f t d Ht Hd).
  rewrite read_data_stages, Hd. cbn [bind]. split.
  - intros Hnil.
    assert (He : df_empty (drop_empty_rows d) = true).
    { destruct (df_empty d) eqn:He'; [now rewrite drop_empty_rows_of_empty|].
      unfold df_empty. rewrite kept_rows_drop_empty_rows, Hnil by assumption.
      now destruct (columns (drop_empty_rows d)). }
    now rewrite He.
  - intros Hkept Hcols Hlabels.
    assert (He' : df_empty d = false).
    { apply df_empty_false. split; [exact Hcols|]. intros Hnil. apply Hkept.
      rewrite Hnil. unfold kept_rows. now destruct (present_numeric d). }
    assert (He : df_empty (drop_empty_rows d) = false).
    { apply df_empty_false. rewrite drop_empty_rows_columns. split; [exact Hcols|].
      now rewrite kept_rows_drop_empty_rows. }
    rewrite He. unfold fix_data_hora, column. rewrite drop_empty_rows_columns.
    rewrite (numeric_frame_count f t d "data" Ht Hd (proj1 time_columns_kept)).
    rewrite (numeric_frame_count f t d "hora" Ht Hd (proj2 time_columns_kept)).
    destruct Hlabels as [-> | [-> ->]]; reflexivity.
Qed.

End FrameReturned.

(** ** The data built by [read_zipfile] *)

(** [d.assign] of several constant columns, on one row. *)
Lemma combine_repeat_map {A B C : Type} (g : A -> B -> C) (v : B) (l : list A) :
  map (fun rv : A * B => g (fst rv) (snd rv)) (combine l (repeat v (List.length l)))
  = map (fun a => g a v) l.
Proof. induction l as [|a l IH]; cbn; [reflexivity | now rewrite IH]. Qed.

Lemma assign_constant_rows (k : string) (v : value) (d : DataFrame) :
  rows (assign k (repeat v (List.length (rows d))) d) = map (set_cell k v) (rows d).
Proof.
  unfold assign. cbn [rows].
  exact (combine_repeat_map (fun r x => set_cell k x r) v (rows d)).
Qed.

Lemma assign_columns (k : string) (vs : list value) (d : DataFrame) (c : string) :
  In c (columns (assign k vs d)) <-> In c (columns d) \/ c = k.
Proof.
  unfold assign. cbn [columns]. destruct (mem k (columns d)) eqn:Hm.
  - apply mem_In in Hm. split; [auto | intros [H | ->]; assumption].
  - rewrite in_app_iff. cbn. intuition.
Qed.

Lemma reindex_keys (cols : list string) (r : row) : map fst (reindex cols r) = cols.
Proof. unfold reindex. rewrite map_map. cbn. apply map_id. Qed.

Lemma get_reindex (cols : list string) (r : row) (c : string) :
  get c (reindex cols r) = if mem c cols then get c r else NA.
Proof.
  unfold reindex, mem. induction cols as [|x cols IH]; cbn; [reflexivity|].
  destruct (String.eqb c x) eqn:Hcx; cbn; [|exact IH].
  apply String.eqb_eq in Hcx. now subst.
Qed.

Lemma concat_columns (data d : DataFrame) (c : string) :
  In c (columns (concat data d)) <-> In c (columns data) \/ In c (columns d).
Proof.
  unfold concat. cbn [columns]. rewrite in_app_iff, filter_In. split.
  - intros [H | [H _]]; auto.
  - intros [H | H]; [now left|].
    destruct (mem c (columns data)) eqn:Hm; [left; now apply mem_In | right; now split].
Qed.

Lemma concat_rows_length (data d : DataFrame) :
  List.length (rows (concat data d)) = List.length (rows data) + List.length (rows d).
Proof. unfold concat. cbn [rows]. now rewrite length_map, length_app. Qed.

Lemma get_app_l (c : string) (r x : row) :
  mem c (map fst r) = true -> get c (r ++ x)%list = get c r.
Proof.
  unfold mem. induction r as [|[k v] r IH]; cbn; [discriminate|].
  destruct (String.eqb c k); [reflexivity | exact IH].
Qed.

Lemma get_app_r (c : string) (r x : row) :
  mem c (map fst r) = false -> get c (r ++ x)%list = get c x.
Proof.
  unfold mem. induction r as [|[k v] r IH]; cbn; [reflexivity|].
  destruct (String.eqb c k); [discriminate | exact IH].
Qed.

Lemma not_mem (c : string) (l : list string) : ~ In c l -> mem c l = false.
Proof.
  intros H. destruct (mem c l) eqn:Hm; [|reflexivity]. apply mem_In in Hm. contradiction.
Qed.

(** A frame that is reindexed twice. *)
Lemma reindex_reindex (cols cols' : list string) (x : row) :
  incl (map fst x) cols -> reindex cols' (reindex cols x) = reindex cols' x.
Proof.
  intros Hi. unfold reindex at 1 3. apply map_ext. intros c. f_equal.
  rewrite get_reindex. destruct (mem c cols) eqn:Hm; [reflexivity|].
  symmetry. apply get_absent. apply not_mem. intros Hx. apply Hi in Hx.
  apply mem_In in Hx. congruence.
Qed.

Lemma reindex_id (r : row) : NoDup (map fst r) -> reindex (map fst r) r = r.
Proof.
  induction r as [|[k v] r IH]; intros Hnd; [reflexivity|].
  inversion Hnd as [|? ? Hk Hnd']; subst.
  unfold reindex. cbn [map fst get]. rewrite String.eqb_refl. f_equal.
  transitivity (reindex (map fst r) r); [|now apply IH].
  unfold reindex. apply map_ext_in. intros c Hc. f_equal.
  destruct (String.eqb c k) eqn:E; [|reflexivity].
  apply String.eqb_eq in E. subst c. contradiction.
Qed.

(** Constant columns under new labels go after the cells of the row, and
    after the columns of the frame. *)
Lemma fold_set_cell_app (items : list (string * value)) : forall r,
  NoDup (map fst items) ->
  (forall k, In k (map fst items) -> ~ In k (map fst r)) ->
  fold_left (fun r (kv : string * value) => set_cell (fst kv) (snd kv) r) items r
  = (r ++ items)%list.
Proof.
  induction items as [|[k v] items IH]; intros r Hnd Hdis; cbn [fold_left fst snd].
  - now rewrite app_nil_r.
  - inversion Hnd as [|? ? Hk Hnd']; subst.
    assert (Hset : set_cell k v r = (r ++ [(k, v)])%list).
    { unfold set_cell. rewrite not_mem; [reflexivity|]. apply Hdis. now left. }
    rewrite Hset, IH; [now rewrite <- app_assoc | exact Hnd' |].
    intros k' Hk' Hin. rewrite map_app in Hin. apply in_app_or in Hin.
    destruct Hin as [Hin | [Heq | []]].
    + apply (Hdis k'); [now right | exact Hin].
    + cbn in Heq. subst k'. contradiction.
Qed.

Lemma fold_assign_columns (items : list (string * value)) : forall d,
  NoDup (map fst items) ->
  (forall k, In k (map fst items) -> ~ In k (columns d)) ->
  columns (fold_left (fun d (kv : string * value) =>
                        assign (fst kv) (repeat (snd kv) (List.length (rows d))) d)
                     items d)
  = (columns d ++ map fst items)%list.
Proof.
  induction items as [|[k v] items IH]; intros d Hnd Hdis; cbn [fold_left fst snd map].
  - now rewrite app_nil_r.
  - inversion Hnd as [|? ? Hk Hnd']; subst.
    assert (Hcol : columns (assign k (repeat v (List.length (rows d))) d)
                   = (columns d ++ [k])%list).
    { unfold assign. cbn [columns]. rewrite not_mem; [reflexivity|]. apply Hdis. now left. }
    rewrite IH, Hcol; [now rewrite <- app_assoc | exact Hnd' |].
    intros k' Hk' Hin. rewrite Hcol in Hin. apply in_app_or in Hin.
    destruct Hin as [Hin | [Heq | []]].
    + apply (Hdis k'); [now right | exact Hin].
    + subst k'. contradiction.
Qed.

Lemma meta_keys (m : metadata) :
  map fst (meta_items m)
  = ["regiao"; "uf"; "estacao"; "codigo_wmo"; "latitude"; "longitude"; "altitude";
     "data_fundacao"].
Proof. reflexivity. Qed.

Lemma meta_keys_NoDup (m : metadata) : NoDup (map fst (meta_items m)).
Proof.
  rewrite meta_keys.
  repeat (constructor; [cbn; intros H; repeat (destruct H as [H|H]; [discriminate H|]);
                        exact H|]).
  constructor.
Qed.

Lemma get_meta_items (m : metadata) (k : string) (v : value) :
  In (k, v) (meta_items m) -> get k (meta_items m) = v.
Proof.
  unfold meta_items. intros H.
  repeat (destruct H as [H | H]; [injection H as <- <-; reflexivity|]).
  contradiction.
Qed.

Lemma meta_keys_not_kept (c : string) (m : metadata) :
  In c (numeric_cols ++ ["data_hora"])%list -> ~ In c (map fst (meta_items m)).
Proof.
  rewrite meta_keys. intros Hc Hk. apply mem_In in Hk.
  assert (Hall : forallb (fun c => negb (mem c ["regiao"; "uf"; "estacao"; "codigo_wmo";
                                               "latitude"; "longitude"; "altitude";
                                               "data_fundacao"]))
                         (numeric_cols ++ ["data_hora"])%list = true)
    by (vm_compute; reflexivity).
  rewrite forallb_forall in Hall. specialize (Hall c Hc). rewrite Hk in Hall. discriminate.
Qed.

Lemma concat_empty (x : DataFrame) :
  concat empty_frame x = mk_frame (columns x) (map (reindex (columns x)) (rows x)).
Proof.
  unfold concat. cbn [columns rows empty_frame app].
  rewrite forallb_filter_id; [reflexivity|]. apply forallb_forall. reflexivity.
Qed.

Section DataBuilt.

Context {RT : Runtime}.

Lemma assign_items_rows (items : list (string * value)) : forall d,
  rows (fold_left (fun d (kv : string * value) =>
                     assign (fst kv) (repeat (snd kv) (List.length (rows d))) d) items d)
  = map (fun r => fold_left (fun r (kv : string * value) => set_cell (fst kv) (snd kv) r)
                            items r)
        (rows d).
Proof.
  induction items as [|[k v] items IH]; intros d; cbn [fold_left fst snd].
  - symmetry. apply map_id.
  - rewrite IH, assign_constant_rows, map_map. reflexivity.
Qed.

Lemma assign_items_columns (items : list (string * value)) : forall d c,
  In c (columns (fold_left (fun d (kv : string * value) =>
                              assign (fst kv) (repeat (snd kv) (List.length (rows d))) d)
                           items d))
  <-> In c (columns d) \/ In c (map fst items).
Proof.
  induction items as [|[k v] items IH]; intros d c; cbn [fold_left fst snd map].
  - cbn. tauto.
  - rewrite IH, assign_columns. cbn. intuition.
Qed.

Lemma assign_meta_rows (m : metadata) (d : DataFrame) :
  rows (assign_meta m d) = map (with_meta m) (rows d).
Proof. apply assign_items_rows. Qed.

Lemma with_meta_regiao (m : metadata) (r : row) :
  get "regiao" (with_meta m r) = VStr (regiao m).
Proof.
  unfold with_meta, meta_items. cbn [fold_left fst snd].
  rewrite !get_set_cell by reflexivity. apply get_set_cell_same.
Qed.

(** The frame of a file is the empty frame, or it has rows, no label twice
    and, in every row, the labels of the frame. *)
Lemma read_data_cases (f : station_file) (d : DataFrame) :
  read_data f = Ok d ->
  d = empty_frame
  \/ (rows d <> []
      /\ exists t, table f = Ok t
                   /\ columns d = (present_columns t ++ ["data_hora"])%list
                   /\ NoDup (columns d) /\ well_formed d).
Proof.
  intros Hd. destruct (read_data_numeric_frame f d Hd) as [d0 Hd0].
  destruct (read_data_inv f d0 d Hd0 Hd) as [[_ ->] | (_ & He & Hdec)]; [now left|].
  right. assert (Hrows : rows d <> []).
  { apply df_empty_false in He. destruct He as [_ Hr]. intros Hnil.
    rewrite Hnil in Hdec. inversion Hdec as [Hz|]. now apply Hr. }
  split; [exact Hrows|].
  unfold numeric_frame in Hd0. destruct (table f) as [t|e] eqn:Ht; [|discriminate].
  exists t. split; [reflexivity|]. now apply (read_data_frame f t d).
Qed.

Lemma read_data_meta_disjoint (f : station_file) (d : DataFrame) (m : metadata) (c : string) :
  read_data f = Ok d -> In c (columns d) -> ~ In c (map fst (meta_items m)).
Proof.
  intros Hd Hc. destruct (read_data_cases f d Hd) as [-> | (_ & t & _ & Hcols & _)].
  - contradiction.
  - apply meta_keys_not_kept. rewrite Hcols in Hc. apply in_app_or in Hc.
    apply in_or_app. destruct Hc as [Hc | Hc]; [left | now right].
    unfold present_columns in Hc. apply filter_In in Hc. exact (proj1 Hc).
Qed.

Lemma assign_meta_columns (f : station_file) (m : metadata) (d : DataFrame) :
  read_data f = Ok d ->
  columns (assign_meta m d) = (columns d ++ map fst (meta_items m))%list.
Proof.
  intros Hd. apply fold_assign_columns; [apply meta_keys_NoDup|].
  intros k Hk Hc. now apply (read_data_meta_disjoint f d m k Hd).
Qed.

Lemma assign_meta_rows_app (f : station_file) (m : metadata) (d : DataFrame) :
  read_data f = Ok d -> well_formed d ->
  rows (assign_meta m d) = map (fun r => (r ++ meta_items m)%list) (rows d).
Proof.
  intros Hd Hwf. rewrite assign_meta_rows. apply map_ext_in. intros r Hr.
  apply fold_set_cell_app; [apply meta_keys_NoDup|].
  intros k Hk Hc. unfold well_formed in Hwf. rewrite Forall_forall in Hwf.
  rewrite (Hwf r Hr) in Hc. now apply (read_data_meta_disjoint f d m k Hd).
Qed.

Lemma read_data_data_hora (f : station_file) (d : DataFrame) :
  read_data f = Ok d -> df_empty d = false -> In "data_hora" (columns d).
Proof.
  intros Hd He. destruct (read_data_cases f d Hd) as [-> | (_ & t & _ & -> & _)].
  - discriminate.
  - apply in_or_app. right. now left.
Qed.

(** What the entry adds to the data when it is the only one that gives
    rows: its rows, each followed by the items of its header. *)
Lemma single_entry_data (f : station_file) (m : metadata) (d : DataFrame) :
  read_data f = Ok d ->
  let data := if df_empty d then empty_frame else concat empty_frame (assign_meta m d) in
  rows data = map (fun r => (r ++ meta_items m)%list) (rows d)
  /\ (rows d <> [] -> columns data = (columns d ++ map fst (meta_items m))%list).
Proof.
  intros Hd data. subst data.
  destruct (read_data_cases f d Hd) as [-> | (Hrows & t & _ & Hcols & Hnd & Hwf)].
  - split; [reflexivity|]. intros H. now contradiction H.
  - assert (He : df_empty d = false).
    { apply df_empty_false. split; [|exact Hrows]. rewrite Hcols.
      now destruct (present_columns t). }
    rewrite He, concat_empty. cbn [rows columns].
    rewrite (assign_meta_columns f m d Hd), (assign_meta_rows_app f m d Hd Hwf).
    split; [|reflexivity].
    rewrite map_map. apply map_ext_in. intros r Hr.
    unfold well_formed in Hwf. rewrite Forall_forall in Hwf.
    assert (Hkeys : map fst (r ++ meta_items m)%list
                    = (columns d ++ map fst (meta_items m))%list)
      by now rewrite map_app, (Hwf r Hr).
    rewrite <- Hkeys. apply reindex_id. rewrite Hkeys.
    apply NoDup_app; [exact Hnd | apply meta_keys_NoDup |].
    intros c Hc. now apply (read_data_meta_disjoint f d m c Hd).
Qed.

Lemma built_from_columns (z : list zip_entry) (cols cols' : list string) (r : row) :
  incl cols cols' -> built_from z cols r -> built_from z cols' (reindex cols' r).
Proof.
  intros Hi (zf & m & d & r0 & Hin & Hel & Hm & Hd & Hr0 & Hkeys & Hincl & ->).
  exists zf, m, d, r0. repeat (split; [assumption|]). split.
  - intros c Hc. apply Hi, Hincl, Hc.
  - apply reindex_reindex. now rewrite map_app, Hkeys.
Qed.

Lemma built_from_row (z : list zip_entry) (cols : list string) (r : row) :
  built_from z cols r -> row_of_entry z r.
Proof.
  intros (zf & m & d & r0 & Hin & Hel & Hm & Hd & Hr0 & Hkeys & Hincl & ->).
  assert (Hfile : forall c, In c (columns d) ->
                    get c (reindex cols (r0 ++ meta_items m)%list) = get c r0).
  { intros c Hc. rewrite get_reindex.
    assert (Hcol : mem c cols = true) by (apply mem_In, Hincl, in_or_app; now left).
    rewrite Hcol. apply get_app_l. rewrite Hkeys. now apply mem_In. }
  assert (Hmeta : forall k v, In (k, v) (meta_items m) ->
                    get k (reindex cols (r0 ++ meta_items m)%list) = v).
  { intros k v Hkv.
    assert (Hk : In k (map fst (meta_items m))) by (apply in_map_iff; now exists (k, v)).
    rewrite get_reindex.
    assert (Hcol : mem k cols = true) by (apply mem_In, Hincl, in_or_app; now right).
    rewrite Hcol, get_app_r; [now apply get_meta_items|].
    apply not_mem. rewrite Hkeys. intros Hc.
    now apply (read_data_meta_disjoint (content zf) d m k Hd). }
  exists zf, m, d, r0. repeat (split; [assumption|]). split.
  - split; [exact Hr0|]. split; [exact Hfile|]. split; [exact Hmeta|].
    intros c Hc Hk. rewrite get_reindex. destruct (mem c cols); [|reflexivity].
    apply get_absent, not_mem. rewrite map_app, Hkeys. intros H.
    apply in_app_or in H. tauto.
  - apply Hmeta. now left.
Qed.

Lemma concat_invariant (z : list zip_entry) (data d : DataFrame) (zf : zip_entry)
      (m : metadata) :
  data_invariant z data ->
  In zf z -> eligible zf = true ->
  read_metadata_try (meta_lines (content zf)) = Ok m ->
  read_data (content zf) = Ok d -> df_empty d = false ->
  data_invariant z (concat data (assign_meta m d)).
Proof.
  intros (_ & Hbuilt & _) Hin Hel Hm Hd He.
  destruct (read_data_cases _ d Hd) as [-> | (_ & t & _ & _ & _ & Hwf)]; [discriminate|].
  pose proof (assign_meta_columns _ m d Hd) as Hcolsm.
  pose proof (assign_meta_rows_app _ m d Hd Hwf) as Hrowsm.
  assert (Hnew : incl (columns d ++ map fst (meta_items m))%list
                      (columns (concat data (assign_meta m d)))).
  { intros c Hc. apply concat_columns. right. now rewrite Hcolsm. }
  split; [|split].
  - intros _. split; apply Hnew, in_or_app.
    + right. rewrite meta_keys. now left.
    + left. now apply (read_data_data_hora (content zf)).
  - assert (Hold : incl (columns data) (columns (concat data (assign_meta m d)))).
    { intros c Hc. apply concat_columns. now left. }
    revert Hnew Hold. unfold concat. cbn [rows columns].
    set (cols := (columns data ++ _)%list). intros Hnew Hold.
    apply Forall_forall. intros r Hr.
    apply in_map_iff in Hr. destruct Hr as (r1 & <- & Hr1).
    apply in_app_or in Hr1. destruct Hr1 as [Hr1 | Hr1].
    + rewrite Forall_forall in Hbuilt. apply (built_from_columns z (columns data)); auto.
    + rewrite Hrowsm in Hr1. apply in_map_iff in Hr1. destruct Hr1 as (r0 & <- & Hr0).
      exists zf, m, d, r0. repeat (split; [assumption|]).
      unfold well_formed in Hwf. rewrite Forall_forall in Hwf.
      split; [now apply Hwf|]. split; [exact Hnew | reflexivity].
  - unfold well_formed, concat. cbn [rows columns]. apply Forall_forall. intros r Hr.
    apply in_map_iff in Hr. destruct Hr as (r0 & <- & _). apply reindex_keys.
Qed.

Lemma process_entry_invariant (z : list zip_entry) (st : ingest_state) (zf : zip_entry) :
  In zf z -> eligible zf = true ->
  data_invariant z (fst st) -> data_invariant z (fst (process_entry st zf)).
Proof.
  destruct st as [data log]. cbn [fst]. intros Hin Hel Hinv.
  unfold process_entry, read_metadata.
  destruct (read_metadata_try (meta_lines (content zf))) as [m|e] eqn:Hm; [|exact Hinv].
  destruct (read_data (content zf)) as [d|e] eqn:Hd; [|exact Hinv].
  destruct (df_empty d) eqn:He; cbn [negb fst]; [exact Hinv|].
  now apply (concat_invariant z data d zf m).
Qed.

Lemma ingest_invariant (z files : list zip_entry) : forall st,
  (forall zf, In zf files -> In zf z /\ eligible zf = true) ->
  data_invariant z (fst st) -> data_invariant z (fst (ingest files st)).
Proof.
  unfold ingest. induction files as [|zf files IH]; intros st Hsub Hinv; cbn [fold_left].
  - exact Hinv.
  - apply IH; [intros zf' Hzf'; apply Hsub; now right|].
    destruct (Hsub zf (or_introl eq_refl)) as [Hin Hel].
    now apply process_entry_invariant.
Qed.

Lemma empty_frame_invariant (z : list zip_entry) : data_invariant z empty_frame.
Proof.
  split; [|split].
  - intros H. now contradiction H.
  - constructor.
  - constructor.
Qed.

Lemma read_zipfile_invariant (z : list zip_entry) : data_invariant z (fst (read_zipfile z)).
Proof.
  rewrite read_zipfile_ingest.
  apply (ingest_invariant z _ (empty_frame, [])); [|apply empty_frame_invariant].
  intros zf Hzf. apply filter_In in Hzf. exact Hzf.
Qed.

(** Every row of the data comes from an eligible entry of the bundle whose
    header and body were read, and carries the region of the header of that
    entry: it has the values of a row of the file in the columns of the file,
    the eight items of the header under their names, and NaN in the columns
    that only other files have.  As soon as the data has a row it has the
    columns [regiao] and [data_hora]; its rows all have the labels of the
    frame. *)
Theorem read_zipfile_data (z : list zip_entry) :
  let df_ano := fst (read_zipfile z) in
  (rows df_ano <> [] -> In "regiao" (columns df_ano) /\ In "data_hora" (columns df_ano))
  /\ Forall (row_of_entry z) (rows df_ano)
  /\ well_formed df_ano.
Proof.
  cbn zeta. destruct (read_zipfile_invariant z) as (Hcols & Hbuilt & Hwf).
  split; [exact Hcols|]. split; [|exact Hwf].
  eapply Forall_impl; [|exact Hbuilt]. intros r. apply built_from_row.
Qed.

Lemma process_entry_counts (data : DataFrame) (log : list log_msg) (zf : zip_entry) :
  List.length (rows (fst (process_entry (data, log) zf)))
  = List.length (rows data) + entry_rows zf
  /\ List.length (snd (process_entry (data, log) zf)) = List.length log + entry_errors zf.
Proof.
  unfold process_entry, read_metadata, entry_rows, entry_errors.
  destruct (read_metadata_try (meta_lines (content zf))) as [m|e].
  - rewrite app_nil_r. destruct (read_data (content zf)) as [d|e'].
    + destruct (df_empty d); cbn [negb fst snd].
      * split; lia.
      * rewrite concat_rows_length, assign_meta_rows, length_map. split; lia.
    + cbn [fst snd]. rewrite length_app. cbn. split; lia.
  - cbn [fst snd]. rewrite length_app. cbn. split; lia.
Qed.

Lemma ingest_counts (files : list zip_entry) : forall data log,
  List.length (rows (fst (ingest files (data, log))))
  = List.length (rows data) + list_sum (map entry_rows files)
  /\ List.length (snd (ingest files (data, log)))
     = List.length log + list_sum (map entry_errors files).
Proof.
  unfold ingest. induction files as [|zf files IH]; intros data log;
    cbn [fold_left map list_sum fold_right fst snd].
  - split; lia.
  - destruct (process_entry_counts data log zf) as [H1 H2].
    destruct (process_entry (data, log) zf) as [data' log']. cbn [fst snd] in H1, H2.
    destruct (IH data' log') as [H3 H4]. rewrite H3, H4, H1, H2.
    unfold list_sum. split; lia.
Qed.

Lemma read_zipfile_counts (z : list zip_entry) :
  List.length (rows (fst (read_zipfile z))) = list_sum (map entry_rows (filter eligible z))
  /\ List.length (snd (read_zipfile z)) = list_sum (map entry_errors (filter eligible z)).
Proof.
  rewrite read_zipfile_ingest.
  destruct (ingest_counts (filter eligible z) empty_frame []) as [H1 H2].
  split; [exact H1 | exact H2].
Qed.

(** No row is lost or repeated when the files are put together: the data has
    as many rows as the eligible entries give, one after the other; entries
    that are not eligible, that fail or that give no row count for nothing. *)
Theorem read_zipfile_row_count (z : list zip_entry) :
  List.length (rows (fst (read_zipfile z)))
  = list_sum (map entry_rows (filter eligible z)).
Proof. apply read_zipfile_counts. Qed.

(** The standard error stream has one line for each eligible entry whose
    header or body raises, and no other line: never more lines than eligible
    entries. *)
Theorem read_zipfile_error_count (z : list zip_entry) :
  List.length (snd (read_zipfile z)) = list_sum (map entry_errors (filter eligible z))
  /\ List.length (snd (read_zipfile z)) <= List.length (filter eligible z).
Proof.
  destruct (read_zipfile_counts z) as [_ ->]. split; [reflexivity|].
  induction (filter eligible z) as [|zf files IH].
  - cbn. lia.
  - assert (entry_errors zf <= 1).
    { unfold entry_errors. destruct (read_metadata_try _); [|lia].
      destruct (read_data _); lia. }
    change (entry_errors zf + list_sum (map entry_errors files) <= S (List.length files)).
    lia.
Qed.

(** Once the archive is read the run ends in one of three ways.  It stops
    with status 1 when no entry gave a row, and only then.  When an entry
    gave a row the grouping columns are there: the means are reported if some
    file has a column for the air temperature and some file has one for the
    relative humidity, and otherwise the [KeyError] of the missing column
    escapes.  No other exception can escape. *)
Theorem analyse_outcome (z : list zip_entry) :
  match analyse (Ok z) with
  | Exit code => code = 1 /\ list_sum (map entry_rows (filter eligible z)) = 0
  | Report lines =>
      media_regional_mensal (fst (read_zipfile z)) = Ok lines
      /\ list_sum (map entry_rows (filter eligible z)) <> 0
      /\ In "temperatura_ar" (columns (fst (read_zipfile z)))
      /\ In "umidade_relativa" (columns (fst (read_zipfile z)))
  | Uncaught e =>
      e = KeyError
      /\ list_sum (map entry_rows (filter eligible z)) <> 0
      /\ (~ In "temperatura_ar" (columns (fst (read_zipfile z)))
          \/ ~ In "umidade_relativa" (columns (fst (read_zipfile z))))
  end.
Proof.
  unfold analyse.
  pose proof (read_zipfile_invariant z) as (Hcols & _ & _).
  destruct (read_zipfile_counts z) as [Hcount _]. rewrite <- Hcount.
  revert Hcols. generalize (fst (read_zipfile z)). intros df Hcols.
  destruct (df_empty df) eqn:He.
  - split; [reflexivity|]. unfold df_empty in He.
    destruct (rows df) as [|r l]; [reflexivity|].
    destruct (columns df); [|discriminate].
    destruct Hcols as [[] _]. discriminate.
  - apply df_empty_false in He. destruct He as [_ Hrows].
    destruct (Hcols Hrows) as [Hreg Hdh].
    assert (Hsum : List.length (rows df) <> 0) by (destruct (rows df); [congruence | discriminate]).
    unfold media_regional_mensal. cbn [forallb].
    apply mem_In in Hreg, Hdh. rewrite Hreg, Hdh. cbn [andb].
    destruct (mem "temperatura_ar" (columns df)) eqn:Ht; cbn [andb].
    + destruct (mem "umidade_relativa" (columns df)) eqn:Hu; cbn [andb].
      * apply mem_In in Ht, Hu. repeat split; assumption.
      * split; [reflexivity|]. split; [exact Hsum|].
        right. intros H. apply mem_In in H. congruence.
    + split; [reflexivity|]. split; [exact Hsum|].
      left. intros H. apply mem_In in H. congruence.
Qed.

(** C3: an exception raised while an entry is processed, in its header or
    in its body, is caught: the entry prints one line, leaves the data as it
    was, and the entries after it are processed as if it were not in the
    bundle.  With a well-formed file and a file whose header is cut short,
    in either order, exactly one failure is printed and the data is that of
    the well-formed file alone: its rows are the rows of that file, in
    order, each followed by the eight items of its header, and its columns
    are those of the file followed by the names of the items. *)
Theorem read_zipfile_partial_failure :
  (forall zf msg data log,
      entry_failure zf msg ->
      process_entry (data, log) zf = (data, (log ++ [msg])%list))
  /\ (forall z1 zf z2 msg,
         eligible zf = true ->
         entry_failure zf msg ->
         exists log1 log2,
           read_zipfile (z1 ++ zf :: z2)
           = (fst (read_zipfile (z1 ++ z2)), (log1 ++ msg :: log2)%list)
           /\ snd (read_zipfile (z1 ++ z2)) = (log1 ++ log2)%list)
  /\ (forall good bad m d,
         eligible good = true -> eligible bad = true ->
         read_metadata_try (meta_lines (content good)) = Ok m ->
         read_data (content good) = Ok d ->
         List.length (meta_lines (content bad)) < 8 ->
         exists e,
           read_zipfile [good; bad] = (fst (read_zipfile [good]), [ErroMetadados e])
           /\ read_zipfile [bad; good] = (fst (read_zipfile [good]), [ErroMetadados e])
           /\ read_zipfile [good]
              = (if df_empty d then empty_frame else concat empty_frame (assign_meta m d),
                 [])
           /\ rows (fst (read_zipfile [good; bad]))
              = map (fun r => (r ++ meta_items m)%list) (rows d)
           /\ rows (fst (read_zipfile [bad; good]))
              = map (fun r => (r ++ meta_items m)%list) (rows d)
           /\ (rows d <> [] ->
               columns (fst (read_zipfile [good; bad]))
               = (columns d ++ map fst (meta_items m))%list
               /\ columns (fst (read_zipfile [bad; good]))
                  = (columns d ++ map fst (meta_items m))%list)).
Proof.
  split; [|split].
  - intros zf msg data log H. now apply process_entry_failure.
  - intros z1 zf z2 msg Hel Hfail.
    rewrite !read_zipfile_ingest, !filter_app. cbn [filter]. rewrite Hel.
    rewrite !ingest_app. unfold ingest at 1. cbn [fold_left].
    destruct (ingest (filter eligible z1) (empty_frame, [])) as [data1 log1].
    rewrite (process_entry_failure _ _ _ _ Hfail).
    exists log1, (snd (ingest (filter eligible z2) (data1, []))).
    fold (ingest (filter eligible z2) (data1, (log1 ++ [msg])%list)).
    rewrite (ingest_log _ data1 (log1 ++ [msg])%list), (ingest_log _ data1 log1).
    cbn [fst snd]. now rewrite <- app_assoc.
  - intros good bad m d Hg Hb Hm Hd Hshort.
    destruct (short_header_raises _ Hshort) as [e He].
    exists e.
    assert (Hbad : forall data log,
               process_entry (data, log) bad = (data, (log ++ [ErroMetadados e])%list)).
    { intros. apply process_entry_failure. now constructor. }
    assert (Hgood : forall data log,
               process_entry (data, log) good
               = (fst (process_entry (data, []) good), log)).
    { intros data log. unfold process_entry, read_metadata. rewrite Hm, Hd.
      rewrite app_nil_r. now destruct (negb (df_empty d)). }
    assert (Hone : read_zipfile [good]
                   = (if df_empty d then empty_frame
                      else concat empty_frame (assign_meta m d), [])).
    { rewrite read_zipfile_ingest. cbn [filter]. rewrite Hg.
      unfold ingest. cbn [fold_left].
      unfold process_entry, read_metadata. rewrite Hm, Hd.
      now destruct (df_empty d). }
    assert (H1 : read_zipfile [good; bad] = (fst (read_zipfile [good]), [ErroMetadados e])).
    { rewrite !read_zipfile_ingest. cbn [filter]. rewrite Hg, Hb.
      unfold ingest. cbn [fold_left].
      rewrite (Hgood empty_frame []), Hbad. reflexivity. }
    assert (H2 : read_zipfile [bad; good] = (fst (read_zipfile [good]), [ErroMetadados e])).
    { rewrite !read_zipfile_ingest. cbn [filter]. rewrite Hg, Hb.
      unfold ingest. cbn [fold_left].
      rewrite (Hbad empty_frame []), (Hgood empty_frame ([] ++ [ErroMetadados e])%list).
      rewrite (Hgood empty_frame []). reflexivity. }
    destruct (single_entry_data (content good) m d Hd) as [Hrows Hcols].
    rewrite H1, H2, Hone. cbn [fst].
    repeat (split; [reflexivity|]).
    split; [exact Hrows|]. split; [exact Hrows|].
    intros Hne. split; exact (Hcols Hne).
Qed.

End DataBuilt.

(** ** More on the report *)

Lemma sort_values_sorted (l : list aggregate) :
  (forall e x l1 l2, l = (l1 ++ e :: x :: l2)%list -> entry_le e x = true) ->
  sort_values l = l.
Proof.
  induction l as [|e l IH]; intros Hadj; cbn [sort_values fold_right]; [reflexivity|].
  fold (sort_values l). rewrite IH.
  - destruct l as [|x l]; cbn [insert_entry]; [reflexivity|].
    now rewrite (Hadj e x [] l eq_refl).
  - intros e' x l1 l2 ->. apply (Hadj e' x (e :: l1) l2). reflexivity.
Qed.

Lemma entry_lt_le (a b : aggregate) : entry_lt a b -> entry_le a b = true.
Proof.
  unfold entry_lt, entry_le. intros [-> | [-> Hm]]; [reflexivity|].
  rewrite string_compare_refl. apply Nat.leb_le. lia.
Qed.

Section ReportOrder.

Context {RT : Runtime}.

(** Between two keys of groups, the order of the keys is the order of region
    and month: the month name follows from the month. *)
Lemma group_key_lt (d : DataFrame) (k1 k2 : group_key) :
  In k1 (group_keys d) -> In k2 (group_keys d) -> key_lt k1 k2 ->
  entry_lt (aggregate_group d k1) (aggregate_group d k2).
Proof.
  intros H1 H2 Hlt. apply group_keys_In in H1, H2.
  destruct H1 as (r1 & _ & K1). destruct H2 as (r2 & _ & K2).
  destruct k1 as [[g1 m1] n1], k2 as [[g2 m2] n2].
  apply key_of_inv in K1, K2.
  destruct K1 as (t1 & _ & _ & E1 & N1). destruct K2 as (t2 & _ & _ & E2 & N2).
  unfold key_lt, key_compare in Hlt. unfold entry_lt. cbn.
  destruct (String.compare g1 g2) eqn:Hg; try discriminate; [|now left].
  apply String.compare_eq_iff in Hg. subst g2. right. split; [reflexivity|].
  destruct (Nat.compare m1 m2) eqn:Hm; try discriminate.
  - apply Nat.compare_eq in Hm. rewrite <- N1, <- N2, E1, E2, Hm in Hlt.
    rewrite string_compare_refl in Hlt. discriminate.
  - now apply Nat.compare_lt_iff.
Qed.

Lemma increasing_entries (d : DataFrame) (ks : list group_key) :
  increasing ks -> (forall k, In k ks -> In k (group_keys d)) ->
  StronglySorted entry_lt (map (aggregate_group d) ks).
Proof.
  induction 1 as [|k l Hk Hl IH]; intros Hin; cbn [map]; constructor.
  - apply IH. intros k' Hk'. apply Hin. now right.
  - apply Forall_forall. intros e He. apply in_map_iff in He.
    destruct He as (k' & <- & Hk'). rewrite Forall_forall in Hk.
    apply group_key_lt; [apply Hin; now left | apply Hin; now right | now apply Hk].
Qed.

(** The report is in order of region, then of month, without two lines for
    the same region and month; [groupby] already leaves the groups in this
    order, and the [sort_values] that follows changes nothing. *)
Theorem media_regional_mensal_sorted (df : DataFrame) (lines : list aggregate) :
  media_regional_mensal df = Ok lines ->
  StronglySorted entry_lt lines
  /\ lines = map (aggregate_group df) (group_keys df).
Proof.
  unfold media_regional_mensal. destruct (forallb _ _); [|discriminate]. intros [= <-].
  assert (Hs : StronglySorted entry_lt (map (aggregate_group df) (group_keys df))).
  { apply increasing_entries; [apply sort_keys_increasing | auto]. }
  assert (Hid : sort_values (map (aggregate_group df) (group_keys df))
                = map (aggregate_group df) (group_keys df)).
  { apply sort_values_sorted. intros e x l1 l2 Heq. apply entry_lt_le.
    rewrite Heq in Hs. clear Heq. induction l1 as [|y l1 IH]; cbn [app] in Hs.
    - inversion Hs as [|? ? _ Hall]; subst. now inversion Hall.
    - inversion Hs; subst. now apply IH. }
  rewrite Hid. split; [exact Hs | reflexivity].
Qed.

(** A row without a timestamp is in no group: taking it out of the data
    leaves the report as it is. *)
Theorem media_regional_mensal_undated_row
        (cols : list string) (l1 l2 : list row) (r : row) :
  get "data_hora" r = NA ->
  media_regional_mensal (mk_frame cols (l1 ++ r :: l2))
  = media_regional_mensal (mk_frame cols (l1 ++ l2)).
Proof.
  intros Hr.
  assert (Hk : key_of r = None).
  { unfold key_of. rewrite Hr. now destruct (get "regiao" r). }
  unfold media_regional_mensal. cbn [columns].
  destruct (forallb _ _); [|reflexivity]. do 2 f_equal.
  assert (Hkeys : group_keys (mk_frame cols (l1 ++ r :: l2))
                  = group_keys (mk_frame cols (l1 ++ l2))).
  { unfold group_keys. cbn [rows]. rewrite !flat_map_app. cbn [flat_map].
    now rewrite Hk. }
  rewrite Hkeys. apply map_ext. intros k. unfold aggregate_group. cbn [rows].
  assert (Hf : filter (in_group k) (l1 ++ r :: l2) = filter (in_group k) (l1 ++ l2)).
  { rewrite !filter_app. cbn [filter].
    assert (Hg : in_group k r = false) by (unfold in_group; now rewrite Hk).
    now rewrite Hg. }
  now rewrite Hf.
Qed.

End ReportOrder.

(** ** The menu of [select_from_list] *)

Lemma window_bounds (n idx : Z) :
  (0 <= idx < n)%Z ->
  let '(start, end_) := window n idx in
  (0 <= start <= idx /\ idx < end_ <= n /\ end_ - start = Z.min n 10)%Z.
Proof.
  intros H. unfold window, visible. change (10 / 2)%Z with 5%Z. cbv zeta. lia.
Qed.

Lemma index_in_range (options : list string) (i : Z) :
  (0 <= i < Z.of_nat (List.length options))%Z ->
  index options i = nth_error options (Z.to_nat i)
  /\ exists o, nth_error options (Z.to_nat i) = Some o.
Proof.
  intros Hi. unfold index.
  assert (H1 : (0 <=? i)%Z = true) by (apply Z.leb_le; lia).
  assert (H2 : (i <? Z.of_nat (List.length options))%Z = true) by (apply Z.ltb_lt; lia).
  rewrite H1, H2. split; [reflexivity|].
  destruct (nth_error options (Z.to_nat i)) as [o|] eqn:Hn; [now exists o|].
  apply nth_error_None in Hn. lia.
Qed.

Lemma index_In (options : list string) (i : Z) (o : string) :
  index options i = Some o -> In o options.
Proof.
  unfold index. destruct (_ && _); [apply nth_error_In|].
  destruct (_ && _); [apply nth_error_In | discriminate].
Qed.

Lemma all_some_map {A B : Type} (g : A -> option B) (l : list A) :
  (forall x, In x l -> exists y, g x = Some y) ->
  exists r, all_some (map g l) = Some r
            /\ List.length r = List.length l
            /\ forall x y, In x l -> g x = Some y -> In y r.
Proof.
  induction l as [|a l IH]; intros Hall; cbn [map all_some].
  - exists []. repeat split. intros x y [].
  - destruct (Hall a (or_introl eq_refl)) as [b Hb].
    destruct IH as (r & Hr & Hlen & Hin); [intros x Hx; apply Hall; now right|].
    rewrite Hb, Hr. exists (b :: r). split; [reflexivity|]. split; [cbn; now rewrite Hlen|].
    intros x y [<- | Hx] Hy; [left; congruence | right; eauto].
Qed.

Lemma zrange_In (a b i : Z) : In i (zrange a b) <-> (a <= i < b)%Z.
Proof.
  unfold zrange. rewrite in_map_iff. split.
  - intros (k & <- & Hk). apply in_seq in Hk. lia.
  - intros H. exists (Z.to_nat (i - a)). split; [lia|]. apply in_seq. lia.
Qed.

Lemma zrange_length (a b : Z) : List.length (zrange a b) = Z.to_nat (b - a).
Proof. unfold zrange. now rewrite length_map, length_seq. Qed.

Lemma screen_lines (options : list string) (idx : Z) :
  (0 <= idx < Z.of_nat (List.length options))%Z ->
  exists lines o,
    screen options idx = Some lines
    /\ Z.of_nat (List.length lines) = Z.min (Z.of_nat (List.length options)) 10
    /\ nth_error options (Z.to_nat idx) = Some o
    /\ In ("> " ++ o) lines.
Proof.
  intros Hidx. unfold screen.
  pose proof (window_bounds _ _ Hidx) as Hw.
  destruct (window (Z.of_nat (List.length options)) idx) as [start end_].
  destruct Hw as (Hs & He & Hsize).
  destruct (all_some_map (menu_line options idx) (zrange start end_))
    as (lines & Hlines & Hlen & Hin).
  { intros i Hi. apply zrange_In in Hi. unfold menu_line.
    destruct (index_in_range options i) as [-> [o ->]]; [lia|]. now eexists. }
  destruct (index_in_range options idx Hidx) as [Hix [o Ho]].
  exists lines, o. split; [exact Hlines|]. split; [rewrite Hlen, zrange_length; lia|].
  split; [exact Ho|].
  apply (Hin idx); [apply zrange_In; lia|].
  unfold menu_line. now rewrite Hix, Ho, Z.eqb_refl.
Qed.

(** With the cursor on one of the options, the part of the list that is
    drawn has ten lines, or all the options when they are fewer; drawing it
    raises nothing, and the option under the cursor is among the lines, marked
    with [>]. *)
Theorem screen_shows_cursor (options : list string) (idx : Z) :
  (0 <= idx < Z.of_nat (List.length options))%Z ->
  exists lines o,
    screen options idx = Some lines
    /\ Z.of_nat (List.length lines) = Z.min (Z.of_nat (List.length options)) 10
    /\ nth_error options (Z.to_nat idx) = Some o
    /\ In ("> " ++ o) lines.
Proof. apply screen_lines. Qed.

Lemma screen_defined (options : list string) (idx : Z) :
  (0 <= idx < Z.of_nat (List.length options))%Z ->
  exists lines, screen options idx = Some lines.
Proof.
  intros Hidx. destruct (screen_lines options idx Hidx) as (lines & o & H & _).
  now exists lines.
Qed.

Lemma manual_choice_In (options : list string) (typed o : string) :
  manual_choice options typed = Some o -> In o options.
Proof.
  unfold manual_choice. destruct (mem (strip typed) options) eqn:Hm; [|discriminate].
  intros [= <-]. now apply mem_In.
Qed.

Lemma select_loop_In (options : list string) (typed o : string)
      (keys : list (option string)) : forall idx,
  select_loop options typed idx keys = Returned (Some o) -> In o options.
Proof.
  induction keys as [|[ch|] keys IH]; intros idx; cbn [select_loop];
    destruct (screen options idx);
    try (intros [= H]; now apply (manual_choice_In options typed));
    try discriminate.
  destruct (mem ch keys_up); [apply IH|].
  destruct (mem ch keys_down); [apply IH|].
  destruct (mem ch ["k"; "K"]); [apply IH|].
  destruct (mem ch ["j"; "J"]); [apply IH|].
  destruct (mem ch [String cr ""; String Str.newline ""]).
  - destruct (index options idx) as [o'|] eqn:Hi.
    + intros [= <-]. now apply (index_In options idx).
    + intros [= H]. now apply (manual_choice_In options typed).
  - destruct (mem ch ["q"; "Q"]); [discriminate | apply IH].
Qed.

(** Whatever is typed, [select_from_list] returns one of the options or
    [None]: through the keys, through the line read when the input is not a
    terminal, or through the manual entry after an exception. *)
Theorem select_from_list_member
        (options : list string) (isatty : bool) (typed : string)
        (keys : list (option string)) (o : string) :
  select_from_list options isatty typed keys = Returned (Some o) -> In o options.
Proof.
  unfold select_from_list. destruct options as [|x options]; [discriminate|].
  destruct isatty; cbn [negb].
  - apply select_loop_In.
  - intros [= H]. now apply (manual_choice_In (x :: options) typed).
Qed.

Section Moves.

Variable options : list string.
Variable typed : string.

Lemma select_loop_key (ch : string) (idx : Z) (keys : list (option string)) :
  (0 <= idx < Z.of_nat (List.length options))%Z ->
  select_loop options typed idx (Some ch :: keys)
  = if mem ch keys_up then select_loop options typed ((idx - 1) mod Z.of_nat (List.length options))%Z keys
    else if mem ch keys_down then select_loop options typed ((idx + 1) mod Z.of_nat (List.length options))%Z keys
    else if mem ch ["k"; "K"] then select_loop options typed ((idx - 1) mod Z.of_nat (List.length options))%Z keys
    else if mem ch ["j"; "J"] then select_loop options typed ((idx + 1) mod Z.of_nat (List.length options))%Z keys
    else if mem ch [String cr ""; String Str.newline ""] then Returned (index options idx)
    else if mem ch ["q"; "Q"] then Returned None
    else select_loop options typed idx keys.
Proof.
  intros Hidx. cbn [select_loop].
  destruct (screen_defined options idx Hidx) as [lines ->].
  destruct (index_in_range options idx Hidx) as [-> [o ->]]. reflexivity.
Qed.

Lemma select_loop_enter (idx : Z) (keys : list (option string)) :
  (0 <= idx < Z.of_nat (List.length options))%Z ->
  select_loop options typed idx (Some (String cr "") :: keys) = Returned (index options idx).
Proof. intros Hidx. rewrite select_loop_key by exact Hidx. reflexivity. Qed.

Lemma select_loop_j (idx : Z) (keys : list (option string)) :
  (0 <= idx < Z.of_nat (List.length options))%Z ->
  select_loop options typed idx (Some "j" :: keys)
  = select_loop options typed ((idx + 1) mod Z.of_nat (List.length options))%Z keys.
Proof. intros Hidx. rewrite select_loop_key by exact Hidx. reflexivity. Qed.

Lemma select_loop_k (idx : Z) (keys : list (option string)) :
  (0 <= idx < Z.of_nat (List.length options))%Z ->
  select_loop options typed idx (Some "k" :: keys)
  = select_loop options typed ((idx - 1) mod Z.of_nat (List.length options))%Z keys.
Proof. intros Hidx. rewrite select_loop_key by exact Hidx. reflexivity. Qed.

Lemma moves_down (k : nat) : forall idx,
  (0 <= idx < Z.of_nat (List.length options))%Z ->
  select_loop options typed idx (repeat (Some "j") k ++ [Some (String cr "")])
  = Returned (index options ((idx + Z.of_nat k) mod Z.of_nat (List.length options))%Z).
Proof.
  induction k as [|k IH]; intros idx Hidx; cbn [repeat app].
  - rewrite select_loop_enter by exact Hidx.
    cbn [Z.of_nat]. now rewrite Z.add_0_r, Z.mod_small by exact Hidx.
  - rewrite select_loop_j by exact Hidx.
    rewrite IH by (apply Z.mod_pos_bound; lia).
    rewrite Zplus_mod_idemp_l. do 3 f_equal. lia.
Qed.

Lemma moves_up (k : nat) : forall idx,
  (0 <= idx < Z.of_nat (List.length options))%Z ->
  select_loop options typed idx (repeat (Some "k") k ++ [Some (String cr "")])
  = Returned (index options ((idx - Z.of_nat k) mod Z.of_nat (List.length options))%Z).
Proof.
  induction k as [|k IH]; intros idx Hidx; cbn [repeat app].
  - rewrite select_loop_enter by exact Hidx.
    cbn [Z.of_nat]. now rewrite Z.sub_0_r, Z.mod_small by exact Hidx.
  - rewrite select_loop_k by exact Hidx.
    rewrite IH by (apply Z.mod_pos_bound; lia).
    rewrite Zminus_mod_idemp_l. do 3 f_equal. lia.
Qed.

End Moves.

Lemma select_from_list_terminal (options : list string) (typed : string)
      (keys : list (option string)) :
  options <> [] ->
  select_from_list options true typed keys = select_loop options typed 0%Z keys.
Proof. destruct options; [intros H; now contradiction H | reflexivity]. Qed.

(** On a terminal, [k] times the key [j] and then Enter return the option
    number [k] modulo the number of options, counting from 0: the cursor goes
    down and comes back to the top after the last option.  With the key [k]
    it goes up, from the first option to the last. *)
Theorem select_from_list_moves (options : list string) (typed : string) (k : nat) :
  options <> [] ->
  let n := Z.of_nat (List.length options) in
  select_from_list options true typed (repeat (Some "j") k ++ [Some (String cr "")])
  = Returned (nth_error options (Z.to_nat (Z.of_nat k mod n)))
  /\ select_from_list options true typed (repeat (Some "k") k ++ [Some (String cr "")])
     = Returned (nth_error options (Z.to_nat ((- Z.of_nat k) mod n))).
Proof.
  intros Hne n. rewrite !select_from_list_terminal by exact Hne.
  assert (Hn : (0 < n)%Z) by (subst n; destruct options; [congruence | cbn [List.length]; lia]).
  rewrite moves_down, moves_up by (fold n; lia). fold n.
  rewrite !Z.add_0_l, Z.sub_0_l.
  split; f_equal; apply index_in_range; fold n; apply Z.mod_pos_bound; exact Hn.
Qed.

(** ** The download step *)

(** A call of [download_zip_for_year] that ends with [LocalPath] leaves the
    file of before, which was there and is not to be overwritten, or the
    complete download.  A call that raises [RuntimeError] while the file can
    be removed leaves no file: not the part that was written, and not, when
    [overwrite] is set, the file that was there before the call. *)
Theorem download_zip_for_year_file
        (overwrite : bool) (net : transfer) (unlink_ok : bool) (local : zip_file) :
  match download_zip_for_year overwrite net unlink_ok local with
  | (LocalPath, f) =>
      (f = local /\ local <> Absent /\ overwrite = false) \/ (f = Downloaded /\ net = Completed)
  | (RuntimeError, f) => unlink_ok = true -> f = Absent
  | (Propagated, f) => f = local \/ f = Partial
  end.
Proof.
  unfold download_zip_for_year, try_unlink.
  destruct local, overwrite, net, unlink_ok; cbn; auto;
    try discriminate;
    try (left; split; [reflexivity | split; [discriminate | reflexivity]]).
Qed.

(** The script calls the download without [overwrite].  When the download
    raises, the file that the script falls back to is never a usable one:
    either there is no file and the script stops, or the file is the one that
    the failed download left half written. *)
Theorem choose_zip_fallback (net : transfer) (unlink_ok : bool) (local : zip_file) :
  fst (download_zip_for_year false net unlink_ok local) <> LocalPath ->
  local = Absent
  /\ (choose_zip net unlink_ok local = None \/ choose_zip net unlink_ok local = Some Partial).
Proof.
  unfold choose_zip, download_zip_for_year, try_unlink.
  destruct local, net, unlink_ok; cbn; intros H; auto; now contradiction H.
Qed.

(** ** Worked examples of the further properties *)

Lemma consume_prefix (p q : list charclass) : forall s r,
  consume (p ++ q) s = Some r -> matches p s = true.
Proof.
  unfold matches. induction p as [|k p IH]; intros s r; cbn [app consume]; [reflexivity|].
  destruct s as [|c s]; [discriminate|]. destruct (k c); [apply IH | discriminate].
Qed.

Lemma reference_year_first (s : string) (ts : datetime) :
  Reference.parse_timestamp s = Some ts -> matches [digit; digit; digit; digit] s = true.
Proof.
  unfold Reference.parse_timestamp, matches_exactly.
  match goal with |- context [consume ?p s] =>
    change p with ([digit; digit; digit; digit]
                     ++ [chr "-"; digit; digit; chr "-"; digit; digit;
                         chr " "; digit; digit; chr ":"; digit; digit])%list end.
  destruct (consume _ s) as [r|] eqn:Hc; [|discriminate].
  intros _. eapply consume_prefix. exact Hc.
Qed.

Section MoreWorkedExamples.

Import Examples MoreExamples.
#[local] Existing Instance Reference.runtime.

(** C3 on the well-formed file and the file cut after three lines. *)
Lemma read_zipfile_partial_failure_witness :
  exists e m d,
    read_zipfile [salvador_entry; truncated_entry]
    = (fst (read_zipfile [salvador_entry]), [ErroMetadados e])
    /\ read_zipfile [truncated_entry; salvador_entry]
       = (fst (read_zipfile [salvador_entry]), [ErroMetadados e])
    /\ snd (read_zipfile [salvador_entry]) = []
    /\ read_metadata_try (meta_lines salvador) = Ok m
    /\ read_data salvador = Ok d
    /\ List.length (rows d) = 3
    /\ rows (fst (read_zipfile [salvador_entry; truncated_entry]))
       = map (fun r => (r ++ meta_items m)%list) (rows d)
    /\ rows (fst (read_zipfile [truncated_entry; salvador_entry]))
       = map (fun r => (r ++ meta_items m)%list) (rows d).
Proof.
  destruct read_zipfile_partial_failure as (_ & _ & Htwo).
  assert (Hm : exists m, read_metadata_try (meta_lines salvador) = Ok m)
    by (eexists; vm_compute; reflexivity).
  destruct Hm as [m Hm].
  assert (Hd : exists d, read_data salvador = Ok d /\ List.length (rows d) = 3)
    by (eexists; split; vm_compute; reflexivity).
  destruct Hd as (d & Hd & Hlen).
  assert (Hshort : List.length (meta_lines truncated) < 8) by (cbn; lia).
  destruct (Htwo salvador_entry truncated_entry m d eq_refl eq_refl Hm Hd Hshort)
    as (e & H1 & H2 & H3 & H4 & H5 & _).
  exists e, m, d. split; [exact H1|]. split; [exact H2|].
  split; [now rewrite H3|]. split; [exact Hm|]. split; [exact Hd|].
  split; [exact Hlen|]. split; [exact H4 | exact H5].
Defined.

Lemma read_data_day_first_date_witness :
  day_first "01/02/2020" /\ read_data day_first_file = Raise ValueError.
Proof.
  assert (Hday : day_first "01/02/2020") by (do 3 eexists; reflexivity).
  split; [exact Hday|].
  eapply (@read_data_day_first_date Reference.runtime day_first_file _ _ _ "01/02/2020"
            reference_year_first eq_refl).
  - vm_compute. reflexivity.
  - reflexivity.
  - reflexivity.
  - vm_compute. left. reflexivity.
  - reflexivity.
  - exact Hday.
Defined.

Lemma read_metadata_bad_header_witness :
  read_metadata (meta_lines truncated) = (None, [ErroMetadados StopIteration])
  /\ read_metadata [["REGIAO:"; "NE"]; ["UF:"]] = (None, [ErroMetadados ValueError]).
Proof.
  split.
  - apply (proj1 (read_metadata_bad_header (meta_lines truncated))); [cbn; lia | reflexivity].
  - apply (proj2 (read_metadata_bad_header [["REGIAO:"; "NE"]; ["UF:"]])). reflexivity.
Defined.

Lemma parse_founding_date_witness :
  valid_date 2000 5 13 = true /\ String.length "13/05/00" = 8.
Proof.
  destruct (parse_founding_date "13/05/00" (mk_datetime 2000 5 13 0 0) eq_refl)
    as (Hv & _ & _ & Hlen & _).
  split; [exact Hv | exact Hlen].
Defined.

Lemma read_data_schema_witness :
  exists out,
    read_data salvador = Ok out
    /\ columns out = (present_columns january_table ++ ["data_hora"])%list
    /\ NoDup (columns out) /\ well_formed out.
Proof.
  eexists. split; [vm_compute; reflexivity|].
  apply (read_data_schema salvador january_table); [reflexivity | vm_compute; reflexivity |].
  vm_compute. discriminate.
Defined.

Lemma read_data_repeated_label_witness :
  count "temperatura_ar" (labels repeated_table) = 2
  /\ read_data repeated_file = Raise AttributeError.
Proof.
  split; [reflexivity|].
  apply (read_data_repeated_label repeated_file repeated_table "temperatura_ar").
  - reflexivity.
  - cbn. lia.
  - vm_compute. tauto.
  - vm_compute. lia.
Defined.

Lemma read_data_date_columns_witness :
  count "data" (labels undated_table) = 0
  /\ read_data undated_file = Ok empty_frame.
Proof.
  split; [reflexivity|].
  eapply (fun d Hd => proj1 (read_data_date_columns undated_file undated_table d eq_refl Hd)).
  - vm_compute. reflexivity.
  - vm_compute. reflexivity.
Defined.

Lemma media_regional_mensal_sorted_witness :
  StronglySorted entry_lt [mk_aggregate "NE" 1 "janeiro" (Some 21%Q) (Some 75%Q)].
Proof.
  apply (media_regional_mensal_sorted ne_january). vm_compute. reflexivity.
Defined.

Lemma media_regional_mensal_undated_row_witness :
  media_regional_mensal
    (mk_frame (columns ne_january) ([] ++ undated_row :: rows ne_january))
  = media_regional_mensal (mk_frame (columns ne_january) ([] ++ rows ne_january)).
Proof.
  exact (media_regional_mensal_undated_row
           (columns ne_january) [] (rows ne_january) undated_row eq_refl).
Defined.

Lemma read_zipfile_data_witness :
  In "regiao" (columns (fst (read_zipfile ne_bundle)))
  /\ In "data_hora" (columns (fst (read_zipfile ne_bundle))).
Proof.
  apply (proj1 (read_zipfile_data ne_bundle)). vm_compute. discriminate.
Defined.

Lemma analyse_outcome_witness :
  list_sum (map entry_rows (filter eligible ne_bundle)) <> 0.
Proof.
  pose proof (analyse_outcome ne_bundle) as H. vm_compute in H. vm_compute.
  exact (proj1 (proj2 H)).
Defined.

End MoreWorkedExamples.

Lemma screen_shows_cursor_witness :
  exists lines,
    screen years 25 = Some lines /\ List.length lines = 10 /\ In "> 2025" lines.
Proof.
  destruct (screen_shows_cursor years 25) as (lines & o & Hs & Hlen & Ho & Hin).
  - vm_compute. split; [discriminate | reflexivity].
  - exists lines. split; [exact Hs|]. split.
    + change (Z.of_nat (List.length years)) with 26%Z in Hlen. lia.
    + vm_compute in Ho. injection Ho as <-. exact Hin.
Defined.

Lemma select_from_list_member_witness :
  In "2001" years.
Proof.
  apply (select_from_list_member years true "" [Some "j"; Some (String cr "")]).
  vm_compute. reflexivity.
Defined.

Lemma select_from_list_moves_witness :
  select_from_list years true "" (repeat (Some "j") 27 ++ [Some (String cr "")])
  = Returned (Some "2001")
  /\ select_from_list years true "" (repeat (Some "k") 1 ++ [Some (String cr "")])
     = Returned (Some "2025").
Proof.
  destruct (select_from_list_moves years "" 27) as [Hdown _]; [vm_compute; discriminate|].
  destruct (select_from_list_moves years "" 1) as [_ Hup]; [vm_compute; discriminate|].
  split; [rewrite Hdown | rewrite Hup]; vm_compute; reflexivity.
Defined.

Lemma choose_zip_fallback_witness :
  choose_zip StreamFailed false Absent = Some Partial.
Proof.
  destruct (choose_zip_fallback StreamFailed false Absent) as [_ [H | H]].
  - cbn. discriminate.
  - cbn in H. discriminate.
  - exact H.
Defined.

Lemma convert_dates_separators_witness :
  convert_dates [VStr "01/02/2020"] = [VStr "01-02-2020"].
Proof.
  destruct (convert_dates_separators [VStr "01/02/2020"]) as (_ & _ & H).
  change (convert_dates [VStr "01/02/2020"])
    with [VStr (Str.replace "/" "-" "01/02/2020")] in *.
  apply Forall2_cons_iff in H. destruct H as [(s' & Ev & _ & _ & Hparts & _) _].
  rewrite Ev. f_equal. f_equal.
  apply (Hparts "01" "02" "2020"); reflexivity.
Defined.

Lemma download_zip_for_year_file_witness :
  snd (download_zip_for_year true StreamFailed true Previous) = Absent.
Proof.
  exact (download_zip_for_year_file true StreamFailed true Previous eq_refl).
Defined.
